(** * Job portal backend: pagination, job filter compiler and job services

    A shallow embedding of
    - [BaseController.getPaginationParams]  (src/controllers/base.controller.ts)
    - [JobService.getAllJobs], [searchJobs], [deleteJob], [applyToJob] and
      [expireOldJobs]                        (src/services/job.service.ts)
    - the sort clause of the second copy of [searchJobs] kept in the
      repository (the unnamed source part_000)
    - [JobService.publishJob], [closeJob], [getSimilarJobs],
      [getJobsByLocation] and [getUserApplications]
                                             (src/services/job.service.ts)
    - [ResponseHelper.paginated]             (the unnamed source part_002)
    - [errorHandler]                (src/middleware/notFound.middleware.ts).

    Conventions.  Timestamps are integers (milliseconds since the epoch),
    salaries are integers, text is an ASCII [string].  A value that can be
    [undefined] or [null] in the source is an [option].  Numbers are exact
    integers: the model agrees with the code's double arithmetic on the safe
    integers (magnitude below 2^53), and statements that depend on an exact
    value are made for those. *)

From Stdlib Require Import ZArith String Ascii List Bool Lia Btauto.
Import ListNotations.
Local Open Scope string_scope.
Local Open Scope Z_scope.

Set Implicit Arguments.
Set Warnings "-register-all".

(* ===================================================================== *)
(** ** JavaScript primitives used by the code *)
(* ===================================================================== *)

Module JS.

(** Truthiness of a possibly undefined string: [""] and [undefined] are falsy. *)
Definition truthyStr (s : option string) : bool :=
  match s with
  | Some EmptyString => false
  | Some _ => true
  | None => false
  end.

(** Truthiness of a possibly undefined number: [0] and [undefined] are falsy. *)
Definition truthyNum (n : option Z) : bool :=
  match n with
  | Some z => negb (z =? 0)
  | None => false
  end.

(** Truthiness of a possibly undefined boolean. *)
Definition truthyBool (b : option bool) : bool :=
  match b with
  | Some true => true
  | _ => false
  end.

(** The ASCII members of the white space and line terminator classes. *)
Definition isWhiteSpace (c : ascii) : bool :=
  let n := nat_of_ascii c in
  ((9 <=? n)%nat && (n <=? 13)%nat) || (n =? 32)%nat.

Fixpoint trimStart (s : string) : string :=
  match s with
  | EmptyString => EmptyString
  | String c r => if isWhiteSpace c then trimStart r else s
  end.

Fixpoint rev_string (s acc : string) : string :=
  match s with
  | EmptyString => acc
  | String c r => rev_string r (String c acc)
  end.

Definition trimEnd (s : string) : string :=
  rev_string (trimStart (rev_string s EmptyString)) EmptyString.

(** [String.prototype.trim]. *)
Definition trim (s : string) : string := trimEnd (trimStart s).

Definition lowerChar (c : ascii) : ascii :=
  let n := nat_of_ascii c in
  if ((65 <=? n)%nat && (n <=? 90)%nat)%bool then ascii_of_nat (n + 32) else c.

Fixpoint toLowerCase (s : string) : string :=
  match s with
  | EmptyString => EmptyString
  | String c r => String (lowerChar c) (toLowerCase r)
  end.

(** [hay.includes(needle)]. *)
Fixpoint includes (needle hay : string) : bool :=
  prefix needle hay ||
  match hay with
  | EmptyString => false
  | String _ r => includes needle r
  end.

(** The result of [parseInt]: an integer or [NaN].  The integer is the exact
    value of the digits; the code holds it as a double, which is that value
    as long as it is a safe integer (magnitude below 2^53) and a rounded one
    (or an infinity) beyond. *)
Inductive number : Type :=
| NaN : number
| Num : Z -> number.

(** Value of a character as a digit, in radixes up to 36. *)
Definition digitValue (c : ascii) : option Z :=
  let n := nat_of_ascii c in
  if ((48 <=? n)%nat && (n <=? 57)%nat)%bool then Some (Z.of_nat (n - 48))
  else if ((97 <=? n)%nat && (n <=? 122)%nat)%bool then Some (Z.of_nat (n - 87))
  else if ((65 <=? n)%nat && (n <=? 90)%nat)%bool then Some (Z.of_nat (n - 55))
  else None.

(** Longest prefix of radix-[R] digits, read as a number; [None] when the
    prefix is empty. *)
Fixpoint parseDigits (R : Z) (s : string) (acc : option Z) : option Z :=
  match s with
  | EmptyString => acc
  | String c r =>
    match digitValue c with
    | Some d =>
          if d <? R
          then parseDigits R r (Some (match acc with
                                      | Some a => a * R + d
                                      | None => d
                                      end))
          else acc
    | None => acc
    end
  end.

(** [parseInt(x)] with no radix argument.  An [undefined] argument is first
    converted to the string ["undefined"].  The value is exact (see
    [number]). *)
Definition parseInt (x : option string) : number :=
  let s := trimStart (match x with Some s => s | None => "undefined" end) in
  let '(sign, s1) :=
    match s with
    | String "-" r => (-1, r)
    | String "+" r => (1, r)
    | _ => (1, s)
    end in
  let '(R, s2) :=
    match s1 with
    | String "0" (String "x" r) => (16, r)
    | String "0" (String "X" r) => (16, r)
    | _ => (10, s1)
    end in
  match parseDigits R s2 None with
  | Some v => Num (sign * v)
  | None => NaN
  end.

(** [x || d] for a number [x] and a numeric default [d]: [NaN] and [0]
    are falsy. *)
Definition orDefault (x : number) (d : Z) : Z :=
  match x with
  | NaN => d
  | Num 0 => d
  | Num z => z
  end.

End JS.

(* ===================================================================== *)
(** ** BaseController.getPaginationParams *)
(* ===================================================================== *)

(** The part of [req.query] read by the controller. *)
Record Query : Type := mkQuery {
  q_page : option string;
  q_limit : option string
}.

Record PaginationParams : Type := mkPagination {
  page : Z;
  limit : Z;
  skip : Z
}.

(** [getPaginationParams(req)].  The three numbers are exact integers; they
    are the code's doubles whenever the values read and the product
    [(page - 1) * limit] are safe integers. *)
Definition getPaginationParams (req : Query) : PaginationParams :=
  let page := JS.orDefault (JS.parseInt (q_page req)) 1 in
  let limit := Z.min (JS.orDefault (JS.parseInt (q_limit req)) 10) 50 in
  let skip := (page - 1) * limit in
  {| page := page; limit := limit; skip := skip |}.


(* ===================================================================== *)
(** ** Data model *)
(* ===================================================================== *)

(** Modelled from the spec: the Prisma schema and its generated client
    types ([JobStatus], the row types, the relations between them and the
    delete rule of the job/skill relation) are not part of the sources.  The
    rows below carry the columns that the modelled service code reads or
    writes, with the names the code uses for them. *)

Inductive JobStatus : Type := DRAFT | PUBLISHED | CLOSED | EXPIRED.
Inductive UserRole : Type := JOB_SEEKER | EMPLOYER | ADMIN.
Inductive ApplicationStatus : Type :=
  PENDING | REVIEWED | SHORTLISTED | ACCEPTED | REJECTED.

Definition JobStatus_eqb (a b : JobStatus) : bool :=
  match a, b with
  | DRAFT, DRAFT | PUBLISHED, PUBLISHED | CLOSED, CLOSED | EXPIRED, EXPIRED => true
  | _, _ => false
  end.

Definition UserRole_eqb (a b : UserRole) : bool :=
  match a, b with
  | JOB_SEEKER, JOB_SEEKER | EMPLOYER, EMPLOYER | ADMIN, ADMIN => true
  | _, _ => false
  end.

Module Job.
Record t : Type := mk {
  id : string;
  title : string;
  description : string;
  requirements : option string;
  responsibilities : option string;
  type : string;
  experienceLevel : string;
  salaryMin : option Z;
  salaryMax : option Z;
  location : option string;
  isRemote : bool;
  status : JobStatus;
  expiresAt : option Z;
  companyId : string;
  categoryId : option string;
  createdAt : Z;
  updatedAt : Z
}.
End Job.

Module Company.
Record t : Type := mk {
  id : string;
  name : string;
  ownerId : string
}.
End Company.

Module Profile.
Record t : Type := mk {
  resumeUrl : option string
}.
End Profile.

Module User.
Record t : Type := mk {
  id : string;
  role : UserRole;
  profile : option Profile.t
}.
End User.

Module Application.
Record t : Type := mk {
  jobId : string;
  applicantId : string;
  coverLetter : option string;
  resumeUrl : option string;
  status : ApplicationStatus
}.
End Application.

Module JobSkill.
Record t : Type := mk {
  jobId : string;
  skillId : string;
  isRequired : bool
}.
End JobSkill.

(** The tables of the store. *)
Module Db.
Record t : Type := mk {
  jobs : list Job.t;
  companies : list Company.t;
  users : list User.t;
  applications : list Application.t;
  jobSkills : list JobSkill.t
}.
End Db.

(* ===================================================================== *)
(** ** Request types (src/types/api.types.ts) *)
(* ===================================================================== *)

Inductive SortOrder : Type := asc | desc.

Module JobFilters.
Record t : Type := mk {
  category : option string;
  type : option string;
  location : option string;
  salaryMin : option Z;
  salaryMax : option Z;
  isRemote : option bool;
  experienceLevel : option string;
  skills : option (list string);
  search : option string;
  (* inherited from PaginationQuery *)
  sortBy : option string;
  sortOrder : option SortOrder
}.

Definition empty : t :=
  mk None None None None None None None None None None None.

Definition with_location (l : option string) (f : t) : t :=
  mk (category f) (type f) l (salaryMin f) (salaryMax f) (isRemote f)
     (experienceLevel f) (skills f) (search f) (sortBy f) (sortOrder f).

Definition with_salaryMin (v : option Z) (f : t) : t :=
  mk (category f) (type f) (location f) v (salaryMax f) (isRemote f)
     (experienceLevel f) (skills f) (search f) (sortBy f) (sortOrder f).

Definition with_salaryMax (v : option Z) (f : t) : t :=
  mk (category f) (type f) (location f) (salaryMin f) v (isRemote f)
     (experienceLevel f) (skills f) (search f) (sortBy f) (sortOrder f).

Definition with_isRemote (v : option bool) (f : t) : t :=
  mk (category f) (type f) (location f) (salaryMin f) (salaryMax f) v
     (experienceLevel f) (skills f) (search f) (sortBy f) (sortOrder f).

Definition with_sort (by_ : option string) (o : option SortOrder) (f : t) : t :=
  mk (category f) (type f) (location f) (salaryMin f) (salaryMax f) (isRemote f)
     (experienceLevel f) (skills f) (search f) by_ o.
End JobFilters.

(* ===================================================================== *)
(** ** Query arguments handed to the store client *)
(* ===================================================================== *)

(** Text columns that a [contains] filter of the code refers to;
    [F_company_name] is the [name] of the related company. *)
Inductive StrField : Type :=
  F_title | F_description | F_requirements | F_responsibilities | F_company_name.

Inductive NumField : Type := F_salaryMin | F_salaryMax.

(** Filters on the [expiresAt] column: [null], [{ gt: d }], [{ lte: d }]. *)
Inductive DateFilter : Type :=
| IsNull : DateFilter
| Gt : Z -> DateFilter
| Lte : Z -> DateFilter.

(** The objects that occur inside the [OR] and [AND] arrays. *)
Inductive Cond : Type :=
| C_contains : StrField -> string -> Cond   (* { f: { contains, mode: insensitive } } *)
| C_gte : NumField -> Z -> Cond             (* { f: { gte: v } } *)
| C_lte : NumField -> Z -> Cond             (* { f: { lte: v } } *)
| C_expiresAt : DateFilter -> Cond          (* { expiresAt: ... } *)
| C_OR : list Cond -> Cond.                 (* { OR: [...] } *)

(** The [where] object.  An absent key is [None]. *)
Module Where.
Record t : Type := mk {
  status : option JobStatus;
  OR : option (list Cond);
  AND : option (list Cond);
  categoryId : option string;
  type : option string;
  location : option string;       (* { contains, mode: insensitive } *)
  isRemote : option bool;
  experienceLevel : option string;
  jobSkills : option (list string); (* { some: { skillId: { in } } } *)
  expiresAt : option DateFilter
}.

Definition set_AND (v : list Cond) (w : t) : t :=
  mk (status w) (OR w) (Some v) (categoryId w) (type w) (location w)
     (isRemote w) (experienceLevel w) (jobSkills w) (expiresAt w).
Definition set_categoryId (v : string) (w : t) : t :=
  mk (status w) (OR w) (AND w) (Some v) (type w) (location w)
     (isRemote w) (experienceLevel w) (jobSkills w) (expiresAt w).
Definition set_type (v : string) (w : t) : t :=
  mk (status w) (OR w) (AND w) (categoryId w) (Some v) (location w)
     (isRemote w) (experienceLevel w) (jobSkills w) (expiresAt w).
Definition set_location (v : string) (w : t) : t :=
  mk (status w) (OR w) (AND w) (categoryId w) (type w) (Some v)
     (isRemote w) (experienceLevel w) (jobSkills w) (expiresAt w).
Definition set_isRemote (v : bool) (w : t) : t :=
  mk (status w) (OR w) (AND w) (categoryId w) (type w) (location w)
     (Some v) (experienceLevel w) (jobSkills w) (expiresAt w).
Definition set_experienceLevel (v : string) (w : t) : t :=
  mk (status w) (OR w) (AND w) (categoryId w) (type w) (location w)
     (isRemote w) (Some v) (jobSkills w) (expiresAt w).
Definition set_jobSkills (v : list string) (w : t) : t :=
  mk (status w) (OR w) (AND w) (categoryId w) (type w) (location w)
     (isRemote w) (experienceLevel w) (Some v) (expiresAt w).
End Where.

(** The [orderBy] object: one column with a direction, or
    [{ company: { name: dir } }]. *)
Inductive OrderBy : Type :=
| OrderByField : string -> SortOrder -> OrderBy
| OrderByCompanyName : SortOrder -> OrderBy.

Record FindManyArgs : Type := mkFindMany {
  fm_skip : Z;
  fm_take : Z;
  fm_where : Where.t;
  fm_orderBy : OrderBy
}.

Record CountArgs : Type := mkCount {
  cnt_where : Where.t
}.

(* ===================================================================== *)
(** ** Meaning of a [where] object on a job row *)
(* ===================================================================== *)

Section Eval.
Variable db : Db.t.
Variable j : Job.t.

  (** Case-insensitive [contains]; a [null] column never matches. *)
Definition containsI (col : option string) (term : string) : bool :=
  match col with
  | Some s => JS.includes (JS.toLowerCase term) (JS.toLowerCase s)
  | None => false
  end.

Definition company_of : option Company.t :=
  find (fun c => Company.id c =? Job.companyId j)%string (Db.companies db).

Definition strField (f : StrField) : option string :=
  match f with
  | F_title => Some (Job.title j)
  | F_description => Some (Job.description j)
  | F_requirements => Job.requirements j
  | F_responsibilities => Job.responsibilities j
  | F_company_name => option_map Company.name company_of
  end.

Definition numField (f : NumField) : option Z :=
  match f with
  | F_salaryMin => Job.salaryMin j
  | F_salaryMax => Job.salaryMax j
  end.

  (** Comparisons with a [null] column are never satisfied. *)
Definition gte (col : option Z) (v : Z) : bool :=
  match col with Some x => v <=? x | None => false end.
Definition lte (col : option Z) (v : Z) : bool :=
  match col with Some x => x <=? v | None => false end.

Definition evalDate (f : DateFilter) : bool :=
  match f, Job.expiresAt j with
  | IsNull, None => true
  | IsNull, Some _ => false
  | Gt d, Some e => d <? e
  | Lte d, Some e => e <=? d
  | _, None => false
  end.

Fixpoint evalCond (c : Cond) : bool :=
  match c with
  | C_contains f term => containsI (strField f) term
  | C_gte f v => gte (numField f) v
  | C_lte f v => lte (numField f) v
  | C_expiresAt d => evalDate d
  | C_OR cs => existsb evalCond cs
  end.

  (** A key that is absent puts no condition on the row. *)
Definition onKey {A : Type} (k : option A) (p : A -> bool) : bool :=
  match k with Some v => p v | None => true end.

Definition hasSkillIn (ids : list string) : bool :=
  existsb (fun js => (JobSkill.jobId js =? Job.id j)%string
                     && existsb (String.eqb (JobSkill.skillId js)) ids)
          (Db.jobSkills db).

  (** All keys of a [where] object are combined by conjunction. *)
Definition evalWhere (w : Where.t) : bool :=
  onKey (Where.status w) (fun s => JobStatus_eqb (Job.status j) s)
  && onKey (Where.OR w) (existsb evalCond)
  && onKey (Where.AND w) (forallb evalCond)
  && onKey (Where.categoryId w)
       (fun c => match Job.categoryId j with
                 | Some c' => (c' =? c)%string
                 | None => false
                 end)
  && onKey (Where.type w) (String.eqb (Job.type j))
  && onKey (Where.location w) (containsI (Job.location j))
  && onKey (Where.isRemote w) (Bool.eqb (Job.isRemote j))
  && onKey (Where.experienceLevel w) (String.eqb (Job.experienceLevel j))
  && onKey (Where.jobSkills w) hasSkillIn
  && onKey (Where.expiresAt w) evalDate.
End Eval.

(** Rows selected by a [where] object. *)
Definition matching (db : Db.t) (w : Where.t) : list Job.t :=
  filter (fun j => evalWhere db j w) (Db.jobs db).


(* ===================================================================== *)
(** ** Effects: the store, the clock and thrown errors *)
(* ===================================================================== *)

(** What a service method can throw: an [AppError] with its message and
    status code, or a run-time [TypeError]. *)
Inductive Exn : Type :=
| AppError : string -> Z -> Exn
| TypeError : Exn.

Inductive Outcome (A : Type) : Type :=
| Ok : A -> Outcome A
| Throw : Exn -> Outcome A.
Arguments Ok {A} _.
Arguments Throw {A} _.

(** The world a method runs in: the tables, and the instants that the
    successive evaluations of [new Date()] will return ([clock 0] is the
    next one). *)
Record World : Type := mkWorld {
  db : Db.t;
  clock : nat -> Z
}.

Definition Prog (A : Type) : Type := World -> Outcome A * World.

Definition ret {A : Type} (a : A) : Prog A := fun w => (Ok a, w).

Definition bind {A B : Type} (m : Prog A) (k : A -> Prog B) : Prog B :=
  fun w =>
    match m w with
    | (Ok a, w') => k a w'
    | (Throw e, w') => (Throw e, w')
    end.

Definition throw {A : Type} (e : Exn) : Prog A := fun w => (Throw e, w).

Declare Scope prog_scope.
Delimit Scope prog_scope with prog.
Notation "x <- m ;; k" := (bind m (fun x => k))
  (at level 100, m at next level, right associativity) : prog_scope.
Notation "m ;;; k" := (bind m (fun _ => k))
  (at level 100, right associativity) : prog_scope.
Local Open Scope prog_scope.

(** [new Date()]. *)
Definition newDate : Prog Z :=
  fun w => (Ok (clock w 0%nat),
            {| db := db w; clock := fun n => clock w (S n) |}).

Definition getDb : Prog Db.t := fun w => (Ok (db w), w).

Definition putDb (d : Db.t) : Prog unit :=
  fun w => (Ok tt, {| db := d; clock := clock w |}).

(** A clock never runs backwards. *)
Definition monotone (c : nat -> Z) : Prop := forall n, c n <= c (S n).

(* --------------------------------------------------------------------- *)
(** *** Store client operations used by the service *)
(* --------------------------------------------------------------------- *)

(** Number of applications of a job ([_count.applications]). *)
Definition applicationCount (d : Db.t) (jobId : string) : Z :=
  Z.of_nat (List.length (filter (fun a => (Application.jobId a =? jobId)%string)
                           (Db.applications d))).

(** [job.findUnique({ where: { id } })]. *)
Definition job_findUnique (id : string) : Prog (option Job.t) :=
  d <- getDb ;;
  ret (find (fun j => (Job.id j =? id)%string) (Db.jobs d)).

Definition company_findUnique (id : string) : Prog (option Company.t) :=
  d <- getDb ;;
  ret (find (fun c => (Company.id c =? id)%string) (Db.companies d)).

Definition user_findUnique (id : string) : Prog (option User.t) :=
  d <- getDb ;;
  ret (find (fun u => (User.id u =? id)%string) (Db.users d)).

(** [application.findUnique({ where: { jobId_applicantId } })]. *)
Definition application_findUnique (jobId applicantId : string)
  : Prog (option Application.t) :=
  d <- getDb ;;
  ret (find (fun a => (Application.jobId a =? jobId)%string
                      && (Application.applicantId a =? applicantId)%string)
            (Db.applications d)).

(** [application.create({ data })]: the new row is added to the table. *)
Definition application_create (a : Application.t) : Prog Application.t :=
  d <- getDb ;;
  putDb (Db.mk (Db.jobs d) (Db.companies d) (Db.users d)
               (Db.applications d ++ [a])%list (Db.jobSkills d)) ;;;
  ret a.

(** [job.delete({ where: { id } })].  Modelled from the spec: the delete
    rule of the relation is declared in the Prisma schema, which is not part
    of the sources; deleting a job removes its JobSkill rows with it. *)
Definition job_delete (id : string) : Prog unit :=
  d <- getDb ;;
  putDb (Db.mk (filter (fun j => negb (Job.id j =? id)%string) (Db.jobs d))
               (Db.companies d) (Db.users d) (Db.applications d)
               (filter (fun s => negb (JobSkill.jobId s =? id)%string)
                       (Db.jobSkills d))).

(** [job.updateMany({ where, data })]: every selected row is rewritten, and
    the number of selected rows is returned as [count]. *)
Definition job_updateMany (w : Where.t) (data : Job.t -> Job.t) : Prog Z :=
  d <- getDb ;;
  putDb (Db.mk (map (fun j => if evalWhere d j w then data j else j) (Db.jobs d))
               (Db.companies d) (Db.users d) (Db.applications d)
               (Db.jobSkills d)) ;;;
  ret (Z.of_nat (List.length (matching d w))).

(** [job.count({ where })]. *)
Definition job_count (a : CountArgs) : Prog Z :=
  d <- getDb ;;
  ret (Z.of_nat (List.length (matching d (cnt_where a)))).

Section Engine.

(** The relational engine orders the selected rows and cuts the page out of
    them; how it does so is left open. *)
Variable paginate : Db.t -> OrderBy -> Z -> Z -> list Job.t -> list Job.t.

(** [job.findMany({ skip, take, where, orderBy, include })]. *)
Definition job_findMany (a : FindManyArgs) : Prog (list Job.t) :=
  d <- getDb ;;
  ret (paginate d (fm_orderBy a) (fm_skip a) (fm_take a)
                (matching d (fm_where a))).

(* ===================================================================== *)
(** ** JobService (src/services/job.service.ts) *)
(* ===================================================================== *)

(** The literal
    [{ status: "PUBLISHED", OR: [{ expiresAt: null }, { expiresAt: { gt: d } }] }]
    where [d] is the value of the [new Date()] written inside it. *)
Definition publishedWhere (d : Z) : Where.t :=
  Where.mk (Some PUBLISHED)
           (Some [C_expiresAt IsNull; C_expiresAt (Gt d)])
           None None None None None None None None.

Record JobsPage : Type := mkJobsPage {
  jobs : list Job.t;
  total : Z
}.

(** The two argument objects built by [getAllJobs]; each contains its own
    [new Date()]. *)
Definition getAllJobs_queries (d1 d2 : Z) (skip limit : Z) (sort : OrderBy)
  : FindManyArgs * CountArgs :=
  ({| fm_skip := skip; fm_take := limit; fm_where := publishedWhere d1;
      fm_orderBy := sort |},
   {| cnt_where := publishedWhere d2 |}).

(** [getAllJobs]: the elements of the array passed to [Promise.all] are
    evaluated from left to right, so the argument of [findMany] is built
    before the argument of [count]; the two queries then run on the store. *)
Definition getAllJobs (skip limit : Z) (sort : OrderBy) : Prog JobsPage :=
  d1 <- newDate ;;
  d2 <- newDate ;;
  let '(fm, cnt) := getAllJobs_queries d1 d2 skip limit sort in
  jobs <- job_findMany fm ;;
  total <- job_count cnt ;;
  ret {| jobs := jobs; total := total |}.

(** The OR-clause over the searched text columns. *)
Definition searchClause (searchTerm : string) : Cond :=
  C_OR [C_contains F_title searchTerm;
        C_contains F_description searchTerm;
        C_contains F_requirements searchTerm;
        C_contains F_responsibilities searchTerm;
        C_contains F_company_name searchTerm].

(** The conditional statements of [searchJobs], one definition for each, in
    the order of the source.  Each takes the [whereClause] object built so
    far and returns it with the keys it assigns. *)

(** [if (search && search.trim().length > 0) { whereClause.AND = [...] }] *)
Definition addSearch (search : option string) (whereClause : Where.t) : Where.t :=
  match search with
  | Some s =>
      if JS.truthyStr search && (0 <? Z.of_nat (String.length (JS.trim s)))
      then Where.set_AND [searchClause (JS.trim s)] whereClause
      else whereClause
  | None => whereClause
  end.

(** [if (category) { whereClause.categoryId = category }] *)
Definition addCategory (category : option string) (whereClause : Where.t)
  : Where.t :=
  match category with
  | Some c => if JS.truthyStr category then Where.set_categoryId c whereClause
              else whereClause
  | None => whereClause
  end.

(** [if (type) { whereClause.type = type }] *)
Definition addType (type : option string) (whereClause : Where.t) : Where.t :=
  match type with
  | Some t => if JS.truthyStr type then Where.set_type t whereClause
              else whereClause
  | None => whereClause
  end.

(** [if (location && !isRemote) { whereClause.location = {...} }] *)
Definition addLocation (location : option string) (isRemote : option bool)
  (whereClause : Where.t) : Where.t :=
  match location with
  | Some l => if JS.truthyStr location && negb (JS.truthyBool isRemote)
              then Where.set_location l whereClause
              else whereClause
  | None => whereClause
  end.

(** [if (isRemote !== undefined) { whereClause.isRemote = isRemote }] *)
Definition addIsRemote (isRemote : option bool) (whereClause : Where.t)
  : Where.t :=
  match isRemote with
  | Some b => Where.set_isRemote b whereClause
  | None => whereClause
  end.

(** [if (experienceLevel) { whereClause.experienceLevel = experienceLevel }] *)
Definition addExperienceLevel (experienceLevel : option string)
  (whereClause : Where.t) : Where.t :=
  match experienceLevel with
  | Some e => if JS.truthyStr experienceLevel
              then Where.set_experienceLevel e whereClause
              else whereClause
  | None => whereClause
  end.

(** [if (salaryMin || salaryMax) { whereClause.AND = whereClause.AND || [];
      if (salaryMin) { whereClause.AND.push(...) }
      if (salaryMax) { whereClause.AND.push(...) } }] *)
Definition addSalary (salaryMin salaryMax : option Z) (whereClause : Where.t)
  : Where.t :=
  if JS.truthyNum salaryMin || JS.truthyNum salaryMax then
    let and_ := match Where.AND whereClause with
                | Some l => l
                | None => []
                end in
    let and_ :=
      match salaryMin with
      | Some m => if JS.truthyNum salaryMin
                  then (and_ ++ [C_OR [C_gte F_salaryMin m; C_gte F_salaryMax m]])%list
                  else and_
      | None => and_
      end in
    let and_ :=
      match salaryMax with
      | Some m => if JS.truthyNum salaryMax
                  then (and_ ++ [C_lte F_salaryMax m])%list
                  else and_
      | None => and_
      end in
    Where.set_AND and_ whereClause
  else whereClause.

(** [if (skills && skills.length > 0) { whereClause.jobSkills = {...} }] *)
Definition addSkills (skills : option (list string)) (whereClause : Where.t)
  : Where.t :=
  match skills with
  | Some l => if (0 <? Z.of_nat (List.length l))
              then Where.set_jobSkills l whereClause
              else whereClause
  | None => whereClause
  end.

(** The [where] object built by [searchJobs], [now] being the value of its
    one [new Date()]. *)
Definition searchJobs_where (now : Z) (filters : JobFilters.t) : Where.t :=
  let search := JobFilters.search filters in
  let category := JobFilters.category filters in
  let type := JobFilters.type filters in
  let location := JobFilters.location filters in
  let salaryMin := JobFilters.salaryMin filters in
  let salaryMax := JobFilters.salaryMax filters in
  let isRemote := JobFilters.isRemote filters in
  let experienceLevel := JobFilters.experienceLevel filters in
  let skills := JobFilters.skills filters in
  (* Build where clause *)
  let whereClause := publishedWhere now in
  (* Add search conditions *)
  let whereClause := addSearch search whereClause in
  (* Add filter conditions *)
  let whereClause := addCategory category whereClause in
  let whereClause := addType type whereClause in
  let whereClause := addLocation location isRemote whereClause in
  let whereClause := addIsRemote isRemote whereClause in
  let whereClause := addExperienceLevel experienceLevel whereClause in
  (* Salary filter *)
  let whereClause := addSalary salaryMin salaryMax whereClause in
  (* Skills filter *)
  let whereClause := addSkills skills whereClause in
  whereClause.

(** The [orderBy] object built by [searchJobs], for a [sortBy] that names an
    own key of the object (any text but ["__proto__"], whose assignment
    leaves the object without a key). *)
Definition searchJobs_orderBy (filters : JobFilters.t) : OrderBy :=
  let sortBy := match JobFilters.sortBy filters with
                | Some s => s
                | None => "createdAt"
                end in
  let sortOrder := match JobFilters.sortOrder filters with
                   | Some o => o
                   | None => desc
                   end in
  if (sortBy =? "salary")%string then OrderByField "salaryMax" sortOrder
  else if (sortBy =? "company")%string then OrderByCompanyName sortOrder
  else OrderByField sortBy sortOrder.

(** The two argument objects built by [searchJobs]: both refer to the one
    [whereClause] object. *)
Definition searchJobs_queries (now : Z) (filters : JobFilters.t) (skip limit : Z)
  : FindManyArgs * CountArgs :=
  let whereClause := searchJobs_where now filters in
  let orderBy := searchJobs_orderBy filters in
  ({| fm_skip := skip; fm_take := limit; fm_where := whereClause;
      fm_orderBy := orderBy |},
   {| cnt_where := whereClause |}).

Definition searchJobs (filters : JobFilters.t) (skip limit : Z) : Prog JobsPage :=
  now <- newDate ;;
  let '(fm, cnt) := searchJobs_queries now filters skip limit in
  jobs <- job_findMany fm ;;
  total <- job_count cnt ;;
  ret {| jobs := jobs; total := total |}.

End Engine.

(** [deleteJob(jobId, userId)].  The job is read together with its company
    and the number of its applications. *)
Definition deleteJob (jobId userId : string) : Prog string :=
  (* Verify job exists and user owns it *)
  job <- job_findUnique jobId ;;
  match job with
  | None => throw (AppError "Job not found" 404)
  | Some job =>
      company <- company_findUnique (Job.companyId job) ;;
      count_applications <- (d <- getDb ;; ret (applicationCount d jobId)) ;;
      match company with
      | None => throw TypeError
      | Some company =>
          if negb (Company.ownerId company =? userId)%string
          then throw (AppError "You can only delete your own jobs" 403)
          (* Check if job has applications *)
          else if 0 <? count_applications
          then throw (AppError
                 "Cannot delete job with existing applications. Close the job instead."
                 400)
          else
            (* Delete job (cascades to job skills) *)
            job_delete jobId ;;;
            ret "Job deleted successfully"
      end
  end.

Record ApplyToJobData : Type := mkApplyToJobData {
  coverLetter : option string;
  resumeUrl : option string
}.

(** [applyToJob(jobId, userId, data)]. *)
Definition applyToJob (jobId userId : string) (data : ApplyToJobData)
  : Prog Application.t :=
  (* Check if job exists and is published *)
  job <- job_findUnique jobId ;;
  match job with
  | None => throw (AppError "Job not found" 404)
  | Some job =>
      if negb (JobStatus_eqb (Job.status job) PUBLISHED)
      then throw (AppError "This job is not accepting applications" 400)
      else
        (* Check if job is expired; [new Date()] is evaluated only when
           [job.expiresAt] is set *)
        expired <- match Job.expiresAt job with
                   | Some e => now <- newDate ;; ret (e <? now)
                   | None => ret false
                   end ;;
        if (expired : bool)
        then throw (AppError "This job posting has expired" 400)
        else
          (* Check if user is a job seeker *)
          user <- user_findUnique userId ;;
          match user with
          | None => throw (AppError "Only job seekers can apply to jobs" 403)
          | Some user =>
              if negb (UserRole_eqb (User.role user) JOB_SEEKER)
              then throw (AppError "Only job seekers can apply to jobs" 403)
              else
                (* Check if user has already applied *)
                existingApplication <- application_findUnique jobId userId ;;
                match existingApplication with
                | Some _ =>
                    throw (AppError "You have already applied to this job" 409)
                | None =>
                    (* Create application *)
                    application_create
                      (Application.mk jobId userId
                         (option_map JS.trim (coverLetter data))
                         (if JS.truthyStr (resumeUrl data)
                          then resumeUrl data
                          else match User.profile user with
                               | Some p => Profile.resumeUrl p
                               | None => None
                               end)
                         PENDING)
                end
          end
  end.

(** The [data] of the update issued by [expireOldJobs]. *)
Definition markExpired (now : Z) (j : Job.t) : Job.t :=
  Job.mk (Job.id j) (Job.title j) (Job.description j) (Job.requirements j)
         (Job.responsibilities j) (Job.type j) (Job.experienceLevel j)
         (Job.salaryMin j) (Job.salaryMax j) (Job.location j) (Job.isRemote j)
         EXPIRED (Job.expiresAt j) (Job.companyId j) (Job.categoryId j)
         (Job.createdAt j) now.

(** The [where] of the update issued by [expireOldJobs]. *)
Definition expiredWhere (now : Z) : Where.t :=
  Where.mk (Some PUBLISHED) None None None None None None None None
           (Some (Lte now)).

(** [expireOldJobs()]. *)
Definition expireOldJobs : Prog Z :=
  now <- newDate ;;
  count <- job_updateMany (expiredWhere now) (markExpired now) ;;
  ret count.

(* --------------------------------------------------------------------- *)
(** *** The sort clause of the second copy of [searchJobs] (part_000) *)
(* --------------------------------------------------------------------- *)

Module Part000.

(** Lines 202-210 of the unnamed source: the branch for ["salary"] assigns
    [orderBy.company].  As above, [sortBy] is a text other than
    ["__proto__"]. *)
Definition searchJobs_orderBy (filters : JobFilters.t) : OrderBy :=
  let sortBy := match JobFilters.sortBy filters with
                | Some s => s
                | None => "createdAt"
                end in
  let sortOrder := match JobFilters.sortOrder filters with
                   | Some o => o
                   | None => desc
                   end in
  if (sortBy =? "salary")%string then OrderByCompanyName sortOrder
  else if (sortBy =? "company")%string then OrderByCompanyName sortOrder
  else OrderByField sortBy sortOrder.

End Part000.

(** An engine that keeps the stored order; used to run the methods on
    concrete stores. *)
Definition storedOrder (_ : Db.t) (_ : OrderBy) (skip take : Z) (l : list Job.t)
  : list Job.t :=
  firstn (Z.to_nat take) (skipn (Z.to_nat skip) l).

(* ===================================================================== *)
(** ** ResponseHelper.paginated (the unnamed source part_002) *)
(* ===================================================================== *)

Module ResponseHelper.

(** The value of [Math.ceil(total / limit)] for integers [total] and
    [limit]: a division by zero gives [NaN] or an infinity.  The quotient is
    taken exactly, as it is for counts and limits below 2^53. *)
Inductive pages : Type :=
| PagesNaN : pages
| PagesInfinity : bool -> pages     (* [true] for the negative infinity *)
| Pages : Z -> pages.

Definition ceilOfQuotient (total limit : Z) : pages :=
  if limit =? 0 then
    if total =? 0 then PagesNaN
    else PagesInfinity (total <? 0)
  else Pages (- ((- total) / limit)).

(** [page < totalPages]: never true against [NaN]. *)
Definition lessThan (page : Z) (p : pages) : bool :=
  match p with
  | PagesNaN => false
  | PagesInfinity negative => negb negative
  | Pages n => page <? n
  end.

(** The [pagination] object of the response. *)
Record Pagination : Type := mkPagination {
  total : Z;
  page : Z;
  limit : Z;
  totalPages : pages;
  hasNext : bool;
  hasPrev : bool
}.

Definition paginated (total page limit : Z) : Pagination :=
  let totalPages := ceilOfQuotient total limit in
  let hasNext := lessThan page totalPages in
  let hasPrev := 1 <? page in
  {| total := total; page := page; limit := limit;
     totalPages := totalPages; hasNext := hasNext; hasPrev := hasPrev |}.

End ResponseHelper.

(* ===================================================================== *)
(** ** JobService: publishing and closing *)
(* ===================================================================== *)

(** The [data] of the updates issued by [publishJob] and [closeJob]:
    [{ status, updatedAt }]. *)
Definition withStatus (st : JobStatus) (now : Z) (j : Job.t) : Job.t :=
  Job.mk (Job.id j) (Job.title j) (Job.description j) (Job.requirements j)
         (Job.responsibilities j) (Job.type j) (Job.experienceLevel j)
         (Job.salaryMin j) (Job.salaryMax j) (Job.location j) (Job.isRemote j)
         st (Job.expiresAt j) (Job.companyId j) (Job.categoryId j)
         (Job.createdAt j) now.

(** [job.update({ where: { id }, data })] for a row [job] that the caller has
    just read under that key: the row is rewritten and returned. *)
Definition job_update (job : Job.t) (data : Job.t -> Job.t) : Prog Job.t :=
  d <- getDb ;;
  putDb (Db.mk (map (fun r => if (Job.id r =? Job.id job)%string then data r else r)
                    (Db.jobs d))
               (Db.companies d) (Db.users d) (Db.applications d)
               (Db.jobSkills d)) ;;;
  ret (data job).

(** [publishJob(jobId, userId)]. *)
Definition publishJob (jobId userId : string) : Prog Job.t :=
  job <- job_findUnique jobId ;;
  match job with
  | None => throw (AppError "Job not found" 404)
  | Some job =>
      company <- company_findUnique (Job.companyId job) ;;
      match company with
      | None => throw TypeError
      | Some company =>
          if negb (Company.ownerId company =? userId)%string
          then throw (AppError "You can only publish your own jobs" 403)
          else if JobStatus_eqb (Job.status job) PUBLISHED
          then throw (AppError "Job is already published" 400)
          else
            now <- newDate ;;
            job_update job (withStatus PUBLISHED now)
      end
  end.

(** [closeJob(jobId, userId)]. *)
Definition closeJob (jobId userId : string) : Prog Job.t :=
  job <- job_findUnique jobId ;;
  match job with
  | None => throw (AppError "Job not found" 404)
  | Some job =>
      company <- company_findUnique (Job.companyId job) ;;
      match company with
      | None => throw TypeError
      | Some company =>
          if negb (Company.ownerId company =? userId)%string
          then throw (AppError "You can only close your own jobs" 403)
          else if JobStatus_eqb (Job.status job) CLOSED
          then throw (AppError "Job is already closed" 400)
          else
            now <- newDate ;;
            job_update job (withStatus CLOSED now)
      end
  end.

(* ===================================================================== *)
(** ** JobService: similar jobs, jobs by location, a user's applications *)
(* ===================================================================== *)

(** The objects inside the [AND] arrays of [getSimilarJobs] and
    [getJobsByLocation]. *)
Inductive CondX : Type :=
| X_categoryId : option string -> CondX  (* { categoryId: c }, [null] included *)
| X_jobSkills : list string -> CondX     (* { jobSkills: { some: { skillId: { in } } } } *)
| X_location : string -> CondX           (* { location: { contains, mode: insensitive } } *)
| X_isRemote : bool -> CondX             (* { isRemote: b } *)
| X_OR : list CondX -> CondX.            (* { OR: [...] } *)

(** The [where] objects of these two methods:
    [{ id: { not }, status, OR: [...], AND: [...] }], the [id] key being
    optional. *)
Record WhereX : Type := mkWhereX {
  wx_idNot : option string;
  wx_status : JobStatus;
  wx_OR : list Cond;
  wx_AND : list CondX
}.

(** Equality with a value that may be [null]: [null] selects the rows whose
    column is [null]. *)
Definition sameCategory (c : option string) (j : Job.t) : bool :=
  match c, Job.categoryId j with
  | None, None => true
  | Some a, Some b => (b =? a)%string
  | _, _ => false
  end.

Fixpoint evalCondX (d : Db.t) (j : Job.t) (c : CondX) : bool :=
  match c with
  | X_categoryId c => sameCategory c j
  | X_jobSkills ids => hasSkillIn d j ids
  | X_location s => containsI (Job.location j) s
  | X_isRemote b => Bool.eqb (Job.isRemote j) b
  | X_OR cs => existsb (evalCondX d j) cs
  end.

Definition evalWhereX (d : Db.t) (j : Job.t) (w : WhereX) : bool :=
  onKey (wx_idNot w) (fun i => negb (Job.id j =? i)%string)
  && JobStatus_eqb (Job.status j) (wx_status w)
  && existsb (evalCond d j) (wx_OR w)
  && forallb (evalCondX d j) (wx_AND w).

Definition matchingX (d : Db.t) (w : WhereX) : list Job.t :=
  filter (fun j => evalWhereX d j w) (Db.jobs d).

(** The [where] literal of [getSimilarJobs]. *)
Definition similarWhere (jobId : string) (job : Job.t) (skillIds : list string)
  (now : Z) : WhereX :=
  {| wx_idNot := Some jobId;
     wx_status := PUBLISHED;
     wx_OR := [C_expiresAt IsNull; C_expiresAt (Gt now)];
     wx_AND := [X_OR [X_categoryId (Job.categoryId job); X_jobSkills skillIds]] |}.

(** The [where] literal written twice in [getJobsByLocation]. *)
Definition locationWhere (location : string) (now : Z) : WhereX :=
  {| wx_idNot := None;
     wx_status := PUBLISHED;
     wx_OR := [C_expiresAt IsNull; C_expiresAt (Gt now)];
     wx_AND := [X_OR [X_location location; X_isRemote true]] |}.

Record ApplicationsPage : Type := mkApplicationsPage {
  applications : list Application.t;
  applicationsTotal : Z
}.

Section Engine2.

(** As before, the engine orders the selected rows and cuts the page. *)
Variable paginate : Db.t -> OrderBy -> Z -> Z -> list Job.t -> list Job.t.

(** The same for application rows, which are ordered by [appliedAt]. *)
Variable paginateApplications : Db.t -> Z -> Z -> list Application.t
                                -> list Application.t.

(** [getSimilarJobs(jobId, limit = 5)]. *)
Definition getSimilarJobs (jobId : string) (limit : option Z)
  : Prog (list Job.t) :=
  let limit := match limit with Some l => l | None => 5 end in
  job <- job_findUnique jobId ;;
  match job with
  | None => throw (AppError "Job not found" 404)
  | Some job =>
      d <- getDb ;;
      let skillIds :=
        map JobSkill.skillId
            (filter (fun s => (JobSkill.jobId s =? Job.id job)%string)
                    (Db.jobSkills d)) in
      now <- newDate ;;
      ret (paginate d (OrderByField "createdAt" desc) 0 limit
                    (matchingX d (similarWhere jobId job skillIds now)))
  end.

(** [getJobsByLocation(location, skip, limit)]: as in [getAllJobs], each of
    the two literals contains its own [new Date()]. *)
Definition getJobsByLocation (location : string) (skip limit : Z)
  : Prog JobsPage :=
  d1 <- newDate ;;
  d2 <- newDate ;;
  d <- getDb ;;
  ret {| jobs := paginate d (OrderByField "createdAt" desc) skip limit
                          (matchingX d (locationWhere location d1));
         total := Z.of_nat (List.length (matchingX d (locationWhere location d2))) |}.

(** [getUserApplications(userId, skip, limit)]. *)
Definition getUserApplications (userId : string) (skip limit : Z)
  : Prog ApplicationsPage :=
  d <- getDb ;;
  ret {| applications :=
           paginateApplications d skip limit
             (filter (fun a => (Application.applicantId a =? userId)%string)
                     (Db.applications d));
         applicationsTotal :=
           Z.of_nat (List.length
             (filter (fun a => (Application.applicantId a =? userId)%string)
                     (Db.applications d))) |}.

End Engine2.

(* ===================================================================== *)
(** ** errorHandler (src/middleware/notFound.middleware.ts) *)
(* ===================================================================== *)

Module ErrorHandler.

(** What the handler reads of the error it is given: its [name] and
    [message], the [statusCode] and [isOperational] flag when it is an
    [AppError], and the [code] of a store error. *)
Record JsError : Type := mkJsError {
  name : string;
  message : string;
  appError : option (Z * bool);
  code : option string
}.

(** The response: status code, the message sent, whether [stack] and [name]
    are sent with it, and the [path] and [method] of the request.  The
    timestamp is left out. *)
Record Response : Type := mkResponse {
  statusCode : Z;
  errorMessage : string;
  withDetails : bool;
  path : string;
  method : string
}.

Definition isDevelopment (nodeEnv : option string) : bool :=
  match nodeEnv with
  | Some e => (e =? "development")%string
  | None => false
  end.

Definition hasCode (c : option string) (v : string) : bool :=
  match c with
  | Some c' => (c' =? v)%string
  | None => false
  end.

Definition errorHandler (nodeEnv : option string) (error : JsError)
  (url method : string) : Response :=
  let '(statusCode, message, isOperational) :=
    (500, "Internal Server Error", false) in
  (* Handle custom AppError *)
  let '(statusCode, message, isOperational) :=
    match appError error with
    | Some (sc, op) => (sc, ErrorHandler.message error, op)
    | None => (statusCode, message, isOperational)
    end in
  (* Handle Prisma errors *)
  let '(statusCode, message, isOperational) :=
    if (name error =? "PrismaClientKnownRequestError")%string then
      if hasCode (code error) "P2002"
      then (409, "Unique constraint violation", true)
      else if hasCode (code error) "P2025"
      then (404, message, true)   (* [message: "..."] is a label, not an assignment *)
      else if hasCode (code error) "P2003"
      then (400, "Foreign key constraint violation", true)
      else (400, "Database operation failed", true)
    else (statusCode, message, isOperational) in
  (* Handle validation errors *)
  let '(statusCode, message, isOperational) :=
    if (name error =? "ValidationError")%string
    then (400, "Validation failed", true)
    else (statusCode, message, isOperational) in
  (* Handle JWT errors *)
  let '(statusCode, message, isOperational) :=
    if (name error =? "JsonWebTokenError")%string
    then (401, "Invalid token", true)
    else (statusCode, message, isOperational) in
  let '(statusCode, message, isOperational) :=
    if (name error =? "TokenExpiredError")%string
    then (401, "Token expired", true)
    else (statusCode, message, isOperational) in
  (* Don't leak error details in production *)
  {| statusCode := statusCode;
     errorMessage := if isOperational || isDevelopment nodeEnv
                     then message
                     else "Something went wrong";
     withDetails := isDevelopment nodeEnv;
     path := url;
     method := method |}.

End ErrorHandler.

(* ===================================================================== *)
(** ** Vocabulary of the properties *)
(* ===================================================================== *)

(** The baseline of the public listings, in the words of the specification:
    the job is published, and has no expiry or one later than [now]. *)
Definition baseline (now : Z) (j : Job.t) : Prop :=
  Job.status j = PUBLISHED
  /\ (Job.expiresAt j = None
      \/ exists e, Job.expiresAt j = Some e /\ now < e).

(** The condition of a requested lower salary bound, in the words of the
    specification: the job's own minimum or its own maximum is at least the
    requested value.  A bound that is absent or zero puts no condition. *)
Definition salaryMinClause (requested : option Z) (j : Job.t) : bool :=
  match requested with
  | Some m =>
      if m =? 0 then true
      else gte (Job.salaryMin j) m || gte (Job.salaryMax j) m
  | None => true
  end.

(** The condition of a requested upper salary bound: the job's own maximum
    is at most the requested value.  A bound that is absent or zero puts no
    condition. *)
Definition salaryMaxClause (requested : option Z) (j : Job.t) : bool :=
  match requested with
  | Some m => if m =? 0 then true else lte (Job.salaryMax j) m
  | None => true
  end.

(** The direction asked for by a request; descending when none is given. *)
Definition requestedOrder (f : JobFilters.t) : SortOrder :=
  match JobFilters.sortOrder f with
  | Some o => o
  | None => desc
  end.

(** A job is due at [now] when it is published and its expiry is set and
    not later than [now]. *)
Definition isDue (now : Z) (j : Job.t) : bool :=
  JobStatus_eqb (Job.status j) PUBLISHED
  && match Job.expiresAt j with
     | Some e => e <=? now
     | None => false
     end.

(** The effect of the sweep on one row. *)
Definition sweep (now : Z) (j : Job.t) : Job.t :=
  if isDue now j then markExpired now j else j.

(** The applications of one applicant to one job. *)
Definition applicationsOf (d : Db.t) (jobId userId : string) : list Application.t :=
  filter (fun a => (Application.jobId a =? jobId)%string
                   && (Application.applicantId a =? userId)%string)
         (Db.applications d).

(** No applicant has two applications to the same job. *)
Definition uniqueApplications (d : Db.t) : Prop :=
  forall jobId userId, (List.length (applicationsOf d jobId userId) <= 1)%nat.

(** The job is still open to the applicant at the instant [now]: it is
    published, its expiry is not before [now], and the applicant is a job
    seeker. *)
Definition openTo (d : Db.t) (now : Z) (jobId userId : string) : Prop :=
  exists job user,
    find (fun j => (Job.id j =? jobId)%string) (Db.jobs d) = Some job
    /\ Job.status job = PUBLISHED
    /\ match Job.expiresAt job with Some e => now <= e | None => True end
    /\ find (fun u => (User.id u =? userId)%string) (Db.users d) = Some user
    /\ User.role user = JOB_SEEKER.

(** A text filter that counts as supplied: present and not empty. *)
Definition suppliedText (s : option string) : option string :=
  match s with
  | Some EmptyString => None
  | Some v => Some v
  | None => None
  end.

(** The searched text matches one of the four text columns of the job or the
    name of its company. *)
Definition textMatches (d : Db.t) (j : Job.t) (term : string) : bool :=
  containsI (Some (Job.title j)) term
  || containsI (Some (Job.description j)) term
  || containsI (Job.requirements j) term
  || containsI (Job.responsibilities j) term
  || containsI (option_map Company.name (company_of d j)) term.

(** The jobs that a filter request asks for, said without the [where]
    object: the baseline, and one condition for each filter that is
    supplied. *)
Definition admits (d : Db.t) (now : Z) (f : JobFilters.t) (j : Job.t) : bool :=
  (* published and not expired *)
  JobStatus_eqb (Job.status j) PUBLISHED
  && match Job.expiresAt j with
     | None => true
     | Some e => now <? e
     end
  (* search text, when it is not blank *)
  && match JobFilters.search f with
     | Some s => if 0 <? Z.of_nat (String.length (JS.trim s))
                 then textMatches d j (JS.trim s)
                 else true
     | None => true
     end
  (* category, type, experience level *)
  && match suppliedText (JobFilters.category f) with
     | Some c => match Job.categoryId j with
                 | Some c' => (c' =? c)%string
                 | None => false
                 end
     | None => true
     end
  && match suppliedText (JobFilters.type f) with
     | Some t => (Job.type j =? t)%string
     | None => true
     end
  && match suppliedText (JobFilters.experienceLevel f) with
     | Some e => (Job.experienceLevel j =? e)%string
     | None => true
     end
  (* location, unless remote jobs are asked for *)
  && match suppliedText (JobFilters.location f) with
     | Some l => if JS.truthyBool (JobFilters.isRemote f) then true
                 else containsI (Job.location j) l
     | None => true
     end
  (* remote flag *)
  && match JobFilters.isRemote f with
     | Some b => Bool.eqb (Job.isRemote j) b
     | None => true
     end
  (* salary bounds *)
  && salaryMinClause (JobFilters.salaryMin f) j
  && salaryMaxClause (JobFilters.salaryMax f) j
  (* skills, when the list is not empty *)
  && match JobFilters.skills f with
     | Some (s :: l) => hasSkillIn d j (s :: l)
     | _ => true
     end.

(** Every character of the text is white space. *)
Definition blank (s : string) : Prop :=
  forall c, In c (list_ascii_of_string s) -> JS.isWhiteSpace c = true.

(** A request with its search text, or its skills, replaced. *)
Definition withSearch (s : option string) (f : JobFilters.t) : JobFilters.t :=
  JobFilters.mk (JobFilters.category f) (JobFilters.type f)
    (JobFilters.location f) (JobFilters.salaryMin f) (JobFilters.salaryMax f)
    (JobFilters.isRemote f) (JobFilters.experienceLevel f)
    (JobFilters.skills f) s (JobFilters.sortBy f) (JobFilters.sortOrder f).

Definition withSkills (k : option (list string)) (f : JobFilters.t)
  : JobFilters.t :=
  JobFilters.mk (JobFilters.category f) (JobFilters.type f)
    (JobFilters.location f) (JobFilters.salaryMin f) (JobFilters.salaryMax f)
    (JobFilters.isRemote f) (JobFilters.experienceLevel f)
    k (JobFilters.search f) (JobFilters.sortBy f) (JobFilters.sortOrder f).

Definition withCategory (c : option string) (f : JobFilters.t) : JobFilters.t :=
  JobFilters.mk c (JobFilters.type f)
    (JobFilters.location f) (JobFilters.salaryMin f) (JobFilters.salaryMax f)
    (JobFilters.isRemote f) (JobFilters.experienceLevel f)
    (JobFilters.skills f) (JobFilters.search f) (JobFilters.sortBy f)
    (JobFilters.sortOrder f).

(** The row that [applyToJob] creates for an applicant: the cover letter is
    trimmed, and a missing or empty resume URL is replaced by the one of the
    applicant's profile. *)
Definition applicationRow (jobId userId : string) (data : ApplyToJobData)
  (user : User.t) : Application.t :=
  Application.mk jobId userId
    (option_map JS.trim (coverLetter data))
    (match suppliedText (resumeUrl data) with
     | Some u => Some u
     | None => match User.profile user with
               | Some p => Profile.resumeUrl p
               | None => None
               end
     end)
    PENDING.

(** The clock after a call of [applyToJob] that got past the expiry check:
    one reading is used when the job has an expiry, none otherwise. *)
Definition clockAfterExpiryCheck (job : Job.t) (c : nat -> Z) : nat -> Z :=
  match Job.expiresAt job with
  | Some _ => fun n => c (S n)
  | None => c
  end.

(** The jobs table after the status of the job [id] has been set. *)
Definition restatus (id : string) (st : JobStatus) (now : Z) (l : list Job.t)
  : list Job.t :=
  map (fun r => if (Job.id r =? id)%string then withStatus st now r else r) l.

(** The caller owns the company of the job [jobId], which is the row [job]. *)
Definition ownsJob (d : Db.t) (jobId userId : string) (job : Job.t) : Prop :=
  find (fun j => (Job.id j =? jobId)%string) (Db.jobs d) = Some job
  /\ exists company,
       find (fun c => (Company.id c =? Job.companyId job)%string)
            (Db.companies d) = Some company
       /\ Company.ownerId company = userId.

(** The world after a status update of the job [jobId] at the next reading
    of the clock. *)
Definition afterRestatus (jobId : string) (st : JobStatus) (w : World) : World :=
  {| db := Db.mk (restatus jobId st (clock w 0%nat) (Db.jobs (db w)))
                 (Db.companies (db w)) (Db.users (db w))
                 (Db.applications (db w)) (Db.jobSkills (db w));
     clock := fun n => clock w (S n) |}.

(** The skills of a job, as [getSimilarJobs] collects them. *)
Definition skillsOf (d : Db.t) (job : Job.t) : list string :=
  map JobSkill.skillId
      (filter (fun s => (JobSkill.jobId s =? Job.id job)%string)
              (Db.jobSkills d)).

(** The job [j] has one of the skills of [job]. *)
Definition sharesSkill (d : Db.t) (j job : Job.t) : Prop :=
  exists s s',
    In s (Db.jobSkills d) /\ JobSkill.jobId s = Job.id j
    /\ In s' (Db.jobSkills d) /\ JobSkill.jobId s' = Job.id job
    /\ JobSkill.skillId s = JobSkill.skillId s'.

(** The jobs similar to [job] at [now], as a test on a row. *)
Definition similarTo (d : Db.t) (now : Z) (job : Job.t) (j : Job.t) : bool :=
  evalWhereX d j (similarWhere (Job.id job) job (skillsOf d job) now).

(** The jobs of a location at [now], as a test on a row. *)
Definition inLocation (d : Db.t) (location : string) (now : Z) (j : Job.t)
  : bool :=
  evalWhereX d j (locationWhere location now).

(** The names of the errors that [errorHandler] treats apart. *)
Definition recognisedName (n : string) : bool :=
  (n =? "PrismaClientKnownRequestError")%string
  || (n =? "ValidationError")%string
  || (n =? "JsonWebTokenError")%string
  || (n =? "TokenExpiredError")%string.

(** A safe integer: the doubles of the code hold it exactly. *)
Definition safeInteger (n : Z) : Prop := Z.abs n < 9007199254740992.

(** What the sweep at [now] makes of a row [j]: a job that is due keeps every
    column but its status, which becomes EXPIRED, and its update time, which
    becomes [now]; any other job is left as it is. *)
Definition sweptRow (now : Z) (j j' : Job.t) : Prop :=
  if isDue now j then
    Job.status j' = EXPIRED
    /\ Job.updatedAt j' = now
    /\ Job.id j' = Job.id j
    /\ Job.title j' = Job.title j
    /\ Job.description j' = Job.description j
    /\ Job.requirements j' = Job.requirements j
    /\ Job.responsibilities j' = Job.responsibilities j
    /\ Job.type j' = Job.type j
    /\ Job.experienceLevel j' = Job.experienceLevel j
    /\ Job.salaryMin j' = Job.salaryMin j
    /\ Job.salaryMax j' = Job.salaryMax j
    /\ Job.location j' = Job.location j
    /\ Job.isRemote j' = Job.isRemote j
    /\ Job.expiresAt j' = Job.expiresAt j
    /\ Job.companyId j' = Job.companyId j
    /\ Job.categoryId j' = Job.categoryId j
    /\ Job.createdAt j' = Job.createdAt j
  else j' = j.

(* --------------------------------------------------------------------- *)
(** *** Sample rows, stores and clocks *)
(* --------------------------------------------------------------------- *)

(** A clock that starts at [t0] and advances by [step] milliseconds at every
    reading. *)
Definition tickingFrom (t0 step : Z) : nat -> Z :=
  fun n => t0 + step * Z.of_nat n.

(** A job row with the given key, status, expiry and salary range. *)
Definition sampleJob (id : string) (st : JobStatus) (expiresAt : option Z)
  (salaryMin salaryMax : option Z) : Job.t :=
  Job.mk id "Engineer" "Builds things" None None "FULL_TIME" "MID"
         salaryMin salaryMax (Some "Berlin") true st expiresAt "c1" None 0 0.

Definition sampleCompany : Company.t := Company.mk "c1" "Acme" "u-owner".

Definition sampleSeeker : User.t := User.mk "u1" JOB_SEEKER None.

(** A store holding the given jobs, applications and job skills. *)
Definition sampleDb (js : list Job.t) (apps : list Application.t)
  (skills : list JobSkill.t) : Db.t :=
  Db.mk js [sampleCompany] [sampleSeeker] apps skills.

(* --------------------------------------------------------------------- *)
(** *** Tactics *)
(* --------------------------------------------------------------------- *)

(** Splits a filter request into its fields. *)
Ltac split_request f :=
  destruct f as [category type location salaryMin salaryMax isRemote
                 experienceLevel skills search sortBy sortOrder];
  cbn [JobFilters.category JobFilters.type JobFilters.location
       JobFilters.salaryMin JobFilters.salaryMax JobFilters.isRemote
       JobFilters.experienceLevel JobFilters.skills JobFilters.search
       JobFilters.sortBy JobFilters.sortOrder
       JobFilters.with_location JobFilters.with_salaryMin
       JobFilters.with_salaryMax JobFilters.with_isRemote] in *.

(** Decides every test on a field of the request that is left in the goal. *)
Ltac decide_tests :=
  repeat match goal with
         | |- context [match ?x with Some _ => _ | None => _ end] =>
             is_var x; destruct x
         | |- context [if ?b then _ else _] => destruct b eqn:?
         end.

(** Unfolds one step and decides its tests. *)
Ltac step_keys step :=
  intros; unfold step;
  repeat match goal with
         | |- context [match ?x with Some _ => _ | None => _ end] =>
             is_var x; destruct x
         | |- context [if ?b then _ else _] => destruct b
         end; reflexivity.

(** Reduces the run of a method after one of its tests has been decided. *)
Ltac run_step := cbv beta iota; cbn [fst snd db clock].

(* ===================================================================== *)
(** ** Properties *)
(* ===================================================================== *)

(* --------------------------------------------------------------------- *)
(** *** The JavaScript primitives on concrete values *)
(* --------------------------------------------------------------------- *)

Example parseInt_1000 : JS.parseInt (Some "1000") = JS.Num 1000.
Proof. reflexivity. Qed.
Example parseInt_neg : JS.parseInt (Some " -3abc") = JS.Num (-3).
Proof. reflexivity. Qed.
Example parseInt_hex : JS.parseInt (Some "0x1f") = JS.Num 31.
Proof. reflexivity. Qed.
Example parseInt_undef : JS.parseInt None = JS.NaN.
Proof. reflexivity. Qed.
Example trim_ex : JS.trim "  a b  " = "a b".
Proof. reflexivity. Qed.
Example includes_ex : JS.includes "ari" (JS.toLowerCase "PARIS") = true.
Proof. reflexivity. Qed.

(* --------------------------------------------------------------------- *)
(** *** The compiled predicate on concrete rows *)
(* --------------------------------------------------------------------- *)

(** A job paying 3000 to 6000 is found by a search for at least 5000 and not
    by a search for at least 7000. *)
Example salary_scenario :
  evalWhere (sampleDb [] [] [])
    (sampleJob "j1" PUBLISHED None (Some 3000) (Some 6000))
    (searchJobs_where 100 (JobFilters.with_salaryMin (Some 5000) JobFilters.empty))
  = true
  /\ evalWhere (sampleDb [] [] [])
       (sampleJob "j1" PUBLISHED None (Some 3000) (Some 6000))
       (searchJobs_where 100 (JobFilters.with_salaryMin (Some 7000) JobFilters.empty))
     = false.
Proof. split; reflexivity. Qed.

(** A job with skill [s1] is found by a search for [s1] and not by a search
    for [s3]; once closed it is not found at all. *)
Example skills_scenario :
  evalWhere (sampleDb [] [] [JobSkill.mk "j1" "s1" true; JobSkill.mk "j1" "s2" true])
    (sampleJob "j1" PUBLISHED None None None)
    (searchJobs_where 100
       (JobFilters.mk None None None None None None None (Some ["s1"]) None None None))
  = true
  /\ evalWhere (sampleDb [] [] [JobSkill.mk "j1" "s1" true; JobSkill.mk "j1" "s2" true])
       (sampleJob "j1" PUBLISHED None None None)
       (searchJobs_where 100
          (JobFilters.mk None None None None None None None (Some ["s3"]) None None None))
     = false
  /\ evalWhere (sampleDb [] [] [JobSkill.mk "j1" "s1" true; JobSkill.mk "j1" "s2" true])
       (sampleJob "j1" CLOSED None None None)
       (searchJobs_where 100
          (JobFilters.mk None None None None None None None (Some ["s1"]) None None None))
     = false.
Proof. repeat split. Qed.

(** The searched text is trimmed and matched without regard to case, also
    against the name of the company; a blank text is no filter. *)
Example search_scenario :
  evalWhere (sampleDb [] [] []) (sampleJob "j1" PUBLISHED None None None)
    (searchJobs_where 100
       (JobFilters.mk None None None None None None None None (Some "  ACME ") None None))
  = true
  /\ evalWhere (sampleDb [] [] []) (sampleJob "j1" PUBLISHED None None None)
       (searchJobs_where 100
          (JobFilters.mk None None None None None None None None (Some "plumber") None None))
     = false
  /\ searchJobs_where 100
       (JobFilters.mk None None None None None None None None (Some "   ") None None)
     = searchJobs_where 100 JobFilters.empty.
Proof. repeat split. Qed.

(** A remote job in Berlin is found by a search for remote jobs in Paris,
    and not by a search for jobs in Paris. *)
Example remote_scenario :
  evalWhere (sampleDb [] [] []) (sampleJob "j1" PUBLISHED None None None)
    (searchJobs_where 100
       (JobFilters.with_isRemote (Some true)
          (JobFilters.with_location (Some "Paris") JobFilters.empty)))
  = true
  /\ evalWhere (sampleDb [] [] []) (sampleJob "j1" PUBLISHED None None None)
       (searchJobs_where 100 (JobFilters.with_location (Some "Paris") JobFilters.empty))
     = false.
Proof. split; reflexivity. Qed.

(** A first application succeeds and adds one pending row. *)
Example applyToJob_first :
  applyToJob "j1" "u1" (mkApplyToJobData (Some " hello ") None)
    {| db := sampleDb [sampleJob "j1" PUBLISHED None None None] [] [];
       clock := tickingFrom 10 1 |}
  = (Ok (Application.mk "j1" "u1" (Some "hello") None PENDING),
     {| db := sampleDb [sampleJob "j1" PUBLISHED None None None]
                       [Application.mk "j1" "u1" (Some "hello") None PENDING] [];
        clock := tickingFrom 10 1 |}).
Proof. reflexivity. Qed.

(* --------------------------------------------------------------------- *)
(** *** Pagination *)
(* --------------------------------------------------------------------- *)

Lemma orDefault_Num (n d : Z) : n <> 0 -> JS.orDefault (JS.Num n) d = n.
Proof. destruct n; cbn; congruence. Qed.

(** C4, counterexample: the request [?page=-3] is answered with page -3,
    not page 1, and with a negative skip. *)
Lemma getPaginationParams_negative_page :
  page (getPaginationParams (mkQuery (Some "-3") None)) = -3
  /\ page (getPaginationParams (mkQuery (Some "-3") None)) <> 1
  /\ skip (getPaginationParams (mkQuery (Some "-3") None)) < 0.
Proof. cbn. split; [reflexivity | split; [discriminate | reflexivity]]. Qed.

(** C4, as amended: a requested limit above 50 is clamped to 50 (the limit
    never exceeds 50), an absent limit defaults to 10, an absent page
    defaults to 1, a page of 0 becomes 1, and every other requested page
    that is a safe integer, negative ones included, is kept as it is; skip is
    (page - 1) * limit whenever page, limit and that product are safe
    integers, and it is not negative as soon as the page is at least 1 and
    the limit is not negative. *)
Theorem getPaginationParams_contract (req : Query) :
  (forall n, JS.parseInt (q_limit req) = JS.Num n -> 50 < n ->
             limit (getPaginationParams req) = 50)
  /\ limit (getPaginationParams req) <= 50
  /\ (q_limit req = None -> limit (getPaginationParams req) = 10)
  /\ (q_page req = None -> page (getPaginationParams req) = 1)
  /\ (JS.parseInt (q_page req) = JS.Num 0 -> page (getPaginationParams req) = 1)
  /\ (forall n, JS.parseInt (q_page req) = JS.Num n -> n <> 0 ->
                safeInteger n ->
                page (getPaginationParams req) = n)
  /\ (safeInteger (page (getPaginationParams req)) ->
      safeInteger (limit (getPaginationParams req)) ->
      safeInteger ((page (getPaginationParams req) - 1)
                   * limit (getPaginationParams req)) ->
      skip (getPaginationParams req)
      = (page (getPaginationParams req) - 1) * limit (getPaginationParams req))
  /\ (1 <= page (getPaginationParams req) ->
      0 <= limit (getPaginationParams req) ->
      0 <= skip (getPaginationParams req)).
Proof.
  destruct req as [p l]. unfold getPaginationParams.
  cbn [page limit skip q_page q_limit].
  repeat split.
  - intros n Hn Hlt. rewrite Hn, orDefault_Num by lia. lia.
  - lia.
  - intros ->. reflexivity.
  - intros ->. reflexivity.
  - intros ->. reflexivity.
  - intros n Hn Hne _. rewrite Hn. apply orDefault_Num; assumption.
  - intros Hp Hl. apply Z.mul_nonneg_nonneg; lia.
Qed.

(** C4, witness: the requests [?page=0&limit=1000] and [?page=2]. *)
Lemma getPaginationParams_contract_witness :
  limit (getPaginationParams (mkQuery (Some "0") (Some "1000"))) = 50
  /\ page (getPaginationParams (mkQuery (Some "0") (Some "1000"))) = 1
  /\ limit (getPaginationParams (mkQuery (Some "2") None)) = 10
  /\ page (getPaginationParams (mkQuery (Some "2") None)) = 2
  /\ skip (getPaginationParams (mkQuery (Some "2") None)) = 10
  /\ 0 <= skip (getPaginationParams (mkQuery (Some "2") None)).
Proof.
  destruct (getPaginationParams_contract (mkQuery (Some "0") (Some "1000")))
    as (Hclamp & _ & _ & _ & Hzero & _).
  destruct (getPaginationParams_contract (mkQuery (Some "2") None))
    as (_ & _ & Hdef & _ & _ & Hkeep & Hprod & Hskip).
  split; [apply (Hclamp 1000); [reflexivity | lia]|].
  split; [apply Hzero; reflexivity|].
  split; [apply Hdef; reflexivity|].
  split; [apply (Hkeep 2); [reflexivity | lia | reflexivity]|].
  split; [rewrite Hprod; [reflexivity | | | ]; reflexivity|].
  apply Hskip; [rewrite (Hkeep 2);
                  [lia | reflexivity | lia | reflexivity]
               | rewrite Hdef; [lia | reflexivity]].
Defined.

(* --------------------------------------------------------------------- *)
(** *** The filter compiler: keys that a step leaves alone *)
(* --------------------------------------------------------------------- *)

Lemma addSearch_status (w : Where.t) s : Where.status (addSearch s w) = Where.status w.
Proof. step_keys addSearch. Qed.
Lemma addSearch_OR (w : Where.t) s : Where.OR (addSearch s w) = Where.OR w.
Proof. step_keys addSearch. Qed.
Lemma addSearch_location (w : Where.t) s : Where.location (addSearch s w) = Where.location w.
Proof. step_keys addSearch. Qed.

Lemma addCategory_status (w : Where.t) c : Where.status (addCategory c w) = Where.status w.
Proof. step_keys addCategory. Qed.
Lemma addCategory_OR (w : Where.t) c : Where.OR (addCategory c w) = Where.OR w.
Proof. step_keys addCategory. Qed.
Lemma addCategory_location (w : Where.t) c :
  Where.location (addCategory c w) = Where.location w.
Proof. step_keys addCategory. Qed.

Lemma addType_status (w : Where.t) t : Where.status (addType t w) = Where.status w.
Proof. step_keys addType. Qed.
Lemma addType_OR (w : Where.t) t : Where.OR (addType t w) = Where.OR w.
Proof. step_keys addType. Qed.
Lemma addType_location (w : Where.t) t : Where.location (addType t w) = Where.location w.
Proof. step_keys addType. Qed.

Lemma addLocation_status (w : Where.t) l r : Where.status (addLocation l r w) = Where.status w.
Proof. step_keys addLocation. Qed.
Lemma addLocation_OR (w : Where.t) l r : Where.OR (addLocation l r w) = Where.OR w.
Proof. step_keys addLocation. Qed.

Lemma addIsRemote_status (w : Where.t) r : Where.status (addIsRemote r w) = Where.status w.
Proof. step_keys addIsRemote. Qed.
Lemma addIsRemote_OR (w : Where.t) r : Where.OR (addIsRemote r w) = Where.OR w.
Proof. step_keys addIsRemote. Qed.
Lemma addIsRemote_location (w : Where.t) r :
  Where.location (addIsRemote r w) = Where.location w.
Proof. step_keys addIsRemote. Qed.

Lemma addExperienceLevel_status (w : Where.t) e :
  Where.status (addExperienceLevel e w) = Where.status w.
Proof. step_keys addExperienceLevel. Qed.
Lemma addExperienceLevel_OR (w : Where.t) e :
  Where.OR (addExperienceLevel e w) = Where.OR w.
Proof. step_keys addExperienceLevel. Qed.
Lemma addExperienceLevel_location (w : Where.t) e :
  Where.location (addExperienceLevel e w) = Where.location w.
Proof. step_keys addExperienceLevel. Qed.

Lemma addSalary_status (w : Where.t) m x : Where.status (addSalary m x w) = Where.status w.
Proof. step_keys addSalary. Qed.
Lemma addSalary_OR (w : Where.t) m x : Where.OR (addSalary m x w) = Where.OR w.
Proof. step_keys addSalary. Qed.
Lemma addSalary_location (w : Where.t) m x :
  Where.location (addSalary m x w) = Where.location w.
Proof. step_keys addSalary. Qed.

Lemma addSkills_status (w : Where.t) k : Where.status (addSkills k w) = Where.status w.
Proof. step_keys addSkills. Qed.
Lemma addSkills_OR (w : Where.t) k : Where.OR (addSkills k w) = Where.OR w.
Proof. step_keys addSkills. Qed.
Lemma addSkills_location (w : Where.t) k : Where.location (addSkills k w) = Where.location w.
Proof. step_keys addSkills. Qed.

(** With [isRemote] true the location step assigns nothing, whatever the
    requested location. *)
Lemma addLocation_remote (w : Where.t) l : addLocation l (Some true) w = w.
Proof. unfold addLocation. destruct l as [[|c s]|]; reflexivity. Qed.

(** A salary bound of zero is not told apart from an absent one. *)
Lemma addSalary_min_zero (w : Where.t) x : addSalary (Some 0) x w = addSalary None x w.
Proof. reflexivity. Qed.
Lemma addSalary_max_zero (w : Where.t) m : addSalary m (Some 0) w = addSalary m None w.
Proof. unfold addSalary. destruct m as [m|]; [destruct (JS.truthyNum (Some m))|]; reflexivity. Qed.

Create Rewrite HintDb where_keys.
#[local] Hint Rewrite
  addSearch_status addSearch_OR addSearch_location
  addCategory_status addCategory_OR addCategory_location
  addType_status addType_OR addType_location
  addLocation_status addLocation_OR
  addIsRemote_status addIsRemote_OR addIsRemote_location
  addExperienceLevel_status addExperienceLevel_OR addExperienceLevel_location
  addSalary_status addSalary_OR addSalary_location
  addSkills_status addSkills_OR addSkills_location : where_keys.

Lemma searchJobs_where_status (now : Z) (f : JobFilters.t) :
  Where.status (searchJobs_where now f) = Some PUBLISHED.
Proof. unfold searchJobs_where. autorewrite with where_keys. reflexivity. Qed.

Lemma searchJobs_where_OR (now : Z) (f : JobFilters.t) :
  Where.OR (searchJobs_where now f)
  = Some [C_expiresAt IsNull; C_expiresAt (Gt now)].
Proof. unfold searchJobs_where. autorewrite with where_keys. reflexivity. Qed.

(* --------------------------------------------------------------------- *)
(** *** The filter compiler: baseline, location, salary, ordering *)
(* --------------------------------------------------------------------- *)

Lemma JobStatus_eqb_eq (a b : JobStatus) : JobStatus_eqb a b = true <-> a = b.
Proof. destruct a, b; cbn; split; congruence. Qed.

Lemma evalWhere_keys (d : Db.t) (j : Job.t) (w : Where.t) :
  evalWhere d j w = true ->
  onKey (Where.status w) (fun s => JobStatus_eqb (Job.status j) s) = true
  /\ onKey (Where.OR w) (existsb (evalCond d j)) = true
  /\ onKey (Where.AND w) (forallb (evalCond d j)) = true
  /\ onKey (Where.location w) (containsI (Job.location j)) = true.
Proof.
  unfold evalWhere. intros H.
  repeat (apply andb_true_iff in H; destruct H as [H ?]).
  repeat split; assumption.
Qed.

(** C6: whatever the filter request, a job admitted by the compiled
    predicate is published and has no expiry or an expiry later than the
    instant of the compilation. *)
Theorem searchJobs_where_baseline
  (d : Db.t) (now : Z) (f : JobFilters.t) (j : Job.t) :
  evalWhere d j (searchJobs_where now f) = true -> baseline now j.
Proof.
  intros H. apply evalWhere_keys in H. destruct H as (Hs & Ho & _).
  rewrite searchJobs_where_status in Hs. rewrite searchJobs_where_OR in Ho.
  cbn in Hs, Ho. split.
  - apply JobStatus_eqb_eq. exact Hs.
  - unfold evalDate in Ho. destruct (Job.expiresAt j) as [e|].
    + right. exists e. split; [reflexivity|].
      cbn in Ho. rewrite orb_false_r in Ho. apply Z.ltb_lt. exact Ho.
    + left. reflexivity.
Qed.

(** C2: when [isRemote] is supplied as true, the compiled predicate has no
    location key, and the queries issued are those of the same request
    without its location: no job is left out for its location. *)
Theorem searchJobs_remote_ignores_location
  (now : Z) (f : JobFilters.t) (skip limit : Z) :
  JobFilters.isRemote f = Some true ->
  Where.location (searchJobs_where now f) = None
  /\ searchJobs_queries now f skip limit
     = searchJobs_queries now (JobFilters.with_location None f) skip limit
  /\ forall d j,
       evalWhere d j (searchJobs_where now f)
       = evalWhere d j (searchJobs_where now (JobFilters.with_location None f)).
Proof.
  intros Hr.
  assert (Hw : searchJobs_where now f
               = searchJobs_where now (JobFilters.with_location None f)).
  { split_request f. subst isRemote. unfold searchJobs_where.
    cbn [JobFilters.category JobFilters.type JobFilters.location
         JobFilters.salaryMin JobFilters.salaryMax JobFilters.isRemote
         JobFilters.experienceLevel JobFilters.skills JobFilters.search].
    rewrite !addLocation_remote. reflexivity. }
  split; [|split].
  - unfold searchJobs_where. autorewrite with where_keys.
    rewrite Hr, addLocation_remote. autorewrite with where_keys. reflexivity.
  - unfold searchJobs_queries. rewrite <- Hw.
    split_request f. reflexivity.
  - intros d j. rewrite <- Hw. reflexivity.
Qed.

(** C10: a requested salary bound of zero compiles to exactly the queries
    of the same request with that bound omitted. *)
Theorem searchJobs_zero_salary_ignored
  (now : Z) (f : JobFilters.t) (skip limit : Z) :
  searchJobs_queries now (JobFilters.with_salaryMin (Some 0) f) skip limit
  = searchJobs_queries now (JobFilters.with_salaryMin None f) skip limit
  /\ searchJobs_queries now (JobFilters.with_salaryMax (Some 0) f) skip limit
     = searchJobs_queries now (JobFilters.with_salaryMax None f) skip limit.
Proof.
  split_request f. unfold searchJobs_queries, searchJobs_where.
  cbn [JobFilters.category JobFilters.type JobFilters.location
       JobFilters.salaryMin JobFilters.salaryMax JobFilters.isRemote
       JobFilters.experienceLevel JobFilters.skills JobFilters.search].
  rewrite addSalary_min_zero, addSalary_max_zero. split; reflexivity.
Qed.

Lemma addSalary_eval (d : Db.t) (j : Job.t) (mn mx : option Z)
  (k : option (list string)) (w : Where.t) :
  evalWhere d j (addSkills k (addSalary mn mx w))
  = evalWhere d j (addSkills k (addSalary None None w))
    && salaryMinClause mn j && salaryMaxClause mx j.
Proof.
  destruct w as [s o a c t l r e js x].
  assert (Hk : forall w', evalWhere d j (addSkills k w')
     = onKey (Where.status w') (fun s => JobStatus_eqb (Job.status j) s)
       && onKey (Where.OR w') (existsb (evalCond d j))
       && onKey (Where.AND w') (forallb (evalCond d j))
       && onKey (Where.categoryId w')
            (fun c => match Job.categoryId j with
                      | Some c' => (c' =? c)%string
                      | None => false
                      end)
       && onKey (Where.type w') (String.eqb (Job.type j))
       && onKey (Where.location w') (containsI (Job.location j))
       && onKey (Where.isRemote w') (Bool.eqb (Job.isRemote j))
       && onKey (Where.experienceLevel w') (String.eqb (Job.experienceLevel j))
       && onKey (Where.jobSkills (addSkills k w')) (hasSkillIn d j)
       && onKey (Where.expiresAt w') (evalDate j)).
  { intros w'. unfold addSkills.
    destruct k as [ks|]; [destruct (0 <? Z.of_nat (List.length ks))|];
      reflexivity. }
  assert (Hjs : forall w1 w2, Where.jobSkills w1 = Where.jobSkills w2 ->
            Where.jobSkills (addSkills k w1) = Where.jobSkills (addSkills k w2)).
  { intros w1 w2 Hw. unfold addSkills.
    destruct k as [ks|]; [destruct (0 <? Z.of_nat (List.length ks))|];
      cbn; auto. }
  rewrite !Hk.
  rewrite (Hjs (addSalary mn mx (Where.mk s o a c t l r e js x))
               (addSalary None None (Where.mk s o a c t l r e js x)))
    by (unfold addSalary; decide_tests; reflexivity).
  generalize (onKey (Where.jobSkills
    (addSkills k (addSalary None None (Where.mk s o a c t l r e js x))))
    (hasSkillIn d j)).
  intros bk.
  unfold addSalary, salaryMinClause, salaryMaxClause, JS.truthyNum.
  destruct mn as [m|], mx as [m'|];
    try destruct (m =? 0); try destruct (m' =? 0);
    cbn [negb orb andb Where.set_AND Where.status Where.OR Where.AND
         Where.categoryId Where.type Where.location Where.isRemote
         Where.experienceLevel Where.jobSkills Where.expiresAt];
    rewrite ?andb_true_r; try reflexivity;
    destruct a as [al|];
    cbn [onKey]; rewrite ?forallb_app; cbn [forallb existsb evalCond numField app];
    rewrite ?orb_false_r, ?andb_true_r;
    repeat match goal with
           | |- context [onKey ?k ?p] => generalize (onKey k p); intro
           | |- context [forallb ?p ?k] => generalize (forallb p k); intro
           | |- context [gte ?p ?k] => generalize (gte p k); intro
           | |- context [lte ?p ?k] => generalize (lte p k); intro
           end;
    btauto.
Qed.

(** C3, counterexample: the request [salaryMin = 0] admits a published job
    that states no salary at all, for which neither comparison holds. *)
Lemma salaryMin_zero_admits_job_without_salary :
  JobFilters.salaryMin (JobFilters.with_salaryMin (Some 0) JobFilters.empty)
  = Some 0
  /\ evalWhere (sampleDb [] [] []) (sampleJob "j1" PUBLISHED None None None)
       (searchJobs_where 100
          (JobFilters.with_salaryMin (Some 0) JobFilters.empty)) = true
  /\ gte (Job.salaryMin (sampleJob "j1" PUBLISHED None None None)) 0
     || gte (Job.salaryMax (sampleJob "j1" PUBLISHED None None None)) 0 = false.
Proof. repeat split. Qed.

(** C3, as amended: for a requested salaryMin other than zero the compiled
    predicate adds the condition that the job's own salaryMin or its own
    salaryMax is at least the requested value; for a requested salaryMax
    other than zero it adds the condition that the job's salaryMax is at
    most the requested value; a job is admitted exactly when it is admitted
    by the same request without salary bounds and meets the conditions of
    the bounds supplied (one, or both in conjunction).  A bound of zero adds
    no condition. *)
Theorem searchJobs_salary_clauses
  (d : Db.t) (j : Job.t) (now : Z) (f : JobFilters.t) :
  evalWhere d j (searchJobs_where now f)
  = evalWhere d j
      (searchJobs_where now
         (JobFilters.with_salaryMin None (JobFilters.with_salaryMax None f)))
    && salaryMinClause (JobFilters.salaryMin f) j
    && salaryMaxClause (JobFilters.salaryMax f) j.
Proof.
  split_request f. unfold searchJobs_where.
  cbn [JobFilters.category JobFilters.type JobFilters.location
       JobFilters.salaryMin JobFilters.salaryMax JobFilters.isRemote
       JobFilters.experienceLevel JobFilters.skills JobFilters.search].
  apply addSalary_eval.
Qed.

(** The ordering directive built in [job.service.ts]: [salaryMax] for
    ["salary"], the company's name for ["company"], the named attribute
    otherwise (for a name other than ["__proto__"]), with [createdAt] and
    descending as defaults. *)
Theorem searchJobs_orderBy_directive (f : JobFilters.t) :
  (JobFilters.sortBy f = Some "salary" ->
     searchJobs_orderBy f = OrderByField "salaryMax" (requestedOrder f))
  /\ (JobFilters.sortBy f = Some "company" ->
        searchJobs_orderBy f = OrderByCompanyName (requestedOrder f))
  /\ (forall s, JobFilters.sortBy f = Some s -> s <> "salary" -> s <> "company" ->
        s <> "__proto__" ->
        searchJobs_orderBy f = OrderByField s (requestedOrder f))
  /\ (JobFilters.sortBy f = None ->
        searchJobs_orderBy f = OrderByField "createdAt" (requestedOrder f))
  /\ (JobFilters.sortOrder f = None -> requestedOrder f = desc).
Proof.
  unfold searchJobs_orderBy, requestedOrder. repeat split.
  - intros ->. reflexivity.
  - intros ->. reflexivity.
  - intros s -> Hs Hc _.
    apply String.eqb_neq in Hs. apply String.eqb_neq in Hc.
    rewrite Hs, Hc. reflexivity.
  - intros ->. reflexivity.
  - intros ->. reflexivity.
Qed.

(** C5, in the second copy of [searchJobs]: a request sorted by ["salary"]
    is ordered by the company's name, not by [salaryMax]. *)
Theorem Part000_salary_orders_by_company_name :
  Part000.searchJobs_orderBy
    (JobFilters.with_sort (Some "salary") (Some asc) JobFilters.empty)
  = OrderByCompanyName asc
  /\ Part000.searchJobs_orderBy
       (JobFilters.with_sort (Some "salary") (Some asc) JobFilters.empty)
     <> OrderByField "salaryMax" asc
  /\ searchJobs_orderBy
       (JobFilters.with_sort (Some "salary") (Some asc) JobFilters.empty)
     = OrderByField "salaryMax" asc.
Proof. split; [reflexivity | split; [discriminate | reflexivity]]. Qed.

(* --------------------------------------------------------------------- *)
(** *** Page and total *)
(* --------------------------------------------------------------------- *)

(** [searchJobs] hands one [where] object to both queries, so the total is
    the number of rows selected by the predicate of the page. *)
Theorem searchJobs_total_counts_page_predicate
  (paginate : Db.t -> OrderBy -> Z -> Z -> list Job.t -> list Job.t)
  (f : JobFilters.t) (skip limit : Z) (w : World) :
  fm_where (fst (searchJobs_queries (clock w 0%nat) f skip limit))
  = cnt_where (snd (searchJobs_queries (clock w 0%nat) f skip limit))
  /\ fst (searchJobs paginate f skip limit w)
     = Ok {| jobs := paginate (db w) (searchJobs_orderBy f) skip limit
                       (matching (db w) (searchJobs_where (clock w 0%nat) f));
             total := Z.of_nat (List.length
                       (matching (db w) (searchJobs_where (clock w 0%nat) f))) |}.
Proof. split; reflexivity. Qed.

(** C1, in [getAllJobs]: the two [where] literals read the clock one after
    the other.  With readings 10 and 11 and a published job expiring at 11,
    the page shows the job and the total is 0, while the predicate of the
    page selects one row. *)
Theorem getAllJobs_total_differs_from_page_predicate :
  fm_where (fst (getAllJobs_queries 10 11 0 10 (OrderByField "createdAt" desc)))
  <> cnt_where (snd (getAllJobs_queries 10 11 0 10 (OrderByField "createdAt" desc)))
  /\ fst (getAllJobs storedOrder 0 10 (OrderByField "createdAt" desc)
            {| db := sampleDb [sampleJob "j1" PUBLISHED (Some 11) None None] [] [];
               clock := tickingFrom 10 1 |})
     = Ok {| jobs := [sampleJob "j1" PUBLISHED (Some 11) None None];
             total := 0 |}
  /\ Z.of_nat (List.length
       (matching (sampleDb [sampleJob "j1" PUBLISHED (Some 11) None None] [] [])
                 (publishedWhere 10))) = 1.
Proof. split; [discriminate | split; reflexivity]. Qed.

(* --------------------------------------------------------------------- *)
(** *** deleteJob *)
(* --------------------------------------------------------------------- *)

Lemma find_filter_none {A : Type} (p : A -> bool) (l : list A) :
  find p (filter (fun x => negb (p x)) l) = None.
Proof.
  induction l as [|x l IH]; cbn; [reflexivity|].
  destruct (p x) eqn:Hp; cbn; [exact IH|]. rewrite Hp. exact IH.
Qed.

(** C8: for a job whose company is owned by the acting user, [deleteJob]
    throws the 400 error and leaves the store as it is when the job has an
    application; when it has none, the job row and every JobSkill row of the
    job are removed, and nothing else is. *)
Theorem deleteJob_spec
  (w : World) (jobId userId : string) (job : Job.t) (company : Company.t) :
  find (fun j => (Job.id j =? jobId)%string) (Db.jobs (db w)) = Some job ->
  find (fun c => (Company.id c =? Job.companyId job)%string)
       (Db.companies (db w)) = Some company ->
  Company.ownerId company = userId ->
  (0 < applicationCount (db w) jobId ->
     deleteJob jobId userId w
     = (Throw (AppError
          "Cannot delete job with existing applications. Close the job instead."
          400), w))
  /\ (applicationCount (db w) jobId = 0 ->
        fst (deleteJob jobId userId w) = Ok "Job deleted successfully"
        /\ find (fun j => (Job.id j =? jobId)%string)
                (Db.jobs (db (snd (deleteJob jobId userId w)))) = None
        /\ (forall s, In s (Db.jobSkills (db (snd (deleteJob jobId userId w)))) ->
                      JobSkill.jobId s <> jobId)
        /\ (forall j, Job.id j <> jobId ->
              (In j (Db.jobs (db (snd (deleteJob jobId userId w))))
               <-> In j (Db.jobs (db w))))
        /\ (forall s, JobSkill.jobId s <> jobId ->
              (In s (Db.jobSkills (db (snd (deleteJob jobId userId w))))
               <-> In s (Db.jobSkills (db w))))
        /\ Db.applications (db (snd (deleteJob jobId userId w)))
           = Db.applications (db w)
        /\ Db.companies (db (snd (deleteJob jobId userId w)))
           = Db.companies (db w)
        /\ Db.users (db (snd (deleteJob jobId userId w))) = Db.users (db w)).
Proof.
  intros Hjob Hco Hown.
  assert (Hrun : deleteJob jobId userId w
     = if 0 <? applicationCount (db w) jobId
       then (Throw (AppError
          "Cannot delete job with existing applications. Close the job instead."
          400), w)
       else (Ok "Job deleted successfully",
             {| db := Db.mk
                  (filter (fun j => negb (Job.id j =? jobId)%string) (Db.jobs (db w)))
                  (Db.companies (db w)) (Db.users (db w))
                  (Db.applications (db w))
                  (filter (fun s => negb (JobSkill.jobId s =? jobId)%string)
                          (Db.jobSkills (db w)));
                clock := clock w |})).
  { unfold deleteJob, job_findUnique, company_findUnique, job_delete,
      bind, getDb, putDb, ret, throw.
    rewrite Hjob, Hco, Hown, String.eqb_refl. cbn [negb].
    destruct (0 <? applicationCount (db w) jobId); reflexivity. }
  split.
  - intros Hpos. rewrite Hrun. apply Z.ltb_lt in Hpos. rewrite Hpos. reflexivity.
  - intros Hzero. rewrite Hrun, Hzero. cbn [Z.ltb Z.compare fst snd db Db.jobs
      Db.jobSkills Db.applications Db.companies Db.users].
    split; [reflexivity|].
    split; [apply (find_filter_none (fun j => (Job.id j =? jobId)%string))|].
    split.
    { intros s Hs. apply filter_In in Hs. destruct Hs as [_ Hs].
      apply negb_true_iff, String.eqb_neq in Hs. exact Hs. }
    split.
    { intros j Hj. rewrite filter_In. apply String.eqb_neq in Hj.
      rewrite Hj. cbn. tauto. }
    split.
    { intros s Hs. rewrite filter_In. apply String.eqb_neq in Hs.
      rewrite Hs. cbn. tauto. }
    repeat split.
Qed.

(** C8, witness: job [j1] of the company owned by [u-owner], once with an
    application and once without. *)
Lemma deleteJob_spec_witness :
  deleteJob "j1" "u-owner"
    {| db := sampleDb [sampleJob "j1" PUBLISHED None None None]
                      [Application.mk "j1" "u1" None None PENDING]
                      [JobSkill.mk "j1" "s1" true];
       clock := tickingFrom 0 1 |}
  = (Throw (AppError
       "Cannot delete job with existing applications. Close the job instead."
       400),
     {| db := sampleDb [sampleJob "j1" PUBLISHED None None None]
                       [Application.mk "j1" "u1" None None PENDING]
                       [JobSkill.mk "j1" "s1" true];
        clock := tickingFrom 0 1 |})
  /\ fst (deleteJob "j1" "u-owner"
            {| db := sampleDb [sampleJob "j1" PUBLISHED None None None] []
                              [JobSkill.mk "j1" "s1" true];
               clock := tickingFrom 0 1 |})
     = Ok "Job deleted successfully".
Proof.
  split.
  - apply (deleteJob_spec
             {| db := sampleDb [sampleJob "j1" PUBLISHED None None None]
                               [Application.mk "j1" "u1" None None PENDING]
                               [JobSkill.mk "j1" "s1" true];
                clock := tickingFrom 0 1 |}
             "j1" (userId := "u-owner")
             (job := sampleJob "j1" PUBLISHED None None None)
             (company := sampleCompany));
      reflexivity.
  - apply (deleteJob_spec
             {| db := sampleDb [sampleJob "j1" PUBLISHED None None None] []
                               [JobSkill.mk "j1" "s1" true];
                clock := tickingFrom 0 1 |}
             "j1" (userId := "u-owner")
             (job := sampleJob "j1" PUBLISHED None None None)
             (company := sampleCompany));
      reflexivity.
Defined.

(* --------------------------------------------------------------------- *)
(** *** expireOldJobs *)
(* --------------------------------------------------------------------- *)

Lemma evalWhere_expiredWhere (d : Db.t) (j : Job.t) (now : Z) :
  evalWhere d j (expiredWhere now) = isDue now j.
Proof.
  unfold evalWhere, expiredWhere, isDue, evalDate. cbn.
  rewrite !andb_true_r. destruct (Job.expiresAt j); reflexivity.
Qed.

Lemma expireOldJobs_run (w : World) :
  expireOldJobs w
  = (Ok (Z.of_nat (List.length (filter (isDue (clock w 0%nat)) (Db.jobs (db w))))),
     {| db := Db.mk (map (sweep (clock w 0%nat)) (Db.jobs (db w)))
                    (Db.companies (db w)) (Db.users (db w))
                    (Db.applications (db w)) (Db.jobSkills (db w));
        clock := fun n => clock w (S n) |}).
Proof.
  unfold expireOldJobs, job_updateMany, newDate, bind, getDb, putDb, ret, matching.
  cbn [db clock]. f_equal.
  - do 3 f_equal. apply filter_ext. intros j. apply evalWhere_expiredWhere.
  - f_equal. f_equal. apply map_ext. intros j. unfold sweep.
    rewrite evalWhere_expiredWhere. reflexivity.
Qed.

Lemma sweep_not_due (now now' : Z) (j : Job.t) :
  (isDue now' j = true -> isDue now j = true) ->
  isDue now' (sweep now j) = false.
Proof.
  intros H. unfold sweep. destruct (isDue now j) eqn:Hd.
  - reflexivity.
  - destruct (isDue now' j); [discriminate (H eq_refl) | reflexivity].
Qed.

Lemma filter_none {A : Type} (p : A -> bool) (l : list A) :
  (forall x, In x l -> p x = false) -> filter p l = [].
Proof.
  induction l as [|x l IH]; intros H; cbn; [reflexivity|].
  rewrite (H x (or_introl eq_refl)). apply IH. intros y Hy. apply H. right. exact Hy.
Qed.

Lemma map_sweep_none (now : Z) (l : list Job.t) :
  (forall x, In x l -> isDue now x = false) -> map (sweep now) l = l.
Proof.
  induction l as [|x l IH]; intros H; cbn; [reflexivity|].
  unfold sweep at 1. rewrite (H x (or_introl eq_refl)). f_equal.
  apply IH. intros y Hy. apply H. right. exact Hy.
Qed.

(** C9, counterexample: the clock reads 3 and then 5, and a published job
    expires at 5.  The first sweep changes nothing and returns 0; the sweep
    that follows it expires the job and returns 1. *)
Lemma expireOldJobs_second_call_expires_more :
  monotone (tickingFrom 3 2)
  /\ fst (expireOldJobs
            {| db := sampleDb [sampleJob "j1" PUBLISHED (Some 5) None None] [] [];
               clock := tickingFrom 3 2 |}) = Ok 0
  /\ fst (expireOldJobs
            (snd (expireOldJobs
               {| db := sampleDb [sampleJob "j1" PUBLISHED (Some 5) None None] [] [];
                  clock := tickingFrom 3 2 |}))) = Ok 1
  /\ fst (expireOldJobs
            (snd (expireOldJobs
               {| db := sampleDb [sampleJob "j1" PUBLISHED (Some 5) None None] [] [];
                  clock := tickingFrom 3 2 |}))) <> Ok 0.
Proof.
  split; [intros n; unfold tickingFrom; lia|].
  split; [reflexivity|]. split; [reflexivity | discriminate].
Qed.

Lemma sweptRow_sweep (now : Z) (j : Job.t) : sweptRow now j (sweep now j).
Proof.
  unfold sweptRow, sweep. destruct (isDue now j); [|reflexivity].
  repeat split.
Qed.

Lemma Forall2_map_sweep (now : Z) (l : list Job.t) :
  Forall2 (sweptRow now) l (map (sweep now) l).
Proof.
  induction l as [|j l IH]; cbn [map]; constructor;
    [apply sweptRow_sweep | exact IH].
Qed.

(** C9, as amended: [expireOldJobs] rewrites exactly the jobs that are
    published with an expiry not later than [now]: row by row, such a job
    gets status EXPIRED and update time [now] and keeps every other column,
    and any other job stays as it is; the other tables are left alone and
    the number of jobs rewritten is returned.  The call that follows does
    the same with the next reading of the clock: when that reading is the
    same instant, or more generally a later instant before which no further
    published job falls due, it rewrites no row and returns 0. *)
Theorem expireOldJobs_spec (w : World) :
  fst (expireOldJobs w)
  = Ok (Z.of_nat (List.length (filter (isDue (clock w 0%nat)) (Db.jobs (db w)))))
  /\ Forall2 (sweptRow (clock w 0%nat))
             (Db.jobs (db w)) (Db.jobs (db (snd (expireOldJobs w))))
  /\ Db.jobs (db (snd (expireOldJobs w)))
     = map (sweep (clock w 0%nat)) (Db.jobs (db w))
  /\ (forall j, isDue (clock w 0%nat) j = true ->
        sweep (clock w 0%nat) j = markExpired (clock w 0%nat) j
        /\ Job.status (sweep (clock w 0%nat) j) = EXPIRED
        /\ Job.updatedAt (sweep (clock w 0%nat) j) = clock w 0%nat)
  /\ (forall j, isDue (clock w 0%nat) j = false -> sweep (clock w 0%nat) j = j)
  /\ Db.companies (db (snd (expireOldJobs w))) = Db.companies (db w)
  /\ Db.users (db (snd (expireOldJobs w))) = Db.users (db w)
  /\ Db.applications (db (snd (expireOldJobs w))) = Db.applications (db w)
  /\ Db.jobSkills (db (snd (expireOldJobs w))) = Db.jobSkills (db w)
  /\ fst (expireOldJobs (snd (expireOldJobs w)))
     = Ok (Z.of_nat (List.length (filter (isDue (clock w 1%nat))
                                         (Db.jobs (db (snd (expireOldJobs w)))))))
  /\ Forall2 (sweptRow (clock w 1%nat))
             (Db.jobs (db (snd (expireOldJobs w))))
             (Db.jobs (db (snd (expireOldJobs (snd (expireOldJobs w))))))
  /\ ((forall j, In j (Db.jobs (db w)) ->
         isDue (clock w 1%nat) j = true -> isDue (clock w 0%nat) j = true) ->
      fst (expireOldJobs (snd (expireOldJobs w))) = Ok 0
      /\ db (snd (expireOldJobs (snd (expireOldJobs w))))
         = db (snd (expireOldJobs w)))
  /\ (clock w 1%nat = clock w 0%nat ->
      fst (expireOldJobs (snd (expireOldJobs w))) = Ok 0
      /\ db (snd (expireOldJobs (snd (expireOldJobs w))))
         = db (snd (expireOldJobs w))).
Proof.
  assert (Hnext :
      fst (expireOldJobs (snd (expireOldJobs w)))
      = Ok (Z.of_nat (List.length (filter (isDue (clock w 1%nat))
                                          (Db.jobs (db (snd (expireOldJobs w)))))))
      /\ Forall2 (sweptRow (clock w 1%nat))
                 (Db.jobs (db (snd (expireOldJobs w))))
                 (Db.jobs (db (snd (expireOldJobs (snd (expireOldJobs w))))))).
  { rewrite (expireOldJobs_run (snd (expireOldJobs w))).
    rewrite (expireOldJobs_run w).
    cbn [fst snd db clock Db.jobs].
    split; [reflexivity | apply Forall2_map_sweep]. }
  assert (Hidem : (forall j, In j (Db.jobs (db w)) ->
         isDue (clock w 1%nat) j = true -> isDue (clock w 0%nat) j = true) ->
      fst (expireOldJobs (snd (expireOldJobs w))) = Ok 0
      /\ db (snd (expireOldJobs (snd (expireOldJobs w))))
         = db (snd (expireOldJobs w))).
  { intros H. rewrite (expireOldJobs_run w). cbn [snd].
    rewrite expireOldJobs_run. cbn [fst snd db clock Db.jobs Db.companies
      Db.users Db.applications Db.jobSkills].
    assert (Hnone : forall x, In x (map (sweep (clock w 0%nat)) (Db.jobs (db w))) ->
                              isDue (clock w 1%nat) x = false).
    { intros x Hx. apply in_map_iff in Hx. destruct Hx as (j & <- & Hj).
      apply sweep_not_due. apply H. exact Hj. }
    rewrite (filter_none _ _ Hnone), (map_sweep_none _ _ Hnone).
    split; reflexivity. }
  rewrite (expireOldJobs_run w) in *.
  cbn [fst snd db Db.jobs Db.companies Db.users Db.applications Db.jobSkills] in *.
  split; [reflexivity|].
  split; [apply Forall2_map_sweep|].
  split; [reflexivity|].
  split.
  { intros j Hj. unfold sweep. rewrite Hj. repeat split. }
  split.
  { intros j Hj. unfold sweep. rewrite Hj. reflexivity. }
  do 4 (split; [reflexivity|]).
  split; [exact (proj1 Hnext)|]. split; [exact (proj2 Hnext)|].
  split; [exact Hidem|].
  intros Heq. apply Hidem. intros j _. rewrite Heq. exact (fun H => H).
Qed.

(** C9, witness: two sweeps at the same instant 7 over a due job, a
    published job due later and a closed job. *)
Lemma expireOldJobs_spec_witness :
  fst (expireOldJobs
         (snd (expireOldJobs
            {| db := sampleDb [sampleJob "j1" PUBLISHED (Some 5) None None;
                               sampleJob "j2" PUBLISHED (Some 9) None None;
                               sampleJob "j3" CLOSED (Some 1) None None] [] [];
               clock := tickingFrom 7 0 |}))) = Ok 0
  /\ Job.status (sweep 7 (sampleJob "j1" PUBLISHED (Some 5) None None)) = EXPIRED
  /\ Job.updatedAt (sweep 7 (sampleJob "j1" PUBLISHED (Some 5) None None)) = 7.
Proof.
  pose proof (expireOldJobs_spec
    {| db := sampleDb [sampleJob "j1" PUBLISHED (Some 5) None None;
                       sampleJob "j2" PUBLISHED (Some 9) None None;
                       sampleJob "j3" CLOSED (Some 1) None None] [] [];
       clock := tickingFrom 7 0 |})
    as (_ & _ & _ & Hdue & _ & _ & _ & _ & _ & _ & _ & _ & Hsame).
  split.
  - apply Hsame. reflexivity.
  - apply (Hdue (sampleJob "j1" PUBLISHED (Some 5) None None)). reflexivity.
Defined.

(* --------------------------------------------------------------------- *)
(** *** applyToJob *)
(* --------------------------------------------------------------------- *)

Lemma find_none_filter {A : Type} (p : A -> bool) (l : list A) :
  find p l = None -> filter p l = [].
Proof.
  induction l as [|x l IH]; cbn; [reflexivity|].
  destruct (p x); [discriminate | exact IH].
Qed.

(** What a call can do to the store: nothing, or add one application of
    the caller to the job when the caller had none. *)
Lemma applyToJob_store
  (w : World) (jobId userId : string) (data : ApplyToJobData) :
  db (snd (applyToJob jobId userId data w)) = db w
  \/ (applicationsOf (db w) jobId userId = []
      /\ exists a,
           Application.jobId a = jobId /\ Application.applicantId a = userId
           /\ Application.status a = PENDING
           /\ fst (applyToJob jobId userId data w) = Ok a
           /\ db (snd (applyToJob jobId userId data w))
              = Db.mk (Db.jobs (db w)) (Db.companies (db w)) (Db.users (db w))
                      (Db.applications (db w) ++ [a])%list
                      (Db.jobSkills (db w))).
Proof.
  unfold applyToJob, job_findUnique, user_findUnique, application_findUnique,
    application_create, bind, getDb, putDb, ret, throw, newDate.
  run_step.
  destruct (find (fun j => (Job.id j =? jobId)%string) (Db.jobs (db w)))
    as [job|]; run_step; [|left; reflexivity].
  destruct (negb (JobStatus_eqb (Job.status job) PUBLISHED)); run_step;
    [left; reflexivity|].
  destruct (Job.expiresAt job) as [e|]; run_step;
    [destruct (e <? clock w 0%nat); run_step; [left; reflexivity|]|];
    (destruct (find (fun u => (User.id u =? userId)%string) (Db.users (db w)))
       as [user|]; run_step; [|left; reflexivity];
     destruct (negb (UserRole_eqb (User.role user) JOB_SEEKER)); run_step;
       [left; reflexivity|];
     destruct (find (fun a => (Application.jobId a =? jobId)%string
                              && (Application.applicantId a =? userId)%string)
                    (Db.applications (db w))) as [a|] eqn:Hfind; run_step;
       [left; reflexivity|];
     right; split; [apply find_none_filter; exact Hfind|];
     refine (ex_intro _ _ (conj _ (conj _ (conj _ (conj eq_refl eq_refl)))));
     reflexivity).
Qed.

Lemma applyToJob_existing
  (w : World) (jobId userId : string) (data : ApplyToJobData)
  (a : Application.t) :
  find (fun a => (Application.jobId a =? jobId)%string
                 && (Application.applicantId a =? userId)%string)
       (Db.applications (db w)) = Some a ->
  (exists e, fst (applyToJob jobId userId data w) = Throw e)
  /\ (openTo (db w) (clock w 0%nat) jobId userId ->
      fst (applyToJob jobId userId data w)
      = Throw (AppError "You have already applied to this job" 409)).
Proof.
  intros Hfind.
  unfold openTo, applyToJob, job_findUnique, user_findUnique,
    application_findUnique, application_create, bind, getDb, putDb, ret,
    throw, newDate.
  run_step.
  destruct (find (fun j => (Job.id j =? jobId)%string) (Db.jobs (db w)))
    as [job|]; run_step;
    [|split; [eexists; reflexivity | intros (j' & u' & H & _); discriminate H]].
  destruct (Job.status job) eqn:Hst; cbn [JobStatus_eqb negb]; run_step;
    try (split; [eexists; reflexivity
                | intros (j' & u' & H & Hp & _); injection H as <-; congruence]).
  destruct (Job.expiresAt job) as [e|] eqn:Hexp; run_step;
    [destruct (e <? clock w 0%nat) eqn:Hlt; run_step;
       [split; [eexists; reflexivity|];
        intros (j' & u' & H & _ & He & _); injection H as <-;
        rewrite Hexp in He; apply Z.ltb_lt in Hlt; lia|]|];
    (destruct (find (fun u => (User.id u =? userId)%string) (Db.users (db w)))
       as [user|]; run_step;
       [|split; [eexists; reflexivity
                | intros (j' & u' & _ & _ & _ & H & _); discriminate H]];
     destruct (User.role user) eqn:Hrole; cbn [UserRole_eqb negb]; run_step;
       try (split; [eexists; reflexivity
                   | intros (j' & u' & _ & _ & _ & H & Hr);
                     injection H as <-; congruence]);
     rewrite Hfind; run_step;
     split; [eexists; reflexivity | intros _; reflexivity]).
Qed.

Lemma applyToJob_keeps_unique
  (w : World) (jobId userId : string) (data : ApplyToJobData) :
  uniqueApplications (db w) ->
  uniqueApplications (db (snd (applyToJob jobId userId data w))).
Proof.
  intros Hu.
  destruct (applyToJob_store w jobId userId data)
    as [-> | (Hnone & a & Hj & Ha & _ & _ & ->)]; [exact Hu|].
  intros j' u'. unfold applicationsOf in *. cbn [Db.applications].
  rewrite filter_app, length_app. cbn [filter].
  destruct ((Application.jobId a =? j')%string
            && (Application.applicantId a =? u')%string) eqn:Hp.
  - apply andb_true_iff in Hp. destruct Hp as [H1 H2].
    apply String.eqb_eq in H1. apply String.eqb_eq in H2. subst.
    rewrite Hnone. cbn. lia.
  - specialize (Hu j' u'). unfold applicationsOf in Hu. cbn. lia.
Qed.

(** C7, counterexample: the applicant has applied and the job has been
    closed since; the further call fails with 400, not with 409. *)
Lemma applyToJob_closed_job_is_400 :
  find (fun a => (Application.jobId a =? "j1")%string
                 && (Application.applicantId a =? "u1")%string)
       (Db.applications
          (sampleDb [sampleJob "j1" CLOSED None None None]
                    [Application.mk "j1" "u1" None None PENDING] []))
  = Some (Application.mk "j1" "u1" None None PENDING)
  /\ fst (applyToJob "j1" "u1" (mkApplyToJobData None None)
            {| db := sampleDb [sampleJob "j1" CLOSED None None None]
                              [Application.mk "j1" "u1" None None PENDING] [];
               clock := tickingFrom 0 1 |})
     = Throw (AppError "This job is not accepting applications" 400)
  /\ forall msg,
       fst (applyToJob "j1" "u1" (mkApplyToJobData None None)
              {| db := sampleDb [sampleJob "j1" CLOSED None None None]
                                [Application.mk "j1" "u1" None None PENDING] [];
                 clock := tickingFrom 0 1 |})
       <> Throw (AppError msg 409).
Proof.
  split; [reflexivity|]. split; [reflexivity|]. intros msg. discriminate.
Qed.

(** The error of each check of [applyToJob], in the order of the checks. *)
Lemma applyToJob_refusals
  (w : World) (jobId userId : string) (data : ApplyToJobData) :
  (find (fun j => (Job.id j =? jobId)%string) (Db.jobs (db w)) = None ->
   fst (applyToJob jobId userId data w) = Throw (AppError "Job not found" 404))
  /\ (forall job,
        find (fun j => (Job.id j =? jobId)%string) (Db.jobs (db w)) = Some job ->
        Job.status job <> PUBLISHED ->
        fst (applyToJob jobId userId data w)
        = Throw (AppError "This job is not accepting applications" 400))
  /\ (forall job e,
        find (fun j => (Job.id j =? jobId)%string) (Db.jobs (db w)) = Some job ->
        Job.status job = PUBLISHED ->
        Job.expiresAt job = Some e ->
        e < clock w 0%nat ->
        fst (applyToJob jobId userId data w)
        = Throw (AppError "This job posting has expired" 400))
  /\ (forall job,
        find (fun j => (Job.id j =? jobId)%string) (Db.jobs (db w)) = Some job ->
        Job.status job = PUBLISHED ->
        match Job.expiresAt job with
        | Some e => clock w 0%nat <= e
        | None => True
        end ->
        (find (fun u => (User.id u =? userId)%string) (Db.users (db w)) = None
         \/ exists user,
              find (fun u => (User.id u =? userId)%string) (Db.users (db w))
              = Some user
              /\ User.role user <> JOB_SEEKER) ->
        fst (applyToJob jobId userId data w)
        = Throw (AppError "Only job seekers can apply to jobs" 403)).
Proof.
  unfold applyToJob, job_findUnique, user_findUnique, application_findUnique,
    application_create, bind, getDb, putDb, ret, throw, newDate.
  run_step. split; [|split; [|split]].
  - intros ->. reflexivity.
  - intros job -> Hst. run_step.
    destruct (Job.status job); cbn [JobStatus_eqb negb]; run_step;
      try reflexivity. contradiction.
  - intros job e -> Hst He Hlt. run_step. rewrite Hst, He.
    cbn [JobStatus_eqb negb]. run_step.
    apply Z.ltb_lt in Hlt. rewrite Hlt. reflexivity.
  - intros job -> Hst Hexp Huser. run_step. rewrite Hst.
    cbn [JobStatus_eqb negb]. run_step.
    destruct (Job.expiresAt job) as [e|]; run_step.
    + assert (Hlt : (e <? clock w 0%nat) = false) by (apply Z.ltb_ge; lia).
      rewrite Hlt. run_step.
      destruct Huser as [-> | (user & -> & Hrole)]; run_step; [reflexivity|].
      destruct (User.role user); cbn [UserRole_eqb negb]; run_step;
        try reflexivity. contradiction.
    + destruct Huser as [-> | (user & -> & Hrole)]; run_step; [reflexivity|].
      destruct (User.role user); cbn [UserRole_eqb negb]; run_step;
        try reflexivity. contradiction.
Qed.

(** C7, as amended: when an application of the applicant to the job exists,
    a further [applyToJob] call fails and leaves the store as it is; the
    error is the 409 Conflict whenever the job is still open to the applicant
    (published, not expired, applicant a job seeker), and the error of the
    earlier check otherwise: 404 when the job does not exist, 400 when it is
    not published, 400 when it has expired, 403 when the applicant does not
    exist or is not a job seeker.  No call ever gives an applicant a second
    application to the same job. *)
Theorem applyToJob_duplicate
  (w : World) (jobId userId : string) (data : ApplyToJobData) :
  (forall a,
     find (fun a => (Application.jobId a =? jobId)%string
                    && (Application.applicantId a =? userId)%string)
          (Db.applications (db w)) = Some a ->
     (exists e, fst (applyToJob jobId userId data w) = Throw e)
     /\ db (snd (applyToJob jobId userId data w)) = db w
     /\ (openTo (db w) (clock w 0%nat) jobId userId ->
         fst (applyToJob jobId userId data w)
         = Throw (AppError "You have already applied to this job" 409))
     /\ (find (fun j => (Job.id j =? jobId)%string) (Db.jobs (db w)) = None ->
         fst (applyToJob jobId userId data w)
         = Throw (AppError "Job not found" 404))
     /\ (forall job,
           find (fun j => (Job.id j =? jobId)%string) (Db.jobs (db w))
           = Some job ->
           Job.status job <> PUBLISHED ->
           fst (applyToJob jobId userId data w)
           = Throw (AppError "This job is not accepting applications" 400))
     /\ (forall job e,
           find (fun j => (Job.id j =? jobId)%string) (Db.jobs (db w))
           = Some job ->
           Job.status job = PUBLISHED ->
           Job.expiresAt job = Some e ->
           e < clock w 0%nat ->
           fst (applyToJob jobId userId data w)
           = Throw (AppError "This job posting has expired" 400))
     /\ (forall job,
           find (fun j => (Job.id j =? jobId)%string) (Db.jobs (db w))
           = Some job ->
           Job.status job = PUBLISHED ->
           match Job.expiresAt job with
           | Some e => clock w 0%nat <= e
           | None => True
           end ->
           (find (fun u => (User.id u =? userId)%string) (Db.users (db w)) = None
            \/ exists user,
                 find (fun u => (User.id u =? userId)%string) (Db.users (db w))
                 = Some user
                 /\ User.role user <> JOB_SEEKER) ->
           fst (applyToJob jobId userId data w)
           = Throw (AppError "Only job seekers can apply to jobs" 403)))
  /\ (uniqueApplications (db w) ->
      uniqueApplications (db (snd (applyToJob jobId userId data w)))).
Proof.
  split; [|apply applyToJob_keeps_unique].
  intros a Hfind.
  destruct (applyToJob_existing w jobId userId data Hfind) as [Hthrow Hopen].
  split; [exact Hthrow|]. split; [|split; [exact Hopen|]].
  - destruct (applyToJob_store w jobId userId data)
      as [Hsame | (_ & a' & _ & _ & _ & Hok & _)]; [exact Hsame|].
    destruct Hthrow as [e He]. rewrite He in Hok. discriminate Hok.
  - exact (applyToJob_refusals w jobId userId data).
Qed.

(** C7, witness: the applicant [u1] has applied to the published job [j1]
    and applies again. *)
Lemma applyToJob_duplicate_witness :
  fst (applyToJob "j1" "u1" (mkApplyToJobData (Some " hello ") None)
         {| db := sampleDb [sampleJob "j1" PUBLISHED (Some 50) None None]
                           [Application.mk "j1" "u1" None None PENDING] [];
            clock := tickingFrom 10 1 |})
  = Throw (AppError "You have already applied to this job" 409)
  /\ db (snd (applyToJob "j1" "u1" (mkApplyToJobData (Some " hello ") None)
                {| db := sampleDb [sampleJob "j1" PUBLISHED (Some 50) None None]
                                  [Application.mk "j1" "u1" None None PENDING] [];
                   clock := tickingFrom 10 1 |}))
     = sampleDb [sampleJob "j1" PUBLISHED (Some 50) None None]
                [Application.mk "j1" "u1" None None PENDING] []
  /\ uniqueApplications
       (db (snd (applyToJob "j1" "u1" (mkApplyToJobData (Some " hello ") None)
                {| db := sampleDb [sampleJob "j1" PUBLISHED (Some 50) None None]
                                  [Application.mk "j1" "u1" None None PENDING] [];
                   clock := tickingFrom 10 1 |}))).
Proof.
  destruct (applyToJob_duplicate
              {| db := sampleDb [sampleJob "j1" PUBLISHED (Some 50) None None]
                                [Application.mk "j1" "u1" None None PENDING] [];
                 clock := tickingFrom 10 1 |}
              "j1" "u1" (mkApplyToJobData (Some " hello ") None))
    as [Hdup Huniq].
  destruct (Hdup (Application.mk "j1" "u1" None None PENDING) eq_refl)
    as (_ & Hdb & H409 & _).
  split; [|split].
  - apply H409.
    exists (sampleJob "j1" PUBLISHED (Some 50) None None), sampleSeeker.
    cbn. repeat split. lia.
  - exact Hdb.
  - apply Huniq. intros j u. unfold applicationsOf, sampleDb.
    cbn [db Db.applications filter Application.jobId Application.applicantId].
    destruct (("j1" =? j)%string && ("u1" =? u)%string); cbn [List.length]; lia.
Defined.

(** C2, witness: a request for remote jobs in Paris. *)
Lemma searchJobs_remote_ignores_location_witness :
  Where.location
    (searchJobs_where 100
       (JobFilters.with_isRemote (Some true)
          (JobFilters.with_location (Some "Paris") JobFilters.empty))) = None.
Proof.
  apply (searchJobs_remote_ignores_location 100
           (JobFilters.with_isRemote (Some true)
              (JobFilters.with_location (Some "Paris") JobFilters.empty))
           0 10).
  reflexivity.
Defined.

(** C6, witness: a published job expiring at 200, searched at 100 with a
    text, a salary bound and the remote flag. *)
Lemma searchJobs_where_baseline_witness :
  baseline 100 (sampleJob "j1" PUBLISHED (Some 200) (Some 3000) (Some 6000)).
Proof.
  apply (searchJobs_where_baseline (sampleDb [] [] []) 100
           (JobFilters.mk None None None (Some 5000) None (Some true) None None
                          (Some " engineer ") None None)).
  reflexivity.
Defined.

(* ===================================================================== *)
(** ** Further properties *)
(* ===================================================================== *)

(* --------------------------------------------------------------------- *)
(** *** The pagination object of the response *)
(* --------------------------------------------------------------------- *)

Lemma orDefault_nonzero (x : JS.number) (d : Z) :
  d <> 0 -> JS.orDefault x d <> 0.
Proof.
  intros Hd. destruct x as [|z]; cbn; [exact Hd|].
  destruct z; [exact Hd | discriminate | discriminate].
Qed.

Lemma getPaginationParams_limit_nonzero (req : Query) :
  limit (getPaginationParams req) <> 0.
Proof.
  unfold getPaginationParams. cbn [limit].
  pose proof (@orDefault_nonzero (JS.parseInt (q_limit req)) 10) as H.
  lia.
Qed.

Lemma ceilOfQuotient_bounds (total limit : Z) :
  0 < limit ->
  (- ((- total) / limit) - 1) * limit < total <= - ((- total) / limit) * limit.
Proof.
  intros Hl.
  pose proof (Z.div_mod (- total) limit ltac:(lia)) as Hdm.
  pose proof (Z.mod_pos_bound (- total) limit Hl) as Hr.
  nia.
Qed.

(** X1: for a positive limit and a total that is not negative, [totalPages]
    is the least number of pages of [limit] rows that hold [total] rows: the
    pages hold all rows, and one page fewer would not. *)
Theorem paginated_totalPages_least (total page limit : Z) :
  0 < limit -> 0 <= total ->
  exists n,
    ResponseHelper.totalPages (ResponseHelper.paginated total page limit)
    = ResponseHelper.Pages n
    /\ 0 <= n
    /\ total <= n * limit
    /\ (n - 1) * limit < total.
Proof.
  intros Hl Ht. exists (- ((- total) / limit)).
  unfold ResponseHelper.paginated, ResponseHelper.ceilOfQuotient.
  cbn [ResponseHelper.totalPages].
  destruct (limit =? 0) eqn:E; [apply Z.eqb_eq in E; lia|].
  pose proof (ceilOfQuotient_bounds total Hl) as Hb.
  split; [reflexivity|]. split; [nia|]. split; lia.
Qed.

(** X1, witness: 45 rows in pages of 10. *)
Lemma paginated_totalPages_least_witness :
  exists n,
    ResponseHelper.totalPages (ResponseHelper.paginated 45 2 10)
    = ResponseHelper.Pages n
    /\ 0 <= n /\ 45 <= n * 10 /\ (n - 1) * 10 < 45.
Proof. apply (@paginated_totalPages_least 45 2 10); lia. Defined.

(** X2: for the parameters derived from a request, with a positive limit,
    [hasNext] is set exactly when rows remain after the page, that is when
    [skip + limit < total], and [hasPrev] exactly when the page does not
    start at the first row, that is when [limit <= skip]. *)
Theorem paginated_hasNext_hasPrev (req : Query) (total : Z) :
  0 < limit (getPaginationParams req) ->
  (ResponseHelper.hasNext
     (ResponseHelper.paginated total (page (getPaginationParams req))
                               (limit (getPaginationParams req))) = true
   <-> skip (getPaginationParams req) + limit (getPaginationParams req) < total)
  /\ (ResponseHelper.hasPrev
        (ResponseHelper.paginated total (page (getPaginationParams req))
                                  (limit (getPaginationParams req))) = true
      <-> limit (getPaginationParams req) <= skip (getPaginationParams req)).
Proof.
  unfold getPaginationParams. cbn [page limit skip].
  set (p := JS.orDefault (JS.parseInt (q_page req)) 1).
  set (l := Z.min (JS.orDefault (JS.parseInt (q_limit req)) 10) 50).
  intros Hl.
  unfold ResponseHelper.paginated, ResponseHelper.ceilOfQuotient.
  cbn [ResponseHelper.hasNext ResponseHelper.hasPrev].
  destruct (l =? 0) eqn:E; [apply Z.eqb_eq in E; lia|].
  cbn [ResponseHelper.lessThan].
  pose proof (ceilOfQuotient_bounds total Hl) as Hb.
  rewrite !Z.ltb_lt. split; split; intros H; nia.
Qed.

(** X2, witness: the request [?page=2&limit=20] over 45 rows has a next and
    a previous page. *)
Lemma paginated_hasNext_hasPrev_witness :
  (ResponseHelper.hasNext
     (ResponseHelper.paginated 45
        (page (getPaginationParams (mkQuery (Some "2") (Some "20"))))
        (limit (getPaginationParams (mkQuery (Some "2") (Some "20"))))) = true
   <-> skip (getPaginationParams (mkQuery (Some "2") (Some "20")))
       + limit (getPaginationParams (mkQuery (Some "2") (Some "20"))) < 45)
  /\ (ResponseHelper.hasPrev
        (ResponseHelper.paginated 45
           (page (getPaginationParams (mkQuery (Some "2") (Some "20"))))
           (limit (getPaginationParams (mkQuery (Some "2") (Some "20"))))) = true
      <-> limit (getPaginationParams (mkQuery (Some "2") (Some "20")))
          <= skip (getPaginationParams (mkQuery (Some "2") (Some "20")))).
Proof.
  apply (@paginated_hasNext_hasPrev (mkQuery (Some "2") (Some "20")) 45).
  reflexivity.
Defined.

(** X3: the limit derived from a request is never zero, so the page count of
    the response is always a number, never [NaN] or an infinity. *)
Theorem paginated_totalPages_is_number (req : Query) (total : Z) :
  exists n,
    ResponseHelper.totalPages
      (ResponseHelper.paginated total (page (getPaginationParams req))
                                (limit (getPaginationParams req)))
    = ResponseHelper.Pages n.
Proof.
  pose proof (getPaginationParams_limit_nonzero req) as Hl.
  unfold ResponseHelper.paginated, ResponseHelper.ceilOfQuotient.
  cbn [ResponseHelper.totalPages].
  apply Z.eqb_neq in Hl. rewrite Hl. eexists. reflexivity.
Qed.

(* --------------------------------------------------------------------- *)
(** *** The compiled predicate, key by key *)
(* --------------------------------------------------------------------- *)

Lemma suppliedText_truthy (s : option string) :
  JS.truthyStr s = match suppliedText s with Some _ => true | None => false end.
Proof. destruct s as [[|c r]|]; reflexivity. Qed.

Lemma trim_empty : JS.trim "" = "".
Proof. reflexivity. Qed.

Lemma addSearch_mk s o a c t l r e k x (search : option string) :
  addSearch search (Where.mk s o a c t l r e k x)
  = Where.mk s o
      (match search with
       | Some v => if 0 <? Z.of_nat (String.length (JS.trim v))
                   then Some [searchClause (JS.trim v)]
                   else a
       | None => a
       end) c t l r e k x.
Proof.
  unfold addSearch. destruct search as [[|ch v]|]; try reflexivity.
  cbn [JS.truthyStr andb].
  destruct (0 <? Z.of_nat (String.length (JS.trim (String ch v)))); reflexivity.
Qed.

Lemma addCategory_mk s o a c t l r e k x (category : option string) :
  addCategory category (Where.mk s o a c t l r e k x)
  = Where.mk s o a
      (match suppliedText category with Some v => Some v | None => c end)
      t l r e k x.
Proof. unfold addCategory. destruct category as [[|ch v]|]; reflexivity. Qed.

Lemma addType_mk s o a c t l r e k x (type : option string) :
  addType type (Where.mk s o a c t l r e k x)
  = Where.mk s o a c
      (match suppliedText type with Some v => Some v | None => t end)
      l r e k x.
Proof. unfold addType. destruct type as [[|ch v]|]; reflexivity. Qed.

Lemma addLocation_mk s o a c t l r e k x
  (location : option string) (isRemote : option bool) :
  addLocation location isRemote (Where.mk s o a c t l r e k x)
  = Where.mk s o a c t
      (match suppliedText location with
       | Some v => if JS.truthyBool isRemote then l else Some v
       | None => l
       end) r e k x.
Proof.
  unfold addLocation.
  destruct location as [[|ch v]|]; try reflexivity.
  cbn [JS.truthyStr andb suppliedText].
  destruct (JS.truthyBool isRemote); reflexivity.
Qed.

Lemma addIsRemote_mk s o a c t l r e k x (isRemote : option bool) :
  addIsRemote isRemote (Where.mk s o a c t l r e k x)
  = Where.mk s o a c t l
      (match isRemote with Some b => Some b | None => r end) e k x.
Proof. unfold addIsRemote. destruct isRemote; reflexivity. Qed.

Lemma addExperienceLevel_mk s o a c t l r e k x (level : option string) :
  addExperienceLevel level (Where.mk s o a c t l r e k x)
  = Where.mk s o a c t l r
      (match suppliedText level with Some v => Some v | None => e end) k x.
Proof. unfold addExperienceLevel. destruct level as [[|ch v]|]; reflexivity. Qed.

Lemma addSkills_mk s o a c t l r e k x (skills : option (list string)) :
  addSkills skills (Where.mk s o a c t l r e k x)
  = Where.mk s o a c t l r e
      (match skills with Some (i :: ids) => Some (i :: ids) | _ => k end) x.
Proof. unfold addSkills. destruct skills as [[|i ids]|]; reflexivity. Qed.

(** The salary step on the conditions collected so far. *)
Lemma addSalary_mk_eval (d : Db.t) (j : Job.t) s o a c t l r e k x
  (mn mx : option Z) :
  Where.status (addSalary mn mx (Where.mk s o a c t l r e k x)) = s
  /\ Where.OR (addSalary mn mx (Where.mk s o a c t l r e k x)) = o
  /\ Where.categoryId (addSalary mn mx (Where.mk s o a c t l r e k x)) = c
  /\ Where.type (addSalary mn mx (Where.mk s o a c t l r e k x)) = t
  /\ Where.location (addSalary mn mx (Where.mk s o a c t l r e k x)) = l
  /\ Where.isRemote (addSalary mn mx (Where.mk s o a c t l r e k x)) = r
  /\ Where.experienceLevel (addSalary mn mx (Where.mk s o a c t l r e k x)) = e
  /\ Where.jobSkills (addSalary mn mx (Where.mk s o a c t l r e k x)) = k
  /\ Where.expiresAt (addSalary mn mx (Where.mk s o a c t l r e k x)) = x
  /\ onKey (Where.AND (addSalary mn mx (Where.mk s o a c t l r e k x)))
           (forallb (evalCond d j))
     = onKey a (forallb (evalCond d j))
       && salaryMinClause mn j && salaryMaxClause mx j.
Proof.
  unfold addSalary, salaryMinClause, salaryMaxClause, JS.truthyNum.
  destruct mn as [m|], mx as [m'|];
    try destruct (m =? 0); try destruct (m' =? 0);
    cbn [negb orb andb Where.set_AND Where.status Where.OR Where.AND
         Where.categoryId Where.type Where.location Where.isRemote
         Where.experienceLevel Where.jobSkills Where.expiresAt];
    repeat (split; [reflexivity|]);
    rewrite ?andb_true_r; try reflexivity;
    destruct a as [al|];
    cbn [onKey]; rewrite ?forallb_app;
    cbn [forallb existsb evalCond numField app];
    rewrite ?orb_false_r, ?andb_true_r;
    repeat match goal with
           | |- context [forallb ?p ?k] => generalize (forallb p k); intro
           | |- context [gte ?p ?k] => generalize (gte p k); intro
           | |- context [lte ?p ?k] => generalize (lte p k); intro
           end;
    btauto.
Qed.

Lemma addSkills_eval (d : Db.t) (j : Job.t) (k : option (list string))
  (w : Where.t) :
  evalWhere d j (addSkills k w)
  = onKey (Where.status w) (fun s => JobStatus_eqb (Job.status j) s)
    && onKey (Where.OR w) (existsb (evalCond d j))
    && onKey (Where.AND w) (forallb (evalCond d j))
    && onKey (Where.categoryId w)
         (fun c => match Job.categoryId j with
                   | Some c' => (c' =? c)%string
                   | None => false
                   end)
    && onKey (Where.type w) (String.eqb (Job.type j))
    && onKey (Where.location w) (containsI (Job.location j))
    && onKey (Where.isRemote w) (Bool.eqb (Job.isRemote j))
    && onKey (Where.experienceLevel w) (String.eqb (Job.experienceLevel j))
    && onKey (match k with
              | Some (i :: ids) => Some (i :: ids)
              | _ => Where.jobSkills w
              end) (hasSkillIn d j)
    && onKey (Where.expiresAt w) (evalDate j).
Proof. destruct w. rewrite addSkills_mk. reflexivity. Qed.

Lemma baseline_OR_eval (d : Db.t) (j : Job.t) (now : Z) :
  existsb (evalCond d j) [C_expiresAt IsNull; C_expiresAt (Gt now)]
  = match Job.expiresAt j with
    | None => true
    | Some e => now <? e
    end.
Proof.
  cbn [existsb evalCond]. unfold evalDate.
  destruct (Job.expiresAt j); cbn; rewrite ?orb_false_r; reflexivity.
Qed.

Lemma searchClause_eval (d : Db.t) (j : Job.t) (term : string) :
  forallb (evalCond d j) [searchClause term] = textMatches d j term.
Proof.
  unfold searchClause, textMatches.
  cbn [forallb existsb evalCond strField].
  rewrite andb_true_r, orb_false_r, !orb_assoc. reflexivity.
Qed.

Lemma onKey_supplied {A : Type} (v : option A) (p : A -> bool) :
  onKey (match v with Some x => Some x | None => None end) p
  = match v with Some x => p x | None => true end.
Proof. destruct v; reflexivity. Qed.

Lemma evalWhere_searchJobs_where
  (d : Db.t) (now : Z) (f : JobFilters.t) (j : Job.t) :
  evalWhere d j (searchJobs_where now f) = admits d now f j.
Proof.
  split_request f. unfold searchJobs_where, publishedWhere, admits.
  cbn [JobFilters.category JobFilters.type JobFilters.location
       JobFilters.salaryMin JobFilters.salaryMax JobFilters.isRemote
       JobFilters.experienceLevel JobFilters.skills JobFilters.search].
  rewrite addSearch_mk, addCategory_mk, addType_mk, addLocation_mk,
    addIsRemote_mk, addExperienceLevel_mk.
  rewrite addSkills_eval.
  match goal with
  | |- context [addSalary ?mn ?mx (Where.mk ?s ?o ?a ?c ?t ?l ?r ?e ?k ?x)] =>
      destruct (addSalary_mk_eval d j s o a c t l r e k x mn mx)
        as (-> & -> & -> & -> & -> & -> & -> & -> & -> & ->)
  end.
  assert (Hs : onKey
            match search with
            | Some v => if 0 <? Z.of_nat (String.length (JS.trim v))
                        then Some [searchClause (JS.trim v)]
                        else None
            | None => None
            end (forallb (evalCond d j))
          = match search with
            | Some s => if 0 <? Z.of_nat (String.length (JS.trim s))
                        then textMatches d j (JS.trim s)
                        else true
            | None => true
            end).
  { destruct search as [v|]; [|reflexivity].
    destruct (0 <? Z.of_nat (String.length (JS.trim v))); [|reflexivity].
    cbn [onKey]. apply searchClause_eval. }
  rewrite Hs. clear Hs.
  assert (Hl : onKey
            match suppliedText location with
            | Some v => if JS.truthyBool isRemote then None else Some v
            | None => None
            end (containsI (Job.location j))
          = match suppliedText location with
            | Some l => if JS.truthyBool isRemote then true
                        else containsI (Job.location j) l
            | None => true
            end).
  { destruct (suppliedText location); [|reflexivity].
    destruct (JS.truthyBool isRemote); reflexivity. }
  rewrite Hl. clear Hl.
  assert (Hk : onKey match skills with
                     | Some (i :: ids) => Some (i :: ids)
                     | _ => None
                     end (hasSkillIn d j)
               = match skills with
                 | Some (s :: l) => hasSkillIn d j (s :: l)
                 | _ => true
                 end).
  { destruct skills as [[|i ids]|]; reflexivity. }
  rewrite Hk. clear Hk.
  rewrite !onKey_supplied. cbn [onKey]. rewrite baseline_OR_eval.
  btauto.
Qed.

(** X4: the predicate compiled by [searchJobs] admits exactly the jobs that
    the request asks for: published and not expired at the instant of the
    compilation, and meeting the condition of every filter supplied.  A
    search text is trimmed and matched against title, description,
    requirements, responsibilities and company name; the search clause and
    the salary clauses are all kept when they occur together. *)
Theorem searchJobs_where_admits
  (d : Db.t) (now : Z) (f : JobFilters.t) (j : Job.t) :
  evalWhere d j (searchJobs_where now f) = admits d now f j.
Proof. apply evalWhere_searchJobs_where. Qed.

Lemma blank_cons (c : ascii) (s : string) :
  blank (String c s) -> JS.isWhiteSpace c = true /\ blank s.
Proof.
  intros H. split.
  - apply H. cbn. left. reflexivity.
  - intros c' Hc'. apply H. cbn. right. exact Hc'.
Qed.

Lemma trimStart_blank (s : string) : blank s -> JS.trimStart s = "".
Proof.
  induction s as [|c s IH]; intros H; [reflexivity|].
  apply blank_cons in H. destruct H as [Hc Hs].
  cbn. rewrite Hc. apply IH. exact Hs.
Qed.

Lemma trim_blank (s : string) : blank s -> JS.trim s = "".
Proof. intros H. unfold JS.trim. rewrite (trimStart_blank H). reflexivity. Qed.

(** X5: a search text made of white space only (the empty text included)
    compiles to the same queries as no search text; so do an empty category
    and an empty list of skills. *)
Theorem searchJobs_blank_filters_ignored
  (now : Z) (f : JobFilters.t) (skip limit : Z) (s : string) :
  blank s ->
  searchJobs_queries now (withSearch (Some s) f) skip limit
  = searchJobs_queries now (withSearch None f) skip limit
  /\ searchJobs_queries now (withSkills (Some []) f) skip limit
     = searchJobs_queries now (withSkills None f) skip limit
  /\ searchJobs_queries now (withCategory (Some "") f) skip limit
     = searchJobs_queries now (withCategory None f) skip limit.
Proof.
  intros Hs. split; [|split; reflexivity].
  unfold searchJobs_queries, searchJobs_where, withSearch.
  cbn [JobFilters.category JobFilters.type JobFilters.location
       JobFilters.salaryMin JobFilters.salaryMax JobFilters.isRemote
       JobFilters.experienceLevel JobFilters.skills JobFilters.search].
  assert (Hsearch : forall w, addSearch (Some s) w = addSearch None w).
  { intros w. unfold addSearch. rewrite (trim_blank Hs).
    cbn. rewrite andb_false_r. reflexivity. }
  rewrite Hsearch. reflexivity.
Qed.

(** X5, witness: a search for three spaces. *)
Lemma searchJobs_blank_filters_ignored_witness :
  searchJobs_queries 100 (withSearch (Some "   ") JobFilters.empty) 0 10
  = searchJobs_queries 100 (withSearch None JobFilters.empty) 0 10.
Proof.
  apply (@searchJobs_blank_filters_ignored 100 JobFilters.empty 0 10 "   ").
  intros c H. cbn in H.
  destruct H as [<- | [<- | [<- | []]]]; reflexivity.
Defined.

(* --------------------------------------------------------------------- *)
(** *** Applying: who is accepted, and what is stored *)
(* --------------------------------------------------------------------- *)

Lemma filter_nil_find {A : Type} (p : A -> bool) (l : list A) :
  filter p l = [] -> find p l = None.
Proof.
  induction l as [|x l IH]; cbn; [reflexivity|].
  destruct (p x); [discriminate | exact IH].
Qed.

Lemma find_app_last {A : Type} (p : A -> bool) (l : list A) (a : A) :
  p a = true -> exists b, find p (l ++ [a]) = Some b.
Proof.
  intros Ha. induction l as [|x l IH]; cbn.
  - rewrite Ha. eexists. reflexivity.
  - destruct (p x); [eexists; reflexivity | exact IH].
Qed.

(** The run of [applyToJob] when every check passes. *)
Lemma applyToJob_accepts
  (w : World) (jobId userId : string) (data : ApplyToJobData)
  (job : Job.t) (user : User.t) :
  find (fun j => (Job.id j =? jobId)%string) (Db.jobs (db w)) = Some job ->
  Job.status job = PUBLISHED ->
  match Job.expiresAt job with Some e => clock w 0%nat <= e | None => True end ->
  find (fun u => (User.id u =? userId)%string) (Db.users (db w)) = Some user ->
  User.role user = JOB_SEEKER ->
  applicationsOf (db w) jobId userId = [] ->
  applyToJob jobId userId data w
  = (Ok (applicationRow jobId userId data user),
     {| db := Db.mk (Db.jobs (db w)) (Db.companies (db w)) (Db.users (db w))
                    (Db.applications (db w)
                     ++ [applicationRow jobId userId data user])%list
                    (Db.jobSkills (db w));
        clock := clockAfterExpiryCheck job (clock w) |}).
Proof.
  intros Hjob Hst Hexp Huser Hrole Hnone.
  apply filter_nil_find in Hnone.
  unfold applyToJob, job_findUnique, user_findUnique, application_findUnique,
    application_create, bind, getDb, putDb, ret, throw, newDate,
    clockAfterExpiryCheck, applicationRow.
  run_step. rewrite Hjob. run_step. rewrite Hst. cbn [JobStatus_eqb negb].
  run_step.
  assert (Hresume :
    (if JS.truthyStr (resumeUrl data) then resumeUrl data
     else match User.profile user with
          | Some p => Profile.resumeUrl p
          | None => None
          end)
    = match suppliedText (resumeUrl data) with
      | Some u => Some u
      | None => match User.profile user with
                | Some p => Profile.resumeUrl p
                | None => None
                end
      end).
  { destruct (resumeUrl data) as [[|c r]|]; reflexivity. }
  destruct (Job.expiresAt job) as [e|]; run_step.
  - assert (Hlt : (e <? clock w 0%nat) = false) by (apply Z.ltb_ge; lia).
    rewrite Hlt. run_step. rewrite Huser. run_step. rewrite Hrole.
    cbn [UserRole_eqb negb]. run_step. rewrite Hnone. run_step.
    rewrite Hresume. reflexivity.
  - rewrite Huser. run_step. rewrite Hrole.
    cbn [UserRole_eqb negb]. run_step. rewrite Hnone. run_step.
    rewrite Hresume. destruct w. reflexivity.
Qed.

(** A call that succeeds has passed every check. *)
Lemma applyToJob_ok_inv
  (w : World) (jobId userId : string) (data : ApplyToJobData)
  (a : Application.t) :
  fst (applyToJob jobId userId data w) = Ok a ->
  openTo (db w) (clock w 0%nat) jobId userId
  /\ applicationsOf (db w) jobId userId = [].
Proof.
  unfold openTo, applyToJob, job_findUnique, user_findUnique,
    application_findUnique, application_create, bind, getDb, putDb, ret,
    throw, newDate.
  run_step.
  destruct (find (fun j => (Job.id j =? jobId)%string) (Db.jobs (db w)))
    as [job|]; run_step; [|discriminate].
  destruct (Job.status job) eqn:Hst; cbn [JobStatus_eqb negb]; run_step;
    try discriminate.
  destruct (Job.expiresAt job) as [e|] eqn:Hexp; run_step;
    [destruct (e <? clock w 0%nat) eqn:Hlt; run_step; [discriminate|]|];
    (destruct (find (fun u => (User.id u =? userId)%string) (Db.users (db w)))
       as [user|]; run_step; [|discriminate];
     destruct (User.role user) eqn:Hrole; cbn [UserRole_eqb negb]; run_step;
       try discriminate;
     destruct (find (fun a => (Application.jobId a =? jobId)%string
                              && (Application.applicantId a =? userId)%string)
                    (Db.applications (db w))) as [a'|] eqn:Hfind; run_step;
       [discriminate|];
     intros _; split;
       [exists job, user; rewrite Hexp;
        repeat split; try assumption; try reflexivity
       | apply find_none_filter; exact Hfind]).
  apply Z.ltb_ge in Hlt. lia.
Qed.

(** X6: when the job is published and not expired, the caller is a job
    seeker and has not applied to the job, [applyToJob] succeeds: it returns
    and stores one new application, for that job and applicant, with status
    PENDING, the cover letter trimmed and the resume URL taken from the
    request or, when the request has none, from the applicant's profile; no
    other row of the store changes. *)
Theorem applyToJob_accepted
  (w : World) (jobId userId : string) (data : ApplyToJobData)
  (job : Job.t) (user : User.t) :
  find (fun j => (Job.id j =? jobId)%string) (Db.jobs (db w)) = Some job ->
  Job.status job = PUBLISHED ->
  match Job.expiresAt job with Some e => clock w 0%nat <= e | None => True end ->
  find (fun u => (User.id u =? userId)%string) (Db.users (db w)) = Some user ->
  User.role user = JOB_SEEKER ->
  applicationsOf (db w) jobId userId = [] ->
  fst (applyToJob jobId userId data w)
  = Ok (applicationRow jobId userId data user)
  /\ db (snd (applyToJob jobId userId data w))
     = Db.mk (Db.jobs (db w)) (Db.companies (db w)) (Db.users (db w))
             (Db.applications (db w)
              ++ [applicationRow jobId userId data user])%list
             (Db.jobSkills (db w))
  /\ applicationsOf (db (snd (applyToJob jobId userId data w))) jobId userId
     = [applicationRow jobId userId data user].
Proof.
  intros Hjob Hst Hexp Huser Hrole Hnone.
  rewrite (@applyToJob_accepts w jobId userId data job user Hjob Hst Hexp Huser Hrole Hnone).
  cbn [fst snd db]. split; [reflexivity|]. split; [reflexivity|].
  unfold applicationsOf in *. cbn [Db.applications].
  rewrite filter_app, Hnone. cbn. rewrite !String.eqb_refl. reflexivity.
Qed.

(** X6, witness: a first application with a padded cover letter and no
    resume URL, by an applicant whose profile has one. *)
Lemma applyToJob_accepted_witness :
  fst (applyToJob "j1" "u2" (mkApplyToJobData (Some " hello ") (Some ""))
         {| db := Db.mk [sampleJob "j1" PUBLISHED (Some 50) None None]
                        [sampleCompany]
                        [User.mk "u2" JOB_SEEKER
                           (Some (Profile.mk (Some "/files/cv.pdf")))]
                        [] [];
            clock := tickingFrom 10 1 |})
  = Ok (Application.mk "j1" "u2" (Some "hello") (Some "/files/cv.pdf") PENDING).
Proof.
  apply (@applyToJob_accepted
           {| db := Db.mk [sampleJob "j1" PUBLISHED (Some 50) None None]
                          [sampleCompany]
                          [User.mk "u2" JOB_SEEKER
                             (Some (Profile.mk (Some "/files/cv.pdf")))]
                          [] [];
              clock := tickingFrom 10 1 |}
           "j1" "u2" (mkApplyToJobData (Some " hello ") (Some ""))
           (sampleJob "j1" PUBLISHED (Some 50) None None)
           (User.mk "u2" JOB_SEEKER (Some (Profile.mk (Some "/files/cv.pdf")))));
    try reflexivity.
  cbn. unfold tickingFrom. lia.
Defined.

(** X7: [applyToJob] accepts nothing else: a call that succeeds was made for
    a job that exists, is published and has not expired, by a user who
    exists and is a job seeker, and who had no application to that job. *)
Theorem applyToJob_accepts_only_open
  (w : World) (jobId userId : string) (data : ApplyToJobData)
  (a : Application.t) :
  fst (applyToJob jobId userId data w) = Ok a ->
  openTo (db w) (clock w 0%nat) jobId userId
  /\ applicationsOf (db w) jobId userId = [].
Proof. apply applyToJob_ok_inv. Qed.

(** X7, witness: the accepted application of the sample job seeker. *)
Lemma applyToJob_accepts_only_open_witness :
  openTo (sampleDb [sampleJob "j1" PUBLISHED None None None] [] [])
         10 "j1" "u1"
  /\ applicationsOf (sampleDb [sampleJob "j1" PUBLISHED None None None] [] [])
                    "j1" "u1" = [].
Proof.
  apply (@applyToJob_accepts_only_open
           {| db := sampleDb [sampleJob "j1" PUBLISHED None None None] [] [];
              clock := tickingFrom 10 1 |}
           "j1" "u1" (mkApplyToJobData None None)
           (Application.mk "j1" "u1" None None PENDING)).
  reflexivity.
Defined.

(** X8: applying twice.  After a call of [applyToJob] that succeeded, any
    further call for the same job and applicant fails and leaves the store
    as the first call left it; the error is the 409 Conflict as long as the
    job has not expired at the instant of the second call. *)
Theorem applyToJob_twice
  (w : World) (jobId userId : string) (data data' : ApplyToJobData)
  (job : Job.t) (a : Application.t) :
  find (fun j => (Job.id j =? jobId)%string) (Db.jobs (db w)) = Some job ->
  fst (applyToJob jobId userId data w) = Ok a ->
  (exists e,
     fst (applyToJob jobId userId data' (snd (applyToJob jobId userId data w)))
     = Throw e)
  /\ db (snd (applyToJob jobId userId data'
                (snd (applyToJob jobId userId data w))))
     = db (snd (applyToJob jobId userId data w))
  /\ (match Job.expiresAt job with
      | Some e => clock w 1%nat <= e
      | None => True
      end ->
      fst (applyToJob jobId userId data' (snd (applyToJob jobId userId data w)))
      = Throw (AppError "You have already applied to this job" 409)).
Proof.
  intros Hjob Hok.
  destruct (applyToJob_ok_inv w jobId userId data Hok)
    as [(job' & user & Hjob' & Hst & Hexp & Huser & Hrole) Hnone].
  rewrite Hjob in Hjob'. injection Hjob' as <-.
  rewrite (@applyToJob_accepts w jobId userId data job user
             Hjob Hst Hexp Huser Hrole Hnone) in *.
  cbn [fst snd] in *.
  set (row := applicationRow jobId userId data user) in *.
  set (w1 := {| db := Db.mk (Db.jobs (db w)) (Db.companies (db w))
                        (Db.users (db w)) (Db.applications (db w) ++ [row])%list
                        (Db.jobSkills (db w));
                clock := clockAfterExpiryCheck job (clock w) |}).
  destruct (@find_app_last _
              (fun a => (Application.jobId a =? jobId)%string
                        && (Application.applicantId a =? userId)%string)
              (Db.applications (db w)) row) as [b Hb].
  { unfold row, applicationRow. cbn. rewrite !String.eqb_refl. reflexivity. }
  destruct (applyToJob_existing w1 jobId userId data' (a := b) Hb)
    as [Hthrow H409].
  split; [exact Hthrow|]. split.
  - destruct (applyToJob_store w1 jobId userId data')
      as [Hsame | (_ & a' & _ & _ & _ & Hok' & _)]; [exact Hsame|].
    destruct Hthrow as [e He]. rewrite He in Hok'. discriminate Hok'.
  - intros Hlater. apply H409. exists job, user.
    unfold w1. cbn [db clock Db.jobs Db.users].
    repeat split; try assumption.
    unfold clockAfterExpiryCheck.
    destruct (Job.expiresAt job); [exact Hlater | exact I].
Qed.

(** X8, witness: two applications in a row to a job expiring at 50, with
    the clock at 10 and 11. *)
Lemma applyToJob_twice_witness :
  fst (applyToJob "j1" "u1" (mkApplyToJobData None None)
         (snd (applyToJob "j1" "u1" (mkApplyToJobData (Some "hi") None)
                 {| db := sampleDb [sampleJob "j1" PUBLISHED (Some 50) None None]
                                   [] [];
                    clock := tickingFrom 10 1 |})))
  = Throw (AppError "You have already applied to this job" 409).
Proof.
  apply (@applyToJob_twice
           {| db := sampleDb [sampleJob "j1" PUBLISHED (Some 50) None None] [] [];
              clock := tickingFrom 10 1 |}
           "j1" "u1" (mkApplyToJobData (Some "hi") None)
           (mkApplyToJobData None None)
           (sampleJob "j1" PUBLISHED (Some 50) None None)
           (Application.mk "j1" "u1" (Some "hi") None PENDING)).
  - reflexivity.
  - reflexivity.
  - cbn. unfold tickingFrom. lia.
Defined.

(* --------------------------------------------------------------------- *)
(** *** The expiry sweep and the listings *)
(* --------------------------------------------------------------------- *)

Lemma isDue_spec (now : Z) (j : Job.t) :
  isDue now j = true
  <-> Job.status j = PUBLISHED
      /\ exists e, Job.expiresAt j = Some e /\ e <= now.
Proof.
  unfold isDue. rewrite andb_true_iff, JobStatus_eqb_eq.
  destruct (Job.expiresAt j) as [e|].
  - rewrite Z.leb_le. split.
    + intros [Hs He]. split; [exact Hs|]. exists e. split; [reflexivity | exact He].
    + intros [Hs (e' & He' & Hle)]. injection He' as <-. split; assumption.
  - split; [intros [_ H]; discriminate H | intros [_ (e & H & _)]; discriminate H].
Qed.

Lemma filter_map_sweep (now : Z) (p : Job.t -> bool) (l : list Job.t) :
  (forall j, isDue now j = true -> p j = false /\ p (markExpired now j) = false) ->
  filter p (map (sweep now) l) = filter p l.
Proof.
  intros H. induction l as [|j l IH]; [reflexivity|].
  cbn [map filter]. rewrite IH. unfold sweep.
  destruct (isDue now j) eqn:Hd; [|reflexivity].
  destruct (H j Hd) as [-> ->]. reflexivity.
Qed.

Lemma admits_due (d : Db.t) (now now' : Z) (f : JobFilters.t) (j : Job.t) :
  now <= now' -> isDue now j = true ->
  admits d now' f j = false /\ admits d now' f (markExpired now j) = false.
Proof.
  intros Hle Hd. apply isDue_spec in Hd. destruct Hd as [Hs (e & He & Hen)].
  unfold admits. split.
  - rewrite He. assert (Hlt : (now' <? e) = false) by (apply Z.ltb_ge; lia).
    rewrite Hlt, andb_false_r. reflexivity.
  - reflexivity.
Qed.

(** X9: the sweep does not change what a search returns.  For every filter
    request compiled at the instant of the sweep or later, the rows selected
    from the store after [expireOldJobs] are the rows selected before it:
    the jobs that the sweep marks were already left out as expired. *)
Theorem expireOldJobs_invisible_to_search
  (w : World) (f : JobFilters.t) (now' : Z) :
  clock w 0%nat <= now' ->
  matching (db (snd (expireOldJobs w))) (searchJobs_where now' f)
  = matching (db w) (searchJobs_where now' f).
Proof.
  intros Hle. rewrite expireOldJobs_run. unfold matching. cbn [snd db Db.jobs].
  rewrite (filter_ext _ (fun j => admits (db w) now' f j)
             (fun j => evalWhere_searchJobs_where _ now' f j)).
  rewrite (filter_ext (fun j => evalWhere (db w) j (searchJobs_where now' f))
             (fun j => admits (db w) now' f j)
             (fun j => evalWhere_searchJobs_where _ now' f j)).
  apply filter_map_sweep. intros j Hd.
  apply (@admits_due (db w) (clock w 0%nat) now' f j Hle Hd).
Qed.

(** X9, witness: a search at 8, after a sweep at 7, over one overdue job
    and one job still open. *)
Lemma expireOldJobs_invisible_to_search_witness :
  matching
    (db (snd (expireOldJobs
                {| db := sampleDb [sampleJob "j1" PUBLISHED (Some 5) None None;
                                   sampleJob "j2" PUBLISHED (Some 9) None None]
                                  [] [];
                   clock := tickingFrom 7 1 |})))
    (searchJobs_where 8 JobFilters.empty)
  = matching
      (sampleDb [sampleJob "j1" PUBLISHED (Some 5) None None;
                 sampleJob "j2" PUBLISHED (Some 9) None None] [] [])
      (searchJobs_where 8 JobFilters.empty).
Proof.
  apply (@expireOldJobs_invisible_to_search
           {| db := sampleDb [sampleJob "j1" PUBLISHED (Some 5) None None;
                              sampleJob "j2" PUBLISHED (Some 9) None None]
                             [] [];
              clock := tickingFrom 7 1 |}
           JobFilters.empty 8).
  cbn. unfold tickingFrom. lia.
Defined.

(** X10: after [expireOldJobs], every job of the store that is still
    published has no expiry or an expiry later than the instant of the
    sweep. *)
Theorem expireOldJobs_leaves_no_overdue_job (w : World) (j : Job.t) :
  In j (Db.jobs (db (snd (expireOldJobs w)))) ->
  Job.status j = PUBLISHED ->
  baseline (clock w 0%nat) j.
Proof.
  rewrite expireOldJobs_run. cbn [snd db Db.jobs].
  intros Hin Hst. apply in_map_iff in Hin. destruct Hin as (j0 & <- & _).
  unfold sweep in *. destruct (isDue (clock w 0%nat) j0) eqn:Hd.
  - cbn in Hst. discriminate Hst.
  - split; [exact Hst|].
    destruct (Job.expiresAt j0) as [e|] eqn:He; [|left; reflexivity].
    right. exists e. split; [reflexivity|].
    unfold isDue in Hd. rewrite Hst, He in Hd. cbn in Hd.
    apply Z.leb_gt in Hd. exact Hd.
Qed.

(** X10, witness: the job still open after a sweep at 7. *)
Lemma expireOldJobs_leaves_no_overdue_job_witness :
  baseline 7 (sampleJob "j2" PUBLISHED (Some 9) None None).
Proof.
  apply (@expireOldJobs_leaves_no_overdue_job
           {| db := sampleDb [sampleJob "j1" PUBLISHED (Some 5) None None;
                              sampleJob "j2" PUBLISHED (Some 9) None None]
                             [] [];
              clock := tickingFrom 7 1 |}
           (sampleJob "j2" PUBLISHED (Some 9) None None)).
  - cbn. right. left. reflexivity.
  - reflexivity.
Defined.

(* --------------------------------------------------------------------- *)
(** *** Deleting: what a call can do *)
(* --------------------------------------------------------------------- *)

Lemma deleteJob_outcome (w : World) (jobId userId : string) :
  match fst (deleteJob jobId userId w) with
  | Throw _ => snd (deleteJob jobId userId w) = w
  | Ok _ =>
      (exists job company,
         find (fun j => (Job.id j =? jobId)%string) (Db.jobs (db w)) = Some job
         /\ find (fun c => (Company.id c =? Job.companyId job)%string)
                 (Db.companies (db w)) = Some company
         /\ Company.ownerId company = userId
         /\ applicationCount (db w) jobId = 0)
      /\ clock (snd (deleteJob jobId userId w)) = clock w
  end.
Proof.
  unfold deleteJob, job_findUnique, company_findUnique, job_delete,
    bind, getDb, putDb, ret, throw.
  run_step.
  destruct (find (fun j => (Job.id j =? jobId)%string) (Db.jobs (db w)))
    as [job|] eqn:Hjob; run_step; [|reflexivity].
  destruct (find (fun c => (Company.id c =? Job.companyId job)%string)
                 (Db.companies (db w))) as [company|] eqn:Hco; run_step;
    [|reflexivity].
  destruct (Company.ownerId company =? userId)%string eqn:Hown;
    cbn [negb]; run_step; [|reflexivity].
  destruct (0 <? applicationCount (db w) jobId) eqn:Hcount; run_step;
    [reflexivity|].
  split; [|reflexivity].
  exists job, company. apply String.eqb_eq in Hown. apply Z.ltb_ge in Hcount.
  repeat split; try assumption; try reflexivity.
  unfold applicationCount in *. lia.
Qed.

(** X11: [deleteJob] either throws, and then leaves the store and the clock
    exactly as they were, or succeeds, and then the job exists, its company
    is owned by the caller and the job has no application.  It never reads
    the clock. *)
Theorem deleteJob_outcomes (w : World) (jobId userId : string) :
  match fst (deleteJob jobId userId w) with
  | Throw _ => snd (deleteJob jobId userId w) = w
  | Ok _ =>
      (exists job company,
         find (fun j => (Job.id j =? jobId)%string) (Db.jobs (db w)) = Some job
         /\ find (fun c => (Company.id c =? Job.companyId job)%string)
                 (Db.companies (db w)) = Some company
         /\ Company.ownerId company = userId
         /\ applicationCount (db w) jobId = 0)
      /\ clock (snd (deleteJob jobId userId w)) = clock w
  end.
Proof. apply deleteJob_outcome. Qed.

(* --------------------------------------------------------------------- *)
(** *** Publishing and closing *)
(* --------------------------------------------------------------------- *)

Lemma find_id (jobId : string) (l : list Job.t) (job : Job.t) :
  find (fun j => (Job.id j =? jobId)%string) l = Some job -> Job.id job = jobId.
Proof.
  intros H. apply find_some in H. destruct H as [_ H].
  apply String.eqb_eq in H. exact H.
Qed.

Lemma find_restatus (jobId : string) (st : JobStatus) (now : Z)
  (l : list Job.t) (job : Job.t) :
  find (fun j => (Job.id j =? jobId)%string) l = Some job ->
  find (fun j => (Job.id j =? jobId)%string) (restatus jobId st now l)
  = Some (withStatus st now job).
Proof.
  induction l as [|r l IH]; cbn; [discriminate|].
  destruct (Job.id r =? jobId)%string eqn:E.
  - intros H. injection H as <-. cbn. rewrite E. reflexivity.
  - intros H. rewrite E. apply IH. exact H.
Qed.

Lemma publishJob_run (w : World) (jobId userId : string) (job : Job.t) :
  ownsJob (db w) jobId userId job ->
  Job.status job <> PUBLISHED ->
  publishJob jobId userId w
  = (Ok (withStatus PUBLISHED (clock w 0%nat) job),
     afterRestatus jobId PUBLISHED w).
Proof.
  intros (Hjob & company & Hco & Hown) Hst.
  pose proof (@find_id jobId _ job Hjob) as Hid.
  unfold publishJob, job_findUnique, company_findUnique, job_update,
    bind, getDb, putDb, ret, throw, newDate, afterRestatus, restatus.
  run_step. rewrite Hjob. run_step. rewrite Hco. run_step.
  rewrite Hown, String.eqb_refl. cbn [negb].
  destruct (JobStatus_eqb (Job.status job) PUBLISHED) eqn:E;
    [apply JobStatus_eqb_eq in E; contradiction|].
  run_step. rewrite Hid. reflexivity.
Qed.

Lemma closeJob_run (w : World) (jobId userId : string) (job : Job.t) :
  ownsJob (db w) jobId userId job ->
  Job.status job <> CLOSED ->
  closeJob jobId userId w
  = (Ok (withStatus CLOSED (clock w 0%nat) job),
     afterRestatus jobId CLOSED w).
Proof.
  intros (Hjob & company & Hco & Hown) Hst.
  pose proof (@find_id jobId _ job Hjob) as Hid.
  unfold closeJob, job_findUnique, company_findUnique, job_update,
    bind, getDb, putDb, ret, throw, newDate, afterRestatus, restatus.
  run_step. rewrite Hjob. run_step. rewrite Hco. run_step.
  rewrite Hown, String.eqb_refl. cbn [negb].
  destruct (JobStatus_eqb (Job.status job) CLOSED) eqn:E;
    [apply JobStatus_eqb_eq in E; contradiction|].
  run_step. rewrite Hid. reflexivity.
Qed.

Lemma ownsJob_afterRestatus
  (w : World) (jobId userId : string) (st : JobStatus) (job : Job.t) :
  ownsJob (db w) jobId userId job ->
  ownsJob (db (afterRestatus jobId st w)) jobId userId
          (withStatus st (clock w 0%nat) job).
Proof.
  intros (Hjob & company & Hco & Hown). split.
  - cbn [afterRestatus db Db.jobs]. apply find_restatus. exact Hjob.
  - exists company. split; [exact Hco | exact Hown].
Qed.

Lemma restatus_other (jobId : string) (st : JobStatus) (now : Z)
  (l : list Job.t) (j : Job.t) :
  Job.id j <> jobId -> (In j (restatus jobId st now l) <-> In j l).
Proof.
  intros Hne. unfold restatus. rewrite in_map_iff. split.
  - intros (r & Hr & Hin). destruct (Job.id r =? jobId)%string eqn:E.
    + subst j. cbn in Hne. apply String.eqb_eq in E. contradiction.
    + subst j. exact Hin.
  - intros Hin. exists j. apply String.eqb_neq in Hne. rewrite Hne.
    split; [reflexivity | exact Hin].
Qed.

Lemma restatus_same (jobId : string) (st : JobStatus) (now : Z)
  (l : list Job.t) (j : Job.t) :
  In j (restatus jobId st now l) -> Job.id j = jobId ->
  Job.status j = st /\ Job.updatedAt j = now.
Proof.
  unfold restatus. rewrite in_map_iff. intros (r & Hr & _) Hid.
  destruct (Job.id r =? jobId)%string eqn:E.
  - subst j. split; reflexivity.
  - subst j. apply String.eqb_neq in E. contradiction.
Qed.

(** X12: [publishJob], called by the owner of the job's company on a job
    that is not published (a draft, but also a closed or an expired job),
    sets the status of that job to PUBLISHED and its update time to the
    instant of the call, returns the row, and changes no other job and no
    other table. *)
Theorem publishJob_publishes
  (w : World) (jobId userId : string) (job : Job.t) :
  ownsJob (db w) jobId userId job ->
  Job.status job <> PUBLISHED ->
  fst (publishJob jobId userId w) = Ok (withStatus PUBLISHED (clock w 0%nat) job)
  /\ find (fun j => (Job.id j =? jobId)%string)
          (Db.jobs (db (snd (publishJob jobId userId w))))
     = Some (withStatus PUBLISHED (clock w 0%nat) job)
  /\ (forall j, In j (Db.jobs (db (snd (publishJob jobId userId w)))) ->
                Job.id j = jobId ->
                Job.status j = PUBLISHED /\ Job.updatedAt j = clock w 0%nat)
  /\ (forall j, Job.id j <> jobId ->
        (In j (Db.jobs (db (snd (publishJob jobId userId w))))
         <-> In j (Db.jobs (db w))))
  /\ Db.companies (db (snd (publishJob jobId userId w))) = Db.companies (db w)
  /\ Db.users (db (snd (publishJob jobId userId w))) = Db.users (db w)
  /\ Db.applications (db (snd (publishJob jobId userId w)))
     = Db.applications (db w)
  /\ Db.jobSkills (db (snd (publishJob jobId userId w))) = Db.jobSkills (db w).
Proof.
  intros Hown Hst. rewrite (@publishJob_run w jobId userId job Hown Hst).
  cbn [fst snd afterRestatus db Db.jobs Db.companies Db.users
       Db.applications Db.jobSkills].
  split; [reflexivity|].
  split; [apply find_restatus; apply Hown|].
  split; [intros j; apply restatus_same|].
  split; [intros j; apply restatus_other|].
  repeat split.
Qed.

(** X12, witness: the owner publishes a closed job at instant 10. *)
Lemma publishJob_publishes_witness :
  fst (publishJob "j1" "u-owner"
         {| db := sampleDb [sampleJob "j1" CLOSED None None None] [] [];
            clock := tickingFrom 10 1 |})
  = Ok (withStatus PUBLISHED 10 (sampleJob "j1" CLOSED None None None)).
Proof.
  apply (@publishJob_publishes
           {| db := sampleDb [sampleJob "j1" CLOSED None None None] [] [];
              clock := tickingFrom 10 1 |}
           "j1" "u-owner" (sampleJob "j1" CLOSED None None None)).
  - split; [reflexivity|]. exists sampleCompany. split; reflexivity.
  - discriminate.
Defined.

(** X13: [closeJob], called by the owner of the job's company on a job that
    is not closed, sets the status of that job to CLOSED and its update time
    to the instant of the call, returns the row, and changes no other job
    and no other table. *)
Theorem closeJob_closes
  (w : World) (jobId userId : string) (job : Job.t) :
  ownsJob (db w) jobId userId job ->
  Job.status job <> CLOSED ->
  fst (closeJob jobId userId w) = Ok (withStatus CLOSED (clock w 0%nat) job)
  /\ find (fun j => (Job.id j =? jobId)%string)
          (Db.jobs (db (snd (closeJob jobId userId w))))
     = Some (withStatus CLOSED (clock w 0%nat) job)
  /\ (forall j, In j (Db.jobs (db (snd (closeJob jobId userId w)))) ->
                Job.id j = jobId ->
                Job.status j = CLOSED /\ Job.updatedAt j = clock w 0%nat)
  /\ (forall j, Job.id j <> jobId ->
        (In j (Db.jobs (db (snd (closeJob jobId userId w))))
         <-> In j (Db.jobs (db w))))
  /\ Db.companies (db (snd (closeJob jobId userId w))) = Db.companies (db w)
  /\ Db.users (db (snd (closeJob jobId userId w))) = Db.users (db w)
  /\ Db.applications (db (snd (closeJob jobId userId w)))
     = Db.applications (db w)
  /\ Db.jobSkills (db (snd (closeJob jobId userId w))) = Db.jobSkills (db w).
Proof.
  intros Hown Hst. rewrite (@closeJob_run w jobId userId job Hown Hst).
  cbn [fst snd afterRestatus db Db.jobs Db.companies Db.users
       Db.applications Db.jobSkills].
  split; [reflexivity|].
  split; [apply find_restatus; apply Hown|].
  split; [intros j; apply restatus_same|].
  split; [intros j; apply restatus_other|].
  repeat split.
Qed.

(** X13, witness: the owner closes a published job at instant 10. *)
Lemma closeJob_closes_witness :
  fst (closeJob "j1" "u-owner"
         {| db := sampleDb [sampleJob "j1" PUBLISHED None None None] [] [];
            clock := tickingFrom 10 1 |})
  = Ok (withStatus CLOSED 10 (sampleJob "j1" PUBLISHED None None None)).
Proof.
  apply (@closeJob_closes
           {| db := sampleDb [sampleJob "j1" PUBLISHED None None None] [] [];
              clock := tickingFrom 10 1 |}
           "j1" "u-owner" (sampleJob "j1" PUBLISHED None None None)).
  - split; [reflexivity|]. exists sampleCompany. split; reflexivity.
  - discriminate.
Defined.

Lemma publishJob_outcome (w : World) (jobId userId : string) :
  match fst (publishJob jobId userId w) with
  | Throw _ => snd (publishJob jobId userId w) = w
  | Ok _ => exists job,
      ownsJob (db w) jobId userId job /\ Job.status job <> PUBLISHED
  end.
Proof.
  unfold publishJob, job_findUnique, company_findUnique, job_update,
    bind, getDb, putDb, ret, throw, newDate, ownsJob.
  run_step.
  destruct (find (fun j => (Job.id j =? jobId)%string) (Db.jobs (db w)))
    as [job|] eqn:Hjob; run_step; [|reflexivity].
  destruct (find (fun c => (Company.id c =? Job.companyId job)%string)
                 (Db.companies (db w))) as [company|] eqn:Hco; run_step;
    [|reflexivity].
  destruct (Company.ownerId company =? userId)%string eqn:Hown;
    cbn [negb]; run_step; [|reflexivity].
  destruct (JobStatus_eqb (Job.status job) PUBLISHED) eqn:Hst; run_step;
    [reflexivity|].
  exists job. apply String.eqb_eq in Hown.
  split; [split; [reflexivity | exists company; split; assumption]|].
  intros H. apply JobStatus_eqb_eq in H. congruence.
Qed.

Lemma closeJob_outcome (w : World) (jobId userId : string) :
  match fst (closeJob jobId userId w) with
  | Throw _ => snd (closeJob jobId userId w) = w
  | Ok _ => exists job,
      ownsJob (db w) jobId userId job /\ Job.status job <> CLOSED
  end.
Proof.
  unfold closeJob, job_findUnique, company_findUnique, job_update,
    bind, getDb, putDb, ret, throw, newDate, ownsJob.
  run_step.
  destruct (find (fun j => (Job.id j =? jobId)%string) (Db.jobs (db w)))
    as [job|] eqn:Hjob; run_step; [|reflexivity].
  destruct (find (fun c => (Company.id c =? Job.companyId job)%string)
                 (Db.companies (db w))) as [company|] eqn:Hco; run_step;
    [|reflexivity].
  destruct (Company.ownerId company =? userId)%string eqn:Hown;
    cbn [negb]; run_step; [|reflexivity].
  destruct (JobStatus_eqb (Job.status job) CLOSED) eqn:Hst; run_step;
    [reflexivity|].
  exists job. apply String.eqb_eq in Hown.
  split; [split; [reflexivity | exists company; split; assumption]|].
  intros H. apply JobStatus_eqb_eq in H. congruence.
Qed.

(** X14: [publishJob] and [closeJob] change the store only when they
    succeed.  A call that throws (job not found, caller not the owner, job
    already in the requested status) leaves the store and the clock exactly
    as they were; a call that succeeds was made by the owner of the job's
    company on a job that was not yet in the requested status. *)
Theorem publishJob_closeJob_outcomes (w : World) (jobId userId : string) :
  match fst (publishJob jobId userId w) with
  | Throw _ => snd (publishJob jobId userId w) = w
  | Ok _ => exists job,
      ownsJob (db w) jobId userId job /\ Job.status job <> PUBLISHED
  end
  /\ match fst (closeJob jobId userId w) with
     | Throw _ => snd (closeJob jobId userId w) = w
     | Ok _ => exists job,
         ownsJob (db w) jobId userId job /\ Job.status job <> CLOSED
     end.
Proof. split; [apply publishJob_outcome | apply closeJob_outcome]. Qed.

Lemma publishJob_already (w : World) (jobId userId : string) (job : Job.t) :
  ownsJob (db w) jobId userId job ->
  Job.status job = PUBLISHED ->
  publishJob jobId userId w = (Throw (AppError "Job is already published" 400), w).
Proof.
  intros (Hjob & company & Hco & Hown) Hst.
  unfold publishJob, job_findUnique, company_findUnique, bind, getDb, ret, throw.
  run_step. rewrite Hjob. run_step. rewrite Hco. run_step.
  rewrite Hown, String.eqb_refl, Hst. reflexivity.
Qed.

Lemma closeJob_already (w : World) (jobId userId : string) (job : Job.t) :
  ownsJob (db w) jobId userId job ->
  Job.status job = CLOSED ->
  closeJob jobId userId w = (Throw (AppError "Job is already closed" 400), w).
Proof.
  intros (Hjob & company & Hco & Hown) Hst.
  unfold closeJob, job_findUnique, company_findUnique, bind, getDb, ret, throw.
  run_step. rewrite Hjob. run_step. rewrite Hco. run_step.
  rewrite Hown, String.eqb_refl, Hst. reflexivity.
Qed.

Lemma publishJob_ok_world (w : World) (jobId userId : string) (r : Job.t) :
  fst (publishJob jobId userId w) = Ok r ->
  exists job,
    ownsJob (db w) jobId userId job
    /\ r = withStatus PUBLISHED (clock w 0%nat) job
    /\ snd (publishJob jobId userId w) = afterRestatus jobId PUBLISHED w.
Proof.
  intros Hok. pose proof (publishJob_outcome w jobId userId) as H.
  rewrite Hok in H. destruct H as (job & Hown & Hst).
  rewrite (@publishJob_run w jobId userId job Hown Hst) in *.
  cbn [fst snd] in *. injection Hok as <-.
  exists job. repeat split; try apply Hown.
Qed.

Lemma closeJob_ok_world (w : World) (jobId userId : string) (r : Job.t) :
  fst (closeJob jobId userId w) = Ok r ->
  exists job,
    ownsJob (db w) jobId userId job
    /\ r = withStatus CLOSED (clock w 0%nat) job
    /\ snd (closeJob jobId userId w) = afterRestatus jobId CLOSED w.
Proof.
  intros Hok. pose proof (closeJob_outcome w jobId userId) as H.
  rewrite Hok in H. destruct H as (job & Hown & Hst).
  rewrite (@closeJob_run w jobId userId job Hown Hst) in *.
  cbn [fst snd] in *. injection Hok as <-.
  exists job. repeat split; try apply Hown.
Qed.

(** X15: publishing or closing is not repeatable.  After a [publishJob] that
    succeeded, a second [publishJob] of the same job by the same caller
    throws the 400 error "Job is already published" and changes nothing; the
    same holds for [closeJob] with "Job is already closed". *)
Theorem publishJob_closeJob_twice (w : World) (jobId userId : string) :
  (forall r, fst (publishJob jobId userId w) = Ok r ->
     publishJob jobId userId (snd (publishJob jobId userId w))
     = (Throw (AppError "Job is already published" 400),
        snd (publishJob jobId userId w)))
  /\ (forall r, fst (closeJob jobId userId w) = Ok r ->
        closeJob jobId userId (snd (closeJob jobId userId w))
        = (Throw (AppError "Job is already closed" 400),
           snd (closeJob jobId userId w))).
Proof.
  split; intros r Hok.
  - destruct (publishJob_ok_world w jobId userId Hok) as (job & Hown & _ & ->).
    apply (@publishJob_already _ jobId userId
             (withStatus PUBLISHED (clock w 0%nat) job));
      [apply ownsJob_afterRestatus; exact Hown | reflexivity].
  - destruct (closeJob_ok_world w jobId userId Hok) as (job & Hown & _ & ->).
    apply (@closeJob_already _ jobId userId
             (withStatus CLOSED (clock w 0%nat) job));
      [apply ownsJob_afterRestatus; exact Hown | reflexivity].
Qed.

(** X15, witness: a draft published twice, and closed twice, by its owner. *)
Lemma publishJob_closeJob_twice_witness :
  fst (publishJob "j1" "u-owner"
         (snd (publishJob "j1" "u-owner"
                 {| db := sampleDb [sampleJob "j1" DRAFT None None None] [] [];
                    clock := tickingFrom 10 1 |})))
  = Throw (AppError "Job is already published" 400)
  /\ fst (closeJob "j1" "u-owner"
            (snd (closeJob "j1" "u-owner"
                    {| db := sampleDb [sampleJob "j1" DRAFT None None None] [] [];
                       clock := tickingFrom 10 1 |})))
     = Throw (AppError "Job is already closed" 400).
Proof.
  destruct (publishJob_closeJob_twice
              {| db := sampleDb [sampleJob "j1" DRAFT None None None] [] [];
                 clock := tickingFrom 10 1 |} "j1" "u-owner") as [Hp Hc].
  split.
  - rewrite (Hp (withStatus PUBLISHED 10 (sampleJob "j1" DRAFT None None None))
                eq_refl).
    reflexivity.
  - rewrite (Hc (withStatus CLOSED 10 (sampleJob "j1" DRAFT None None None))
                eq_refl).
    reflexivity.
Defined.

(** X16: a closed job leaves the listings and takes no applications.  After
    a [closeJob] that succeeded, no search, whatever its filters and its
    instant, selects the job, and every [applyToJob] for the job, by
    whichever user, throws the 400 error "This job is not accepting
    applications" and changes nothing. *)
Theorem closeJob_hides_job (w : World) (jobId userId : string) (r : Job.t) :
  fst (closeJob jobId userId w) = Ok r ->
  (forall f now' row,
     In row (matching (db (snd (closeJob jobId userId w)))
                      (searchJobs_where now' f)) ->
     Job.id row <> jobId)
  /\ (forall applicant data,
        applyToJob jobId applicant data (snd (closeJob jobId userId w))
        = (Throw (AppError "This job is not accepting applications" 400),
           snd (closeJob jobId userId w))).
Proof.
  intros Hok.
  destruct (closeJob_ok_world w jobId userId Hok) as (job & Hown & _ & ->).
  split.
  - intros f now' row Hin Hid. unfold matching in Hin.
    apply filter_In in Hin. destruct Hin as [Hin Hev].
    rewrite evalWhere_searchJobs_where in Hev.
    cbn [afterRestatus db Db.jobs] in Hin.
    destruct (@restatus_same jobId CLOSED (clock w 0%nat) (Db.jobs (db w)) row Hin Hid) as [Hst _].
    unfold admits in Hev. rewrite Hst in Hev. cbn in Hev. discriminate Hev.
  - intros applicant data.
    pose proof (@ownsJob_afterRestatus w jobId userId CLOSED job Hown) as [Hfind _].
    unfold applyToJob, job_findUnique, bind, getDb, ret, throw.
    run_step. rewrite Hfind. reflexivity.
Qed.

(** X16, witness: the sample job seeker applies to a job just closed. *)
Lemma closeJob_hides_job_witness :
  fst (applyToJob "j1" "u1" (mkApplyToJobData None None)
         (snd (closeJob "j1" "u-owner"
                 {| db := sampleDb [sampleJob "j1" PUBLISHED None None None] [] [];
                    clock := tickingFrom 10 1 |})))
  = Throw (AppError "This job is not accepting applications" 400).
Proof.
  destruct (@closeJob_hides_job
              {| db := sampleDb [sampleJob "j1" PUBLISHED None None None] [] [];
                 clock := tickingFrom 10 1 |}
              "j1" "u-owner"
              (withStatus CLOSED 10 (sampleJob "j1" PUBLISHED None None None))
              eq_refl) as [_ Happly].
  rewrite Happly. reflexivity.
Defined.

(** X17: a published job enters the listings.  After a [publishJob] that
    succeeded, a search without filters at an instant at which the job has
    not expired selects the returned row; a job whose expiry is already past
    is published all the same but is not selected. *)
Theorem publishJob_lists_job
  (w : World) (jobId userId : string) (r : Job.t) (now' : Z) :
  fst (publishJob jobId userId w) = Ok r ->
  (In r (matching (db (snd (publishJob jobId userId w)))
                  (searchJobs_where now' JobFilters.empty))
   <-> match Job.expiresAt r with
       | Some e => now' < e
       | None => True
       end)
  /\ Job.status r = PUBLISHED.
Proof.
  intros Hok.
  destruct (publishJob_ok_world w jobId userId Hok) as (job & Hown & -> & ->).
  split; [|reflexivity].
  pose proof (@ownsJob_afterRestatus w jobId userId PUBLISHED job Hown) as [Hfind _].
  apply find_some in Hfind. destruct Hfind as [Hin _].
  unfold matching. rewrite filter_In, evalWhere_searchJobs_where.
  unfold admits. cbn [JobFilters.empty JobFilters.search JobFilters.category
    JobFilters.type JobFilters.experienceLevel JobFilters.location
    JobFilters.isRemote JobFilters.salaryMin JobFilters.salaryMax
    JobFilters.skills suppliedText salaryMinClause salaryMaxClause
    withStatus Job.status Job.expiresAt JobStatus_eqb andb].
  rewrite !andb_true_r.
  destruct (Job.expiresAt job) as [e|].
  - rewrite Z.ltb_lt. tauto.
  - tauto.
Qed.

(** X17, witness: a draft expiring at 50, published at 10 and searched at
    20. *)
Lemma publishJob_lists_job_witness :
  In (withStatus PUBLISHED 10 (sampleJob "j1" DRAFT (Some 50) None None))
     (matching
        (db (snd (publishJob "j1" "u-owner"
                    {| db := sampleDb [sampleJob "j1" DRAFT (Some 50) None None]
                                      [] [];
                       clock := tickingFrom 10 1 |})))
        (searchJobs_where 20 JobFilters.empty)).
Proof.
  destruct (@publishJob_lists_job
              {| db := sampleDb [sampleJob "j1" DRAFT (Some 50) None None] [] [];
                 clock := tickingFrom 10 1 |}
              "j1" "u-owner"
              (withStatus PUBLISHED 10 (sampleJob "j1" DRAFT (Some 50) None None))
              20 eq_refl) as [Hiff _].
  apply Hiff. cbn. lia.
Defined.

(* --------------------------------------------------------------------- *)
(** *** Similar jobs and jobs by location *)
(* --------------------------------------------------------------------- *)

Lemma existsb_two {A : Type} (p : A -> bool) (a b : A) :
  existsb p [a; b] = p a || p b.
Proof. cbn. rewrite orb_false_r. reflexivity. Qed.

Lemma baseline_eval (d : Db.t) (now : Z) (j : Job.t) :
  JobStatus_eqb (Job.status j) PUBLISHED
  && existsb (evalCond d j) [C_expiresAt IsNull; C_expiresAt (Gt now)] = true
  <-> baseline now j.
Proof.
  rewrite baseline_OR_eval, andb_true_iff, JobStatus_eqb_eq. unfold baseline.
  destruct (Job.expiresAt j) as [e|].
  - rewrite Z.ltb_lt. split.
    + intros [Hs He]. split; [exact Hs|]. right. exists e. split; [reflexivity | exact He].
    + intros [Hs [H | (e' & He' & Hlt)]]; [discriminate H|].
      injection He' as <-. split; assumption.
  - split; [intros [Hs _]; split; [exact Hs | left; reflexivity]
           | intros [Hs _]; split; [exact Hs | reflexivity]].
Qed.

Lemma sameCategory_eq (c : option string) (j : Job.t) :
  sameCategory c j = true <-> Job.categoryId j = c.
Proof.
  unfold sameCategory. destruct c as [a|], (Job.categoryId j) as [b|];
    try (split; [discriminate | discriminate]); try tauto.
  rewrite String.eqb_eq. split; congruence.
Qed.

Lemma hasSkillIn_skillsOf (d : Db.t) (j job : Job.t) :
  hasSkillIn d j (skillsOf d job) = true <-> sharesSkill d j job.
Proof.
  unfold hasSkillIn, skillsOf, sharesSkill. rewrite existsb_exists. split.
  - intros (s & Hs & Hb). apply andb_true_iff in Hb. destruct Hb as [Hj Hex].
    apply String.eqb_eq in Hj. apply existsb_exists in Hex.
    destruct Hex as (k & Hk & Heq). apply String.eqb_eq in Heq.
    apply in_map_iff in Hk. destruct Hk as (s' & Hs' & Hin').
    apply filter_In in Hin'. destruct Hin' as [Hin' Hjob].
    apply String.eqb_eq in Hjob.
    exists s, s'. repeat split; try assumption. congruence.
  - intros (s & s' & Hs & Hj & Hs' & Hjob & Heq). exists s. split; [exact Hs|].
    apply andb_true_iff. split; [apply String.eqb_eq; exact Hj|].
    apply existsb_exists. exists (JobSkill.skillId s'). split.
    + apply in_map_iff. exists s'. split; [reflexivity|].
      apply filter_In. split; [exact Hs' | apply String.eqb_eq; exact Hjob].
    + apply String.eqb_eq. exact Heq.
Qed.

(** X18: for a job that exists, [getSimilarJobs] returns the engine's page
    (newest first, at most [limit] rows, 5 by default) of the rows that are
    not the job itself, are published and not expired at the instant of the
    call, and have the category of the job or one of its skills.  The
    category test is an equality of possibly absent values: a job without
    category is similar to every other listed job without category. *)
Theorem getSimilarJobs_selects
  (paginate : Db.t -> OrderBy -> Z -> Z -> list Job.t -> list Job.t)
  (w : World) (jobId : string) (limit : option Z) (job : Job.t) :
  find (fun j => (Job.id j =? jobId)%string) (Db.jobs (db w)) = Some job ->
  fst (getSimilarJobs paginate jobId limit w)
  = Ok (paginate (db w) (OrderByField "createdAt" desc) 0
          (match limit with Some l => l | None => 5 end)
          (filter (similarTo (db w) (clock w 0%nat) job) (Db.jobs (db w))))
  /\ forall j,
       similarTo (db w) (clock w 0%nat) job j = true
       <-> (Job.id j <> jobId
            /\ baseline (clock w 0%nat) j
            /\ (Job.categoryId j = Job.categoryId job
                \/ sharesSkill (db w) j job)).
Proof.
  intros Hjob. pose proof (@find_id jobId _ job Hjob) as Hid. subst jobId.
  split.
  - unfold getSimilarJobs, job_findUnique, bind, getDb, ret, newDate.
    run_step. rewrite Hjob. run_step. reflexivity.
  - intros j. unfold similarTo, evalWhereX, similarWhere.
    cbn [wx_idNot wx_status wx_OR wx_AND onKey forallb evalCondX].
    rewrite (existsb_two (evalCondX (db w) j)). cbn [evalCondX].
    rewrite andb_true_r, !andb_true_iff, orb_true_iff.
    pose proof (baseline_eval (db w) (clock w 0%nat) j) as Hb.
    rewrite andb_true_iff in Hb.
    pose proof (sameCategory_eq (Job.categoryId job) j) as Hc.
    pose proof (hasSkillIn_skillsOf (db w) j job) as Hk.
    rewrite negb_true_iff, String.eqb_neq. tauto.
Qed.

(** X18, witness: two jobs without category are similar to each other. *)
Lemma getSimilarJobs_selects_witness :
  fst (getSimilarJobs storedOrder "j1" None
         {| db := sampleDb [sampleJob "j1" PUBLISHED None None None;
                            sampleJob "j2" PUBLISHED None None None] [] [];
            clock := tickingFrom 10 1 |})
  = Ok [sampleJob "j2" PUBLISHED None None None].
Proof.
  destruct (@getSimilarJobs_selects storedOrder
              {| db := sampleDb [sampleJob "j1" PUBLISHED None None None;
                                 sampleJob "j2" PUBLISHED None None None] [] [];
                 clock := tickingFrom 10 1 |}
              "j1" None (sampleJob "j1" PUBLISHED None None None) eq_refl)
    as [Hrun _].
  rewrite Hrun. reflexivity.
Defined.

(** X19: [getJobsByLocation] selects the jobs that are published and not
    expired and are either remote or have a location containing the
    requested text, whatever the case of the letters: a remote job is
    returned for every location.  The page is selected at the first reading
    of the clock and the total is counted at the second. *)
Theorem getJobsByLocation_selects
  (paginate : Db.t -> OrderBy -> Z -> Z -> list Job.t -> list Job.t)
  (w : World) (location : string) (skip limit : Z) :
  fst (getJobsByLocation paginate location skip limit w)
  = Ok {| jobs := paginate (db w) (OrderByField "createdAt" desc) skip limit
                    (filter (inLocation (db w) location (clock w 0%nat))
                            (Db.jobs (db w)));
          total := Z.of_nat (List.length
                    (filter (inLocation (db w) location (clock w 1%nat))
                            (Db.jobs (db w)))) |}
  /\ forall now j,
       inLocation (db w) location now j = true
       <-> (baseline now j
            /\ (Job.isRemote j = true
                \/ exists l, Job.location j = Some l
                     /\ JS.includes (JS.toLowerCase location) (JS.toLowerCase l)
                        = true)).
Proof.
  split; [reflexivity|].
  intros now j. unfold inLocation, evalWhereX, locationWhere.
  cbn [wx_idNot wx_status wx_OR wx_AND onKey forallb evalCondX andb].
  rewrite (existsb_two (evalCondX (db w) j)). cbn [evalCondX].
  rewrite andb_true_r, andb_true_iff, orb_true_iff.
  rewrite (baseline_eval (db w)).
  unfold containsI. destruct (Job.isRemote j); cbn [Bool.eqb].
  - tauto.
  - destruct (Job.location j) as [l|].
    + split.
      * intros [Hb [H | H]]; [|discriminate H].
        split; [exact Hb|]. right. exists l. split; [reflexivity | exact H].
      * intros [Hb [H | (l' & Hl' & H)]]; [discriminate H|].
        injection Hl' as <-. split; [exact Hb | left; exact H].
    + split.
      * intros [_ [H | H]]; discriminate H.
      * intros [_ [H | (l' & Hl' & _)]]; [discriminate H | discriminate Hl'].
Qed.

(* --------------------------------------------------------------------- *)
(** *** A user's applications *)
(* --------------------------------------------------------------------- *)

(** X20: the total reported by [getUserApplications] is the number of
    applications of the user, whatever the page asked for; an [applyToJob]
    that succeeds raises the applicant's total by one and nobody else's, and
    one that throws changes no total. *)
Theorem getUserApplications_total_follows_applyToJob
  (paginateApplications : Db.t -> Z -> Z -> list Application.t
                          -> list Application.t)
  (w : World) (jobId userId : string) (data : ApplyToJobData)
  (user : string) (skip limit skip' limit' : Z) :
  exists before after,
    fst (getUserApplications paginateApplications user skip limit w) = Ok before
    /\ fst (getUserApplications paginateApplications user skip' limit'
              (snd (applyToJob jobId userId data w))) = Ok after
    /\ applicationsTotal before
       = Z.of_nat (List.length
           (filter (fun a => (Application.applicantId a =? user)%string)
                   (Db.applications (db w))))
    /\ applicationsTotal after
       = applicationsTotal before
         + match fst (applyToJob jobId userId data w) with
           | Ok _ => if (userId =? user)%string then 1 else 0
           | Throw _ => 0
           end.
Proof.
  unfold getUserApplications, bind, getDb, ret. run_step.
  eexists. eexists. split; [reflexivity|]. split; [reflexivity|].
  cbn [applicationsTotal]. split; [reflexivity|].
  destruct (applyToJob_store w jobId userId data)
    as [Hsame | (_ & a & _ & Ha & _ & Hok & Hdb)].
  - rewrite Hsame.
    destruct (fst (applyToJob jobId userId data w)) as [a|e] eqn:Hres;
      [|lia].
    exfalso.
    destruct (applyToJob_ok_inv w jobId userId data Hres)
      as [(job & u & Hjob & Hst & Hexp & Hu & Hrole) Hnone].
    rewrite (@applyToJob_accepts w jobId userId data job u
               Hjob Hst Hexp Hu Hrole Hnone) in Hsame.
    cbn [snd db] in Hsame.
    apply (f_equal Db.applications) in Hsame. cbn [Db.applications] in Hsame.
    apply (f_equal (@List.length _)) in Hsame.
    rewrite length_app in Hsame. cbn in Hsame. lia.
  - rewrite Hok, Hdb. cbn [Db.applications].
    rewrite filter_app, length_app. cbn [filter]. rewrite Ha.
    destruct (userId =? user)%string; cbn [List.length]; lia.
Qed.

(* --------------------------------------------------------------------- *)
(** *** The error handler *)
(* --------------------------------------------------------------------- *)

Lemma recognisedName_false (n : string) :
  recognisedName n = false ->
  (n =? "PrismaClientKnownRequestError")%string = false
  /\ (n =? "ValidationError")%string = false
  /\ (n =? "JsonWebTokenError")%string = false
  /\ (n =? "TokenExpiredError")%string = false.
Proof.
  unfold recognisedName. intros H.
  repeat (apply orb_false_iff in H; destruct H as [H ?]).
  repeat split; assumption.
Qed.

(** X21: outside development mode the handler gives nothing away.  The
    response never carries [stack] and [name]; an error that is neither an
    [AppError] nor of a recognised kind is answered with status 500 and the
    message "Something went wrong"; an [AppError] that is not operational
    and not of a recognised kind keeps its status code but its message is
    replaced by "Something went wrong". *)
Theorem errorHandler_production_hides_details
  (nodeEnv : option string) (error : ErrorHandler.JsError) (url method : string) :
  ErrorHandler.isDevelopment nodeEnv = false ->
  ErrorHandler.withDetails (ErrorHandler.errorHandler nodeEnv error url method)
  = false
  /\ (recognisedName (ErrorHandler.name error) = false ->
      ErrorHandler.appError error = None ->
      ErrorHandler.statusCode
        (ErrorHandler.errorHandler nodeEnv error url method) = 500
      /\ ErrorHandler.errorMessage
           (ErrorHandler.errorHandler nodeEnv error url method)
         = "Something went wrong")
  /\ (forall sc,
        recognisedName (ErrorHandler.name error) = false ->
        ErrorHandler.appError error = Some (sc, false) ->
        ErrorHandler.statusCode
          (ErrorHandler.errorHandler nodeEnv error url method) = sc
        /\ ErrorHandler.errorMessage
             (ErrorHandler.errorHandler nodeEnv error url method)
           = "Something went wrong").
Proof.
  intros Hdev. split; [|split].
  - unfold ErrorHandler.errorHandler. rewrite Hdev.
    destruct (ErrorHandler.appError error) as [[sc op]|];
      repeat match goal with
             | |- context [if ?b then _ else _] => destruct b
             end; reflexivity.
  - intros Hn Happ. apply recognisedName_false in Hn.
    destruct Hn as (H1 & H2 & H3 & H4).
    unfold ErrorHandler.errorHandler. rewrite H1, H2, H3, H4, Happ, Hdev.
    split; reflexivity.
  - intros sc Hn Happ. apply recognisedName_false in Hn.
    destruct Hn as (H1 & H2 & H3 & H4).
    unfold ErrorHandler.errorHandler. rewrite H1, H2, H3, H4, Happ, Hdev.
    split; reflexivity.
Qed.

(** X21, witness: a [TypeError] in production. *)
Lemma errorHandler_production_hides_details_witness :
  ErrorHandler.errorHandler (Some "production")
    (ErrorHandler.mkJsError "TypeError" "x is undefined" None None)
    "/api/v1/jobs" "GET"
  = ErrorHandler.mkResponse 500 "Something went wrong" false
                            "/api/v1/jobs" "GET".
Proof.
  destruct (@errorHandler_production_hides_details (Some "production")
              (ErrorHandler.mkJsError "TypeError" "x is undefined" None None)
              "/api/v1/jobs" "GET" eq_refl) as (_ & H & _).
  destruct (H eq_refl eq_refl) as [_ _]. reflexivity.
Defined.

(** X22: a store error ([PrismaClientKnownRequestError]) is answered by its
    code, in every environment: P2002 with 409 and "Unique constraint
    violation", P2003 with 400 and "Foreign key constraint violation", any
    other code but P2025 with 400 and "Database operation failed".  For
    P2025 the status is 404 and the message is the one set before: the
    error's own message when it is an [AppError], "Internal Server Error"
    otherwise; "Record not found" is never sent. *)
Theorem errorHandler_store_errors
  (nodeEnv : option string) (error : ErrorHandler.JsError) (url method : string) :
  ErrorHandler.name error = "PrismaClientKnownRequestError" ->
  (ErrorHandler.code error = Some "P2002" ->
     ErrorHandler.statusCode (ErrorHandler.errorHandler nodeEnv error url method)
     = 409
     /\ ErrorHandler.errorMessage
          (ErrorHandler.errorHandler nodeEnv error url method)
        = "Unique constraint violation")
  /\ (ErrorHandler.code error = Some "P2025" ->
        ErrorHandler.statusCode
          (ErrorHandler.errorHandler nodeEnv error url method) = 404
        /\ ErrorHandler.errorMessage
             (ErrorHandler.errorHandler nodeEnv error url method)
           = match ErrorHandler.appError error with
             | Some _ => ErrorHandler.message error
             | None => "Internal Server Error"
             end)
  /\ (ErrorHandler.code error = Some "P2003" ->
        ErrorHandler.statusCode
          (ErrorHandler.errorHandler nodeEnv error url method) = 400
        /\ ErrorHandler.errorMessage
             (ErrorHandler.errorHandler nodeEnv error url method)
           = "Foreign key constraint violation")
  /\ (ErrorHandler.hasCode (ErrorHandler.code error) "P2002" = false ->
      ErrorHandler.hasCode (ErrorHandler.code error) "P2025" = false ->
      ErrorHandler.hasCode (ErrorHandler.code error) "P2003" = false ->
        ErrorHandler.statusCode
          (ErrorHandler.errorHandler nodeEnv error url method) = 400
        /\ ErrorHandler.errorMessage
             (ErrorHandler.errorHandler nodeEnv error url method)
           = "Database operation failed").
Proof.
  intros Hname. unfold ErrorHandler.errorHandler. rewrite Hname.
  change ("PrismaClientKnownRequestError" =? "PrismaClientKnownRequestError")%string
    with true.
  change ("PrismaClientKnownRequestError" =? "ValidationError")%string with false.
  change ("PrismaClientKnownRequestError" =? "JsonWebTokenError")%string with false.
  change ("PrismaClientKnownRequestError" =? "TokenExpiredError")%string with false.
  split; [|split; [|split]].
  - intros ->. destruct (ErrorHandler.appError error) as [[sc op]|];
      split; reflexivity.
  - intros ->. destruct (ErrorHandler.appError error) as [[sc op]|];
      split; reflexivity.
  - intros ->. destruct (ErrorHandler.appError error) as [[sc op]|];
      split; reflexivity.
  - intros -> -> ->. destruct (ErrorHandler.appError error) as [[sc op]|];
      split; reflexivity.
Qed.

(** X22, witness: a missing record reported by the store. *)
Lemma errorHandler_store_errors_witness :
  ErrorHandler.errorHandler (Some "production")
    (ErrorHandler.mkJsError "PrismaClientKnownRequestError"
                            "No record was found" None (Some "P2025"))
    "/api/v1/jobs/42" "DELETE"
  = ErrorHandler.mkResponse 404 "Internal Server Error" false
                            "/api/v1/jobs/42" "DELETE".
Proof.
  destruct (@errorHandler_store_errors (Some "production")
              (ErrorHandler.mkJsError "PrismaClientKnownRequestError"
                                      "No record was found" None (Some "P2025"))
              "/api/v1/jobs/42" "DELETE" eq_refl) as (_ & H & _).
  destruct (H eq_refl) as [_ _]. reflexivity.
Defined.

(** X23: an operational [AppError] that is not of a recognised kind reaches
    the client unchanged in every environment: the response has the status
    code and the message of the error, and the path and method of the
    request. *)
Theorem errorHandler_relays_AppError
  (nodeEnv : option string) (error : ErrorHandler.JsError) (url method : string)
  (sc : Z) :
  recognisedName (ErrorHandler.name error) = false ->
  ErrorHandler.appError error = Some (sc, true) ->
  ErrorHandler.errorHandler nodeEnv error url method
  = ErrorHandler.mkResponse sc (ErrorHandler.message error)
                            (ErrorHandler.isDevelopment nodeEnv) url method.
Proof.
  intros Hn Happ. apply recognisedName_false in Hn.
  destruct Hn as (H1 & H2 & H3 & H4).
  unfold ErrorHandler.errorHandler. rewrite H1, H2, H3, H4, Happ. reflexivity.
Qed.

(** X23, witness: the duplicate application error on its way out. *)
Lemma errorHandler_relays_AppError_witness :
  ErrorHandler.errorHandler (Some "production")
    (ErrorHandler.mkJsError "Error" "You have already applied to this job"
                            (Some (409, true)) None)
    "/api/v1/jobs/42/apply" "POST"
  = ErrorHandler.mkResponse 409 "You have already applied to this job" false
                            "/api/v1/jobs/42/apply" "POST".
Proof.
  apply (@errorHandler_relays_AppError (Some "production")
           (ErrorHandler.mkJsError "Error" "You have already applied to this job"
                                   (Some (409, true)) None)
           "/api/v1/jobs/42/apply" "POST" 409); reflexivity.
Defined.

(* --------------------------------------------------------------------- *)
(** *** Deleting, together with the other methods *)
(* --------------------------------------------------------------------- *)

Lemma deleteJob_ok_world (w : World) (jobId userId : string) (m : string) :
  fst (deleteJob jobId userId w) = Ok m ->
  snd (deleteJob jobId userId w)
  = {| db := Db.mk
         (filter (fun j => negb (Job.id j =? jobId)%string) (Db.jobs (db w)))
         (Db.companies (db w)) (Db.users (db w)) (Db.applications (db w))
         (filter (fun s => negb (JobSkill.jobId s =? jobId)%string)
                 (Db.jobSkills (db w)));
       clock := clock w |}.
Proof.
  unfold deleteJob, job_findUnique, company_findUnique, job_delete,
    bind, getDb, putDb, ret, throw.
  run_step.
  destruct (find (fun j => (Job.id j =? jobId)%string) (Db.jobs (db w)))
    as [job|]; run_step; [|discriminate].
  destruct (find (fun c => (Company.id c =? Job.companyId job)%string)
                 (Db.companies (db w))) as [company|]; run_step; [|discriminate].
  destruct (Company.ownerId company =? userId)%string;
    cbn [negb]; run_step; [|discriminate].
  destruct (0 <? applicationCount (db w) jobId); run_step; [discriminate|].
  reflexivity.
Qed.

(** X24: a deleted job is gone.  After a [deleteJob] that succeeded, the
    store has no job under that key: [applyToJob], [publishJob], [closeJob]
    and a second [deleteJob] for it all throw the 404 error "Job not found"
    and change nothing, and no search selects a row with that key. *)
Theorem deleteJob_removes_job (w : World) (jobId userId : string) (m : string) :
  fst (deleteJob jobId userId w) = Ok m ->
  (forall u data,
     applyToJob jobId u data (snd (deleteJob jobId userId w))
     = (Throw (AppError "Job not found" 404), snd (deleteJob jobId userId w)))
  /\ (forall u,
        publishJob jobId u (snd (deleteJob jobId userId w))
        = (Throw (AppError "Job not found" 404), snd (deleteJob jobId userId w)))
  /\ (forall u,
        closeJob jobId u (snd (deleteJob jobId userId w))
        = (Throw (AppError "Job not found" 404), snd (deleteJob jobId userId w)))
  /\ (forall u,
        deleteJob jobId u (snd (deleteJob jobId userId w))
        = (Throw (AppError "Job not found" 404), snd (deleteJob jobId userId w)))
  /\ (forall f now row,
        In row (matching (db (snd (deleteJob jobId userId w)))
                         (searchJobs_where now f)) ->
        Job.id row <> jobId).
Proof.
  intros Hok. rewrite (@deleteJob_ok_world w jobId userId m Hok).
  pose proof (find_filter_none (fun j => (Job.id j =? jobId)%string)
                               (Db.jobs (db w))) as Hnone.
  repeat split; intros.
  - unfold applyToJob, job_findUnique, bind, getDb, ret, throw.
    run_step. cbn [Db.jobs]. rewrite Hnone. reflexivity.
  - unfold publishJob, job_findUnique, bind, getDb, ret, throw.
    run_step. cbn [Db.jobs]. rewrite Hnone. reflexivity.
  - unfold closeJob, job_findUnique, bind, getDb, ret, throw.
    run_step. cbn [Db.jobs]. rewrite Hnone. reflexivity.
  - unfold deleteJob, job_findUnique, bind, getDb, ret, throw.
    run_step. cbn [Db.jobs]. rewrite Hnone. reflexivity.
  - unfold matching in H. cbn [db Db.jobs] in H.
    apply filter_In in H. destruct H as [H _].
    apply filter_In in H. destruct H as [_ H].
    apply negb_true_iff, String.eqb_neq in H. exact H.
Qed.

(** X24, witness: the owner deletes a job without applications; an
    application to it is then answered with 404. *)
Lemma deleteJob_removes_job_witness :
  fst (applyToJob "j1" "u1" (mkApplyToJobData None None)
         (snd (deleteJob "j1" "u-owner"
                 {| db := sampleDb [sampleJob "j1" PUBLISHED None None None] [] [];
                    clock := tickingFrom 10 1 |})))
  = Throw (AppError "Job not found" 404).
Proof.
  destruct (@deleteJob_removes_job
              {| db := sampleDb [sampleJob "j1" PUBLISHED None None None] [] [];
                 clock := tickingFrom 10 1 |}
              "j1" "u-owner" "Job deleted successfully" eq_refl) as [Happly _].
  rewrite Happly. reflexivity.
Defined.

(** X25: an application protects the job from deletion.  After an
    [applyToJob] that succeeded, [deleteJob] for that job never succeeds,
    whoever calls it, and leaves the store as it was; for the owner of the
    job's company the error is the 400 that asks to close the job
    instead. *)
Theorem applyToJob_blocks_deleteJob
  (w : World) (jobId applicant : string) (data : ApplyToJobData)
  (a : Application.t) (userId : string) :
  fst (applyToJob jobId applicant data w) = Ok a ->
  (exists e,
     deleteJob jobId userId (snd (applyToJob jobId applicant data w))
     = (Throw e, snd (applyToJob jobId applicant data w)))
  /\ (forall job,
        ownsJob (db w) jobId userId job ->
        fst (deleteJob jobId userId (snd (applyToJob jobId applicant data w)))
        = Throw (AppError
            "Cannot delete job with existing applications. Close the job instead."
            400)).
Proof.
  intros Hok.
  destruct (applyToJob_ok_inv w jobId applicant data Hok)
    as [(job & user & Hjob & Hst & Hexp & Huser & Hrole) Hnone].
  rewrite (@applyToJob_accepts w jobId applicant data job user
             Hjob Hst Hexp Huser Hrole Hnone).
  cbn [snd].
  set (w1 := {| db := _; clock := _ |}).
  assert (Hcount : 0 < applicationCount (db w1) jobId).
  { unfold applicationCount, w1. cbn [db Db.applications].
    rewrite filter_app, length_app. cbn [filter applicationRow Application.jobId].
    rewrite String.eqb_refl. cbn [List.length]. lia. }
  split.
  - pose proof (deleteJob_outcome w1 jobId userId) as Hout.
    destruct (deleteJob jobId userId w1) as [[m|e] w2] eqn:Hrun; cbn [fst snd] in Hout.
    + destruct Hout as [(_ & _ & _ & _ & _ & Hzero) _]. lia.
    + exists e. rewrite Hout. reflexivity.
  - intros job' (Hjob' & company & Hco & Hown).
    apply Z.ltb_lt in Hcount.
    unfold deleteJob, job_findUnique, company_findUnique, bind, getDb, ret, throw.
    run_step. unfold w1 at 1. cbn [db Db.jobs]. rewrite Hjob'. run_step.
    unfold w1 at 1. cbn [db Db.companies]. rewrite Hco. run_step.
    rewrite Hown, String.eqb_refl. cbn [negb]. rewrite Hcount. reflexivity.
Qed.

(** X25, witness: the owner tries to delete a job right after the first
    application to it. *)
Lemma applyToJob_blocks_deleteJob_witness :
  fst (deleteJob "j1" "u-owner"
         (snd (applyToJob "j1" "u1" (mkApplyToJobData None None)
                 {| db := sampleDb [sampleJob "j1" PUBLISHED None None None] [] [];
                    clock := tickingFrom 10 1 |})))
  = Throw (AppError
      "Cannot delete job with existing applications. Close the job instead."
      400).
Proof.
  destruct (@applyToJob_blocks_deleteJob
              {| db := sampleDb [sampleJob "j1" PUBLISHED None None None] [] [];
                 clock := tickingFrom 10 1 |}
              "j1" "u1" (mkApplyToJobData None None)
              (Application.mk "j1" "u1" None None PENDING) "u-owner" eq_refl)
    as [_ Howner].
  apply (Howner (sampleJob "j1" PUBLISHED None None None)).
  split; [reflexivity|]. exists sampleCompany. split; reflexivity.
Defined.
